(** * watermark_cli: a shallow embedding of the photo watermark tool

    The development follows [watermark_cli.py] function by function.
    Python [str] values are modelled as [string] (code points below 256),
    Python [int] as [Z], exceptions as an explicit [Raise] outcome, and the
    mutable world (console, file system, image objects) as a state that is
    threaded through the effectful functions. *)

From Stdlib Require Import ZArith Lia Ascii String List Bool.
From stdpp Require Import base option list gmap strings.

Local Open Scope Z_scope.

(** ** Python strings *)

Module PyStr.

Definition code (c : ascii) : Z := Z.of_N (N_of_ascii c).

(** Whitespace as [str.strip()] sees it: TAB..CR, FS..US, SPACE, NEL, NBSP. *)
Definition is_space (c : ascii) : bool :=
  let n := code c in
  ((9 <=? n) && (n <=? 13)) || ((28 <=? n) && (n <=? 32))
  || (n =? 133) || (n =? 160).

(** Whitespace as [int()] sees it: the ASCII set TAB..CR and SPACE, and the
    non-ASCII spaces, which [int()] first rewrites to SPACE. *)
Definition is_int_space (c : ascii) : bool :=
  let n := code c in
  ((9 <=? n) && (n <=? 13)) || (n =? 32) || (n =? 133) || (n =? 160).

Fixpoint lstrip_with (f : ascii -> bool) (s : string) : string :=
  match s with
  | String c s' => if f c then lstrip_with f s' else s
  | EmptyString => EmptyString
  end.

(** Drops trailing characters satisfying [f]. *)
Fixpoint rstrip_with (f : ascii -> bool) (s : string) : string :=
  match s with
  | String c s' =>
      match rstrip_with f s' with
      | EmptyString => if f c then EmptyString else String c EmptyString
      | r => String c r
      end
  | EmptyString => EmptyString
  end.

(** [s.strip()] *)
Definition strip (s : string) : string :=
  rstrip_with is_space (lstrip_with is_space s).

(** [s.startswith(c)] for a one-character prefix. *)
Definition startswith (c : ascii) (s : string) : bool :=
  match s with
  | String c' _ => Ascii.eqb c' c
  | EmptyString => false
  end.

(** [s[1:]] *)
Definition tail (s : string) : string :=
  match s with
  | String _ s' => s'
  | EmptyString => EmptyString
  end.

(** [len(s)] *)
Definition len (s : string) : Z := Z.of_nat (String.length s).

(** [s[i:j]] for [0 <= i <= j]. *)
Definition slice (i j : nat) (s : string) : string :=
  String.substring i (j - i) s.

(** [s.split(sep)] for a one-character separator: never the empty list. *)
Fixpoint split (sep : ascii) (s : string) : list string :=
  match s with
  | EmptyString => [EmptyString]
  | String c s' =>
      if Ascii.eqb c sep then EmptyString :: split sep s'
      else match split sep s' with
           | h :: t => String c h :: t
           | [] => [String c EmptyString]
           end
  end.

(** [s.upper()] on ASCII letters. *)
Definition upper_char (c : ascii) : ascii :=
  let n := code c in
  if (97 <=? n) && (n <=? 122) then ascii_of_N (Z.to_N (n - 32)) else c.

Fixpoint upper (s : string) : string :=
  match s with
  | String c s' => String (upper_char c) (upper s')
  | EmptyString => EmptyString
  end.

(** [s.lower()] on code points below 256: the ASCII capitals and the
    accented capitals U+00C0..U+00DE (all but the multiplication sign). *)
Definition lower_char (c : ascii) : ascii :=
  let n := code c in
  if ((65 <=? n) && (n <=? 90))
     || ((192 <=? n) && (n <=? 222) && negb (n =? 215))
  then ascii_of_N (Z.to_N (n + 32)) else c.

Fixpoint lower (s : string) : string :=
  match s with
  | String c s' => String (lower_char c) (lower s')
  | EmptyString => EmptyString
  end.

(** [s.rfind(".")]: index of the last dot, if any. *)
Fixpoint rfind_dot (s : string) : option nat :=
  match s with
  | EmptyString => None
  | String c s' =>
      match rfind_dot s' with
      | Some i => Some (S i)
      | None => if Ascii.eqb c "." then Some O else None
      end
  end.

(** Decimal rendering of a non-negative integer, most significant digit
    first. *)
Definition digit_char (d : Z) : ascii := ascii_of_N (Z.to_N (48 + d)).

Fixpoint digits_fuel (fuel : nat) (n : Z) (acc : string) : string :=
  match fuel with
  | O => acc
  | S f =>
      let acc' := String (digit_char (n mod 10)) acc in
      if n <? 10 then acc' else digits_fuel f (n / 10) acc'
  end.

Definition digits (n : Z) : string :=
  digits_fuel (S (Z.to_nat (Z.log2 n))) n EmptyString.

(** [str(n)] *)
Definition str_of_int (n : Z) : string :=
  if n <? 0 then String "-" (digits (- n)) else digits n.

Fixpoint zeros (k : nat) : string :=
  match k with
  | O => EmptyString
  | S k' => String "0" (zeros k')
  end.

(** [format(n, "0<width>d")]: the sign, when there is one, comes first and
    counts towards the width; zeros fill the rest. *)
Definition format_0d (width : nat) (n : Z) : string :=
  if n <? 0 then
    let d := digits (- n) in
    String "-" (zeros (width - 1 - String.length d) +:+ d)
  else
    let d := digits n in
    zeros (width - String.length d) +:+ d.

End PyStr.

(** ** Exceptions *)

(** A raised exception: its class name and its message.  Only subclasses of
    [Exception] are modelled, which is what the handlers of the program
    name. *)
Record exn := Exn { exn_class : string; exn_msg : string }.

Definition ValueError (msg : string) : exn := Exn "ValueError" msg.
Definition IndexError (msg : string) : exn := Exn "IndexError" msg.
Definition OSError (msg : string) : exn := Exn "OSError" msg.

Definition is_ValueError (e : exn) : bool := String.eqb (exn_class e) "ValueError".

(** The outcome of evaluating an expression: a value, or a raised
    exception. *)
Inductive result (A : Type) : Type :=
| Ret (a : A)
| Raise (e : exn).
Arguments Ret {A} a.
Arguments Raise {A} e.

Module Res.

Definition bind {A B} (r : result A) (k : A -> result B) : result B :=
  match r with
  | Ret a => k a
  | Raise e => Raise e
  end.

(** [try: body / except Exception: handler] *)
Definition try_except {A} (body : result A) (handler : exn -> result A) : result A :=
  match body with
  | Ret a => Ret a
  | Raise e => handler e
  end.

(** [try: body / except ValueError: handler]; other classes propagate. *)
Definition try_except_ValueError {A} (body : result A) (handler : exn -> result A)
  : result A :=
  match body with
  | Ret a => Ret a
  | Raise e => if is_ValueError e then handler e else Raise e
  end.

End Res.

#[global] Instance result_ret : MRet result := fun A a => Ret a.
#[global] Instance result_bind : MBind result := fun A B k r => Res.bind r k.

(** ** [int(s, base)] on strings *)

Module PyInt.

(** The value of a character as a digit, for digits and letters. *)
Definition digit_value (c : ascii) : option Z :=
  let n := PyStr.code c in
  if (48 <=? n) && (n <=? 57) then Some (n - 48)
  else if (97 <=? n) && (n <=? 122) then Some (n - 87)
  else if (65 <=? n) && (n <=? 90) then Some (n - 55)
  else None.

(** Reads the longest run of digits of [base] and underscores.  Two
    underscores in a row, or one at the end of the run, are errors.  The
    result is the value, the number of digits read and the rest of the
    string. *)
Fixpoint scan_digits (base : Z) (prev_us : bool) (acc : Z) (ndig : nat) (s : string)
  : option (Z * nat * string) :=
  let stop := if prev_us then None else Some (acc, ndig, s) in
  match s with
  | String c s' =>
      if Ascii.eqb c "_" then
        if prev_us then None else scan_digits base true acc ndig s'
      else
        match digit_value c with
        | Some v =>
            if v <? base then scan_digits base false (acc * base + v) (S ndig) s'
            else stop
        | None => stop
        end
  | EmptyString => stop
  end.

Definition skip_sign (s : string) : bool * string :=
  match s with
  | String c s' =>
      if Ascii.eqb c "+" then (false, s')
      else if Ascii.eqb c "-" then (true, s')
      else (false, s)
  | EmptyString => (false, s)
  end.

(** For base 16, a leading [0x] or [0X] is skipped, and one underscore
    after it. *)
Definition skip_prefix (base : Z) (s : string) : string :=
  match s with
  | String c0 (String c1 s') =>
      if (base =? 16) && Ascii.eqb c0 "0" && (Ascii.eqb c1 "x" || Ascii.eqb c1 "X")
      then if PyStr.startswith "_" s' then PyStr.tail s' else s'
      else s
  | _ => s
  end.

(** The threshold under which the interpreter never limits the number of
    digits of a decimal literal. *)
Definition max_str_digits_threshold : nat := 640.

(** [over_limit limit n]: a decimal literal of [n] digits exceeds the
    interpreter's limit [limit] ([0] means no limit, which is also the
    behaviour of interpreters older than the limit). *)
Definition over_limit (limit n : nat) : bool :=
  (max_str_digits_threshold <? n)%nat && (0 <? limit)%nat && (limit <? n)%nat.

Definition invalid_literal (s : string) : exn :=
  ValueError ("invalid literal for int(): " +:+ s).

(** [int(s, base)] for [base] 10 or 16.  [limit] is the interpreter's
    [int_max_str_digits] setting, which applies to base 10 only. *)
Definition parse (limit : nat) (base : Z) (s : string) : result Z :=
  let s1 := PyStr.lstrip_with PyStr.is_int_space s in
  let '(neg, s2) := skip_sign s1 in
  let s3 := skip_prefix base s2 in
  if PyStr.startswith "_" s3 then Raise (invalid_literal s) else
  match scan_digits base false 0 0 s3 with
  | None => Raise (invalid_literal s)
  | Some (v, ndig, rest) =>
      match ndig with
      | O => Raise (invalid_literal s)
      | S _ =>
          match PyStr.lstrip_with PyStr.is_int_space rest with
          | EmptyString =>
              if (base =? 10) && over_limit limit ndig
              then Raise (ValueError "Exceeds the limit for integer string conversion")
              else Ret (if neg then - v else v)
          | String _ _ => Raise (invalid_literal s)
          end
      end
  end.

End PyInt.

(** ** Data model *)

(** The value of an EXIF tag: text for the date tags, an integer for tags
    such as the orientation. *)
Inductive exif_value :=
| EStr (s : string)
| EInt (n : Z).

(** Python truthiness of a tag value. *)
Definition truthy (v : exif_value) : bool :=
  match v with
  | EStr s => negb (String.eqb s "")
  | EInt n => negb (n =? 0)
  end.

(** [str(raw)] *)
Definition py_str (v : exif_value) : string :=
  match v with
  | EStr s => s
  | EInt n => PyStr.str_of_int n
  end.

(** [a or b] on the results of two [exif.get] calls ([None] is falsy). *)
Definition py_or (a b : option exif_value) : option exif_value :=
  match a with
  | Some v => if truthy v then a else b
  | None => b
  end.

(** [not raw] *)
Definition py_not (raw : option exif_value) : bool :=
  match raw with
  | Some v => negb (truthy v)
  | None => true
  end.

Definition EXIF_TAG_DATETIME_ORIGINAL : Z := 36867.
Definition EXIF_TAG_DATETIME : Z := 306.
Definition EXIF_TAG_ORIENTATION : Z := 274.

(** A decoded image object, as far as the program looks at it: colour mode,
    size, pixel buffer, the format tag of the file it came from, the raw
    EXIF blob of [info], and what [getexif()] yields (the tag mapping, or an
    exception when the blob cannot be read). *)
Record image := Image {
  im_mode : string;
  im_width : Z;
  im_height : Z;
  im_pixels : list Z;
  im_format : option string;
  im_info_exif : option (list Byte.byte);
  im_getexif : result (gmap Z exif_value)
}.

(** A path, as [pathlib] parses it on POSIX: the root ([""] when relative)
    and the components. *)
Record path := Path { anchor : string; parts : list string }.

#[global] Instance path_eq_dec : EqDecision path.
Proof. solve_decision. Defined.

#[global] Instance path_countable : Countable path.
Proof.
  refine (inj_countable' (fun p => (anchor p, parts p))
                         (fun ap => Path ap.1 ap.2) _).
  by intros [].
Defined.

(** A loaded font: a TrueType file at a pixel size, or the built-in one. *)
Inductive font :=
| TrueType (file : string) (size : Z)
| DefaultFont.

(** A colour as the renderer takes it: [(r, g, b, a)]. *)
Definition rgba : Type := Z * Z * Z * Z.

(** What the colour-name resolver returns: a 3-tuple or a 4-tuple. *)
Inductive color_tuple :=
| RGB (r g b : Z)
| RGBA (r g b a : Z).

(** The keyword arguments collected for [save]. *)
Record save_kwargs := SaveKwargs {
  kw_quality : option Z;
  kw_subsampling : option Z;
  kw_exif : option (list Byte.byte)
}.

(** The content of an image file: the image that was saved, the format it
    was encoded in and the keyword arguments of the encoder. *)
Record encoded := Encoded {
  enc_image : image;
  enc_format : string;
  enc_kwargs : save_kwargs
}.

Inductive node :=
| Dir
| File (data : encoded).

(** A line on the console. *)
Inductive message :=
| MsgSkip (in_file : path)
| MsgDone (in_file out_path : path)
| MsgError (in_file : path) (e : exn)
| MsgColorWarning (color : string)
| MsgNotFound (input_path : path)
| MsgNoImages
| MsgFontWarning (font_path : string).

(** The mutable world: console output (oldest line first), the file
    system, and the image objects in memory, addressed by their index. *)
Record world := World {
  stdout : list message;
  fs : gmap path node;
  heap : list image
}.

(** An effectful computation: it may change the world and either returns
    or raises. *)
Definition M (A : Type) : Type := world -> result A * world.

#[global] Instance M_ret : MRet M := fun A a w => (Ret a, w).
#[global] Instance M_bind : MBind M := fun A B k m w =>
  match m w with
  | (Ret a, w') => k a w'
  | (Raise e, w') => (Raise e, w')
  end.

Module Eff.

Definition raise {A} (e : exn) : M A := fun w => (Raise e, w).

Definition lift {A} (r : result A) : M A := fun w => (r, w).

Definition get : M world := fun w => (Ret w, w).

(** [print(msg)] *)
Definition print (msg : message) : M unit :=
  fun w => (Ret tt, World (stdout w ++ [msg]) (fs w) (heap w)).

(** [try: body / except Exception as e: handler e] *)
Definition try_except {A} (body : M A) (handler : exn -> M A) : M A :=
  fun w =>
    match body w with
    | (Ret a, w') => (Ret a, w')
    | (Raise e, w') => handler e w'
    end.

(** [try: body / except C: handler] for the classes accepted by [catches];
    any other exception propagates. *)
Definition try_except_if {A} (catches : exn -> bool) (body : M A)
    (handler : exn -> M A) : M A :=
  fun w =>
    match body w with
    | (Ret a, w') => (Ret a, w')
    | (Raise e, w') => if catches e then handler e w' else (Raise e, w')
    end.

End Eff.

(** [x[0]] on a list. *)
Definition index0 {A} (l : list A) : result A :=
  match l with
  | x :: _ => Ret x
  | [] => Raise (IndexError "list index out of range")
  end.

(** [a, b, c = l] *)
Definition unpack3 {A} (l : list A) : result (A * A * A) :=
  match l with
  | [a; b; c] => Ret (a, b, c)
  | _ => Raise (ValueError "wrong number of values to unpack")
  end.

(** The fields the date is read from: the text of the value up to its
    first space, cut at the colons. *)
Definition date_fields (raw : exif_value) : list string :=
  PyStr.split ":" (hd EmptyString (PyStr.split " " (py_str raw))).

(** [f"{y:04d}-{m:02d}-{d:02d}"] *)
Definition date_text (y m d : Z) : string :=
  PyStr.format_0d 4 y +:+ "-" +:+ PyStr.format_0d 2 m +:+ "-"
  +:+ PyStr.format_0d 2 d.

(** The hexadecimal digits with their values, written out; the statements
    about [parse_color] and about decimal fields are phrased with this
    table.  The decimal digits come first. *)
Definition digit_table : list (ascii * Z) :=
  [("0", 0); ("1", 1); ("2", 2); ("3", 3); ("4", 4);
   ("5", 5); ("6", 6); ("7", 7); ("8", 8); ("9", 9);
   ("a", 10); ("b", 11); ("c", 12); ("d", 13); ("e", 14); ("f", 15);
   ("A", 10); ("B", 11); ("C", 12); ("D", 13); ("E", 14); ("F", 15)]%char.

Fixpoint table_value (t : list (ascii * Z)) (c : ascii) : option Z :=
  match t with
  | [] => None
  | (c', v) :: t' => if Ascii.eqb c c' then Some v else table_value t' c
  end.

Definition hex_digit (c : ascii) : option Z := table_value digit_table c.

(** The byte written by two hexadecimal digits. *)
Definition hex_byte (hi lo : Z) : Z := 16 * hi + lo.

Fixpoint all_chars (f : ascii -> bool) (s : string) : bool :=
  match s with
  | String c s' => f c && all_chars f s'
  | EmptyString => true
  end.

(** ** Paths and the file system *)

Module PyPath.

(** The root of a path written as a string: two leading slashes (and not
    three) are kept as they are, any other run of leading slashes is one. *)
Definition root_of (s : string) : string :=
  match s with
  | String "/" (String "/" (String "/" _)) => "/"
  | String "/" (String "/" _) => "//"
  | String "/" _ => "/"
  | _ => ""
  end.

Definition is_component (s : string) : bool :=
  negb (String.eqb s "") && negb (String.eqb s ".").

(** [Path(s)]: empty components and ["."] are dropped. *)
Definition of_string (s : string) : path :=
  Path (root_of s) (List.filter is_component (PyStr.split "/" s)).

(** [p.name] *)
Definition name (p : path) : string := List.last (parts p) EmptyString.

(** [p.parent]: a path without components is its own parent. *)
Definition parent (p : path) : path := Path (anchor p) (removelast (parts p)).

(** [p / q] *)
Definition join (p q : path) : path :=
  if String.eqb (anchor q) "" then Path (anchor p) (parts p ++ parts q) else q.

(** [p.suffix]: the name from its last dot on, unless that dot starts or
    ends the name. *)
Definition suffix (p : path) : string :=
  let n := name p in
  match PyStr.rfind_dot n with
  | Some i =>
      if (0 <? i)%nat && (i <? String.length n - 1)%nat
      then String.substring i (String.length n - i) n
      else EmptyString
  | None => EmptyString
  end.

Definition has_slash (s : string) : bool :=
  negb (all_chars (fun c => negb (Ascii.eqb c "/")) s).

(** [p.with_suffix(suffix)] *)
Definition with_suffix (p : path) (suf : string) : result path :=
  if has_slash suf then Raise (ValueError "Invalid suffix")
  else if (negb (String.eqb suf "") && negb (PyStr.startswith "." suf))
          || String.eqb suf "."
  then Raise (ValueError "Invalid suffix")
  else
    let n := name p in
    if String.eqb n "" then Raise (ValueError "path has an empty name")
    else
      let old := suffix p in
      let stem := String.substring 0 (String.length n - String.length old) n in
      Ret (Path (anchor p) (removelast (parts p) ++ [stem +:+ suf])).

Fixpoint strip_prefix (pre l : list string) : option (list string) :=
  match pre, l with
  | [], _ => Some l
  | x :: pre', y :: l' => if String.eqb x y then strip_prefix pre' l' else None
  | _ :: _, [] => None
  end.

(** [p.relative_to(other)] *)
Definition relative_to (p other : path) : result path :=
  if String.eqb (anchor p) (anchor other) then
    match strip_prefix (parts other) (parts p) with
    | Some rest => Ret (Path "" rest)
    | None => Raise (ValueError "path is not in the subpath of the other")
    end
  else Raise (ValueError "path is not in the subpath of the other").

End PyPath.

Definition FileNotFoundError (msg : string) : exn := Exn "FileNotFoundError" msg.
Definition FileExistsError (msg : string) : exn := Exn "FileExistsError" msg.
Definition NotADirectoryError (msg : string) : exn := Exn "NotADirectoryError" msg.
Definition IsADirectoryError (msg : string) : exn := Exn "IsADirectoryError" msg.

Definition is_FileNotFoundError (e : exn) : bool :=
  String.eqb (exn_class e) "FileNotFoundError".

(** [OSError] and its subclasses. *)
Definition is_OSError (e : exn) : bool :=
  bool_decide (exn_class e ∈ ["OSError"; "FileNotFoundError"; "FileExistsError";
                              "NotADirectoryError"; "IsADirectoryError";
                              "PermissionError"]).

Module FS.

(** What is at a path.  A path without components is the root or the
    current directory, which always exists. *)
Definition node_at (f : gmap path node) (p : path) : option node :=
  match parts p with
  | [] => Some Dir
  | _ :: _ => f !! p
  end.

Definition set_fs (f : gmap path node) (w : world) : world :=
  World (stdout w) f (heap w).

(** [p.is_file()] *)
Definition is_file (p : path) : M bool := fun w =>
  (Ret match node_at (fs w) p with Some (File _) => true | _ => false end, w).

(** [p.is_dir()] *)
Definition is_dir (p : path) : M bool := fun w =>
  (Ret match node_at (fs w) p with Some Dir => true | _ => false end, w).

(** [os.mkdir(p)] *)
Definition os_mkdir (p : path) : M unit := fun w =>
  match node_at (fs w) (PyPath.parent p) with
  | None => (Raise (FileNotFoundError "no such directory"), w)
  | Some (File _) => (Raise (NotADirectoryError "not a directory"), w)
  | Some Dir =>
      match node_at (fs w) p with
      | Some _ => (Raise (FileExistsError "file exists"), w)
      | None => (Ret tt, set_fs (<[p := Dir]> (fs w)) w)
      end
  end.

(** The [except OSError] clause of [Path.mkdir]. *)
Definition mkdir_exists (p : path) (exist_ok : bool) (e : exn) : M unit :=
  d ← is_dir p;
  if negb exist_ok || negb d then Eff.raise e else mret tt.

(** [p.mkdir(parents=False, exist_ok=exist_ok)] *)
Definition mkdir_single (p : path) (exist_ok : bool) : M unit :=
  Eff.try_except_if is_OSError (os_mkdir p)
    (fun e => if is_FileNotFoundError e then Eff.raise e
              else mkdir_exists p exist_ok e).

(** [p.mkdir(parents=True, exist_ok=exist_ok)] for the path with root [a]
    and the components [rparts], last component first. *)
Fixpoint mkdir_parents (a : string) (rparts : list string) (exist_ok : bool)
  : M unit :=
  let p := Path a (rev rparts) in
  Eff.try_except_if is_OSError (os_mkdir p)
    (fun e =>
       if is_FileNotFoundError e then
         match rparts with
         | [] => Eff.raise e
         | _ :: rparent =>
             mkdir_parents a rparent true;;
             mkdir_single p exist_ok
         end
       else mkdir_exists p exist_ok e).

(** [p.mkdir(parents=True, exist_ok=True)] *)
Definition mkdir_p (p : path) : M unit :=
  mkdir_parents (anchor p) (rev (parts p)) true.

End FS.

(** [wp m w Q]: running [m] in the world [w] ends, with a value or an
    exception, in a world that [Q] accepts. *)
Definition wp {A} (m : M A) (w : world) (Q : result A -> world -> Prop) : Prop :=
  Q (m w).1 (m w).2.

(** A line of [process_file] about the file [p]. *)
Definition line_about (p : path) (msg : message) : Prop :=
  msg = MsgSkip p \/ (exists out, msg = MsgDone p out)
  \/ (exists e, msg = MsgError p e).

(** A computation that prints nothing. *)
Definition quiet {A} (m : M A) : Prop := forall w, stdout (m w).2 = stdout w.

(** A computation that prints exactly one line, accepted by [P], when it
    returns, and nothing when it raises. *)
Definition one_line (P : message -> Prop) (m : M unit) : Prop :=
  forall w,
    match (m w).1 with
    | Ret _ => exists msg, P msg /\ stdout (m w).2 = stdout w ++ [msg]
    | Raise _ => stdout (m w).2 = stdout w
    end.

(** The file at [out_path] is an image saved in the format [fmt] with the
    EXIF blob [blob] among the arguments of the encoder. *)
Definition saved_with_exif (w : world) (out_path : path) (fmt : string)
    (blob : list Byte.byte) : Prop :=
  exists saved,
    FS.node_at (fs w) out_path = Some (File saved)
    /\ enc_format saved = fmt /\ kw_exif (enc_kwargs saved) = Some blob.

(** ** A small instance

    Simple stand-ins for the functions of the imaging library, a file
    system and a photo, on which the program can be run. *)

Module Sample.

Definition getcolor (c : string) : result color_tuple :=
  if String.eqb c "red" then Ret (RGB 255 0 0)
  else if String.eqb c "white" then Ret (RGBA 255 255 255 255)
  else Raise (ValueError "unknown color specifier").

Definition transpose_pixels (o w h : Z) (px : list Z) : list Z := rev px.

Definition exif_tobytes (exif : gmap Z exif_value) : list Byte.byte :=
  [Byte.x00].

Definition convert_pixels (src dst : string) (px : list Z) : result (list Z) :=
  Ret px.

Definition blank_pixels (w h : Z) (c : rgba) : list Z := [].

Definition textbbox (f : font) (text : string) : result (Z * Z * Z * Z) :=
  Ret (0, 0, 8 * PyStr.len text, 12).

Definition draw_text_pixels (f : font) (text : string) (xy : Z * Z)
    (fill : rgba) (w h : Z) (px : list Z) : result (list Z) :=
  Ret (px ++ [xy.1; xy.2]).

Definition composite_pixels (a b : list Z) : list Z := a ++ b.

(** Files in the format ["???"] stand for corrupt files. *)
Definition decode (d : encoded) : result image :=
  if String.eqb (enc_format d) "???"
  then Raise (OSError "cannot identify image file")
  else Ret (enc_image d).

Definition encoder_check (i : image) (fmt : string) (kw : save_kwargs)
  : result unit := Ret tt.

(** The interpreter's default limit on decimal literals. *)
Definition int_max_str_digits : nat := 4300.

Definition photos_dir : path := Path "/" ["data"; "photos"].

Definition out_dir : path := Path "/" ["data"; "photos"; "photos_watermark"].

Definition photo_file : path := Path "/" ["data"; "photos"; "a.jpg"].

Definition broken_file : path := Path "/" ["data"; "photos"; "b.jpg"].

(** The bytes ["Exif"]. *)
Definition blob : list Byte.byte := [Byte.x45; Byte.x78; Byte.x69; Byte.x66].

(** A JPEG photo taken on 4 July 2023, stored rotated (orientation 6). *)
Definition photo : image :=
  Image "RGB" 4 3 [1; 2; 3] (Some "JPEG") (Some blob)
        (Ret {[ EXIF_TAG_DATETIME_ORIGINAL := EStr "2023:07:04 10:20:30";
                EXIF_TAG_ORIENTATION := EInt 6 ]}).

(** An image whose date has a fourth colon-separated field. *)
Definition four_fields : image :=
  Image "RGB" 4 3 [] (Some "JPEG") None
        (Ret {[ EXIF_TAG_DATETIME := EStr "2023:07:04:05 10:20:30" ]}).

Definition no_kwargs : save_kwargs := SaveKwargs None None None.

(** A file system holding the directory [/data/photos]. *)
Definition photos_world : world :=
  World [] {[ Path "/" ["data"] := Dir; photos_dir := Dir ]} [].

(** The same with the output directory, the photo and a corrupt file. *)
Definition batch_world : world :=
  World [] {[ Path "/" ["data"] := Dir; photos_dir := Dir; out_dir := Dir;
              photo_file := File (Encoded photo "JPEG" no_kwargs);
              broken_file := File (Encoded photo "???" no_kwargs) ]} [].

(** A world whose only image object is the photo. *)
Definition one_photo : world := World [] ∅ [photo].

(** An image whose date is written with slashes. *)
Definition slashes : image :=
  Image "RGB" 4 3 [] (Some "JPEG") None
        (Ret {[ EXIF_TAG_DATETIME := EStr "2023/07/04" ]}).

(** The only font file that loads; the bundled font is not installed. *)
Definition truetype (p : string) (size : Z) : result font :=
  if String.eqb p "/fonts/arial.ttf" then Ret (TrueType p size)
  else Raise (OSError "cannot open resource").

(** A listing of the regular files directly in [root]. *)
Definition walk (root : path) (f : gmap path node) : list path :=
  List.filter
    (fun p => bool_decide (PyPath.parent p = root)
              && match f !! p with Some (File _) => true | _ => false end)
    (map fst (map_to_list f)).




(** An image whose [DateTimeOriginal] is written with dashes, with a
    well-formed [DateTime]. *)
Definition malformed : image :=
  Image "RGB" 4 3 [] (Some "JPEG") None
        (Ret {[ EXIF_TAG_DATETIME_ORIGINAL := EStr "2023-07-04";
                EXIF_TAG_DATETIME := EStr "2023:07:04 10:20:30" ]}).

(** A file system in which a regular file has the name of the output
    root. *)
Definition blocked_world : world :=
  World [] {[ Path "/" ["data"] := Dir; photos_dir := Dir;
              out_dir := File (Encoded photo "JPEG" no_kwargs) ]} [].

End Sample.

(** The value of a decimal digit. *)
Definition dec_digit (c : ascii) : option Z :=
  table_value (take 10 digit_table) c.

(** The number a string of decimal digits writes, continuing from [acc];
    [None] when a character is not a digit. *)
Fixpoint dec_value (acc : Z) (s : string) : option Z :=
  match s with
  | EmptyString => Some acc
  | String c s' =>
      match dec_digit c with
      | Some v => dec_value (10 * acc + v) s'
      | None => None
      end
  end.

(** [w'] differs from [w] at most by new directories: every entry of the
    file system of [w] is still there, every other entry of [w'] is a
    directory, and console and image objects are the same. *)
Definition only_adds_dirs (w w' : world) : Prop :=
  fs w ⊆ fs w'
  /\ (forall p n, fs w' !! p = Some n -> fs w !! p = Some n \/ n = Dir)
  /\ stdout w' = stdout w /\ heap w' = heap w.

(** The string has no dot. *)
Definition no_dot (s : string) : bool :=
  all_chars (fun c => negb (Ascii.eqb c ".")) s.

Section Watermark.

(** The interpreter's limit on the digits of a decimal literal ([0]: none). *)
Variable int_max_str_digits : nat.

(** ** [exif_date_text] *)

(** The body of the second [try] block: the date text of a raw tag value. *)
Definition date_of_raw (raw : exif_value) : result (option string) :=
  let s := py_str raw in
  date_part ← index0 (PyStr.split " " s);
  '(y, m, d) ← unpack3 (take 3 (PyStr.split ":" date_part));
  yi ← PyInt.parse int_max_str_digits 10 y;
  mi ← PyInt.parse int_max_str_digits 10 m;
  di ← PyInt.parse int_max_str_digits 10 d;
  Ret (Some (date_text yi mi di)).

(** The tag value the function works on: [DateTimeOriginal], or [DateTime]
    when the former is missing or falsy. *)
Definition chosen_raw (exif : gmap Z exif_value) : option exif_value :=
  py_or (exif !! EXIF_TAG_DATETIME_ORIGINAL) (exif !! EXIF_TAG_DATETIME).

Definition exif_date_text (img : image) : result (option string) :=
  exif ← Res.try_except (e ← im_getexif img; Ret (Some e)) (fun _ => Ret None);
  match exif with
  | None => Ret None
  | Some exif =>
      if decide (exif = ∅) then Ret None else
      let raw := chosen_raw exif in
      if py_not raw then Ret None else
      match raw with
      | Some v => Res.try_except (date_of_raw v) (fun _ => Ret None)
      | None => Ret None
      end
  end.

(** ** [parse_color] *)

(** [ImageColor.getcolor(c, "RGBA")] of the imaging library: the colour a
    name or expression stands for, or an exception. *)
Variable ImageColor_getcolor : string -> result color_tuple.

(** [int(hexstr[i:i+2], 16)] *)
Definition hex_pair (hexstr : string) (i : nat) : result Z :=
  PyInt.parse int_max_str_digits 16 (PyStr.slice i (i + 2) hexstr).

(** The [#AARRGGBB] block: alpha first, then red, green, blue. *)
Definition parse_hex8 (hexstr : string) : result rgba :=
  a ← hex_pair hexstr 0;
  r ← hex_pair hexstr 2;
  g ← hex_pair hexstr 4;
  b ← hex_pair hexstr 6;
  Ret (r, g, b, a).

(** The [#RRGGBB] block. *)
Definition parse_hex6 (hexstr : string) : result rgba :=
  r ← hex_pair hexstr 0;
  g ← hex_pair hexstr 2;
  b ← hex_pair hexstr 4;
  Ret (r, g, b, 255).

(** The hexadecimal part of [parse_color]: [Some] when one of the two
    blocks returns, [None] when control falls through to the resolver. *)
Definition parse_hex (c : string) : result (option rgba) :=
  if PyStr.startswith "#" c then
    let hexstr := PyStr.tail c in
    if PyStr.len hexstr =? 8 then
      Res.try_except_ValueError (v ← parse_hex8 hexstr; Ret (Some v))
                                (fun _ => Ret None)
    else if PyStr.len hexstr =? 6 then
      Res.try_except_ValueError (v ← parse_hex6 hexstr; Ret (Some v))
                                (fun _ => Ret None)
    else Ret None
  else Ret None.

Definition white : rgba := (255, 255, 255, 255).

(** The last [try] block: the resolver, with white and a warning when it
    raises. *)
Definition parse_named (color c : string) : M rgba :=
  Eff.try_except
    (t ← Eff.lift (ImageColor_getcolor c);
     match t with
     | RGB r g b => mret (r, g, b, 255)
     | RGBA r g b a => mret (r, g, b, a)
     end)
    (fun _ => Eff.print (MsgColorWarning color);; mret white).

Definition parse_color (color : string) : M rgba :=
  let c := PyStr.strip color in
  h ← Eff.lift (parse_hex c);
  match h with
  | Some v => mret v
  | None => parse_named color c
  end.

(** ** [calc_position] *)

Definition default_margin : Z := 10.

Definition calc_position (img_w img_h text_w text_h : Z) (pos : string)
    (margin : Z) : Z * Z :=
  if String.eqb pos "top-left" then (margin, margin)
  else if String.eqb pos "top-right" then
    (Z.max (img_w - text_w - margin) margin, margin)
  else if String.eqb pos "center" then
    ((img_w - text_w) / 2, (img_h - text_h) / 2)
  else if String.eqb pos "bottom-left" then
    (margin, Z.max (img_h - text_h - margin) margin)
  else
    (Z.max (img_w - text_w - margin) margin,
     Z.max (img_h - text_h - margin) margin).

(** ** [ensure_output_root] *)

Definition ensure_output_root (input_path : path) : M path :=
  f ← FS.is_file input_path;
  let base_dir := if f : bool then PyPath.parent input_path else input_path in
  let out_root :=
    PyPath.join base_dir
      (PyPath.of_string (PyPath.name base_dir +:+ "_watermark")) in
  FS.mkdir_p out_root;;
  mret out_root.

(** The directory [ensure_output_root] builds on: the parent of an input
    file, the input itself otherwise. *)
Definition base_dir_of (input_path : path) (w : world) : path :=
  match FS.node_at (fs w) input_path with
  | Some (File _) => PyPath.parent input_path
  | _ => input_path
  end.

(** The path one level below [base] whose name is the name of [base]
    followed by [_watermark]. *)
Definition watermark_dir_in (base : path) : path :=
  Path (anchor base) (parts base ++ [PyPath.name base +:+ "_watermark"]).

(** Two different entries of the same directory. *)
Definition siblings (p q : path) : Prop :=
  PyPath.parent p = PyPath.parent q /\ p <> q.


(** ** The imaging library

    Image objects live in [heap] and are handled through their index.  The
    operations below follow the library's documented behaviour on objects
    (which object is read, which is created, which is drawn on); what they
    compute on pixels is left to the functions that follow. *)

(** [Image.transpose(method)] on a pixel buffer of the given size. *)
Variable transpose_pixels : Z -> Z -> Z -> list Z -> list Z.
(** [Exif.tobytes()] *)
Variable exif_tobytes : gmap Z exif_value -> list Byte.byte.
(** Mode conversion of a pixel buffer; unsupported conversions raise. *)
Variable convert_pixels : string -> string -> list Z -> result (list Z).
(** A buffer of the given size filled with one colour. *)
Variable blank_pixels : Z -> Z -> rgba -> list Z.
(** [ImageDraw.textbbox((0, 0), text, font)] *)
Variable textbbox : font -> string -> result (Z * Z * Z * Z).
(** [ImageDraw.text(xy, text, font, fill)] on a buffer of the given size. *)
Variable draw_text_pixels :
  font -> string -> Z * Z -> rgba -> Z -> Z -> list Z -> result (list Z).
(** Alpha compositing of two buffers of equal size. *)
Variable composite_pixels : list Z -> list Z -> list Z.
(** Decoding of a file's content by [Image.open]. *)
Variable decode : encoded -> result image.
(** The encoder's verdict on what [save] is asked to write. *)
Variable encoder_check : image -> string -> save_kwargs -> result unit.

Definition set_heap (h : list image) (w : world) : world :=
  World (stdout w) (fs w) h.

(** A new image object; its index is returned. *)
Definition alloc (i : image) : M nat := fun w =>
  (Ret (length (heap w)), set_heap (heap w ++ [i]) w).

(** Reading an image object. *)
Definition load (l : nat) : M image := fun w =>
  match heap w !! l with
  | Some i => (Ret i, w)
  | None => (Raise (Exn "ReferenceError" "no such image object"), w)
  end.

(** Overwriting an image object in place. *)
Definition store (l : nat) (i : image) : M unit := fun w =>
  (Ret tt, set_heap (<[l := i]> (heap w)) w).

Definition with_pixels (i : image) (px : list Z) : image :=
  Image (im_mode i) (im_width i) (im_height i) px (im_format i)
        (im_info_exif i) (im_getexif i).

(** [img.copy()]: a new object with the same content; only images read
    from a file carry a format. *)
Definition Image_copy (l : nat) : M nat :=
  i ← load l;
  alloc (Image (im_mode i) (im_width i) (im_height i) (im_pixels i) None
               (im_info_exif i) (im_getexif i)).

(** [img.convert(mode)]: a new object in the requested mode. *)
Definition Image_convert (l : nat) (mode : string) : M nat :=
  i ← load l;
  px ← Eff.lift (convert_pixels (im_mode i) mode (im_pixels i));
  alloc (Image mode (im_width i) (im_height i) px None
               (im_info_exif i) (im_getexif i)).

(** [Image.new(mode, size, color)] *)
Definition Image_new (mode : string) (size : Z * Z) (color : rgba) : M nat :=
  alloc (Image mode size.1 size.2 (blank_pixels size.1 size.2 color) None
               None (Ret ∅)).

(** The transposition an orientation value asks for, if any. *)
Definition orientation_method (exif : gmap Z exif_value) : option Z :=
  match exif !! EXIF_TAG_ORIENTATION with
  | Some (EInt o) => if (2 <=? o) && (o <=? 8) then Some o else None
  | _ => None
  end.

(** [ImageOps.exif_transpose(img)]: a new object, transposed as the
    orientation tag asks and without that tag, or a plain copy. *)
Definition ImageOps_exif_transpose (l : nat) : M nat :=
  i ← load l;
  exif ← Eff.lift (im_getexif i);
  match orientation_method exif with
  | Some o =>
      let exif' := delete EXIF_TAG_ORIENTATION exif in
      let swap := 5 <=? o in
      alloc (Image (im_mode i)
                   (if swap then im_height i else im_width i)
                   (if swap then im_width i else im_height i)
                   (transpose_pixels o (im_width i) (im_height i) (im_pixels i))
                   None
                   (match im_info_exif i with
                    | Some _ => Some (exif_tobytes exif')
                    | None => None
                    end)
                   (Ret exif'))
  | None => Image_copy l
  end.

(** [draw.text(xy, text, font=font, fill=fill)]: draws in place on the
    image the drawing handle was made for. *)
Definition ImageDraw_text (draw : nat) (xy : Z * Z) (text : string) (f : font)
    (fill : rgba) : M unit :=
  i ← load draw;
  px ← Eff.lift (draw_text_pixels f text xy fill (im_width i) (im_height i)
                                  (im_pixels i));
  store draw (with_pixels i px).

(** [Image.alpha_composite(im1, im2)]: a new object; both images must be
    RGBA and of the same size. *)
Definition Image_alpha_composite (l1 l2 : nat) : M nat :=
  i1 ← load l1;
  i2 ← load l2;
  if String.eqb (im_mode i1) "RGBA" && String.eqb (im_mode i2) "RGBA"
     && (im_width i1 =? im_width i2) && (im_height i1 =? im_height i2)
  then alloc (Image "RGBA" (im_width i1) (im_height i1)
                    (composite_pixels (im_pixels i1) (im_pixels i2)) None
                    (im_info_exif i1) (im_getexif i1))
  else Eff.raise (ValueError "images do not match").

(** ** [draw_watermark] *)

Definition draw_watermark (img : nat) (text : string) (f : font)
    (color_rgba : rgba) (position : string) : M nat :=
  img ← ImageOps_exif_transpose img;
  i ← load img;
  let orig_mode := im_mode i in
  base ← (if negb (String.eqb (im_mode i) "RGBA")
          then Image_convert img "RGBA" else Image_copy img);
  b ← load base;
  txt_layer ← Image_new "RGBA" (im_width b, im_height b) (0, 0, 0, 0);
  let draw := txt_layer in
  bbox ← Eff.lift (textbbox f text);
  let '(x0, y0, x1, y1) := bbox in
  let text_w := x1 - x0 in
  let text_h := y1 - y0 in
  let '(x, y) := calc_position (im_width b) (im_height b) text_w text_h
                               position default_margin in
  let shadow := (0, 0, 0, Z.min 120 color_rgba.2) in
  ImageDraw_text draw (x + 1, y + 1) text f shadow;;
  ImageDraw_text draw (x + 2, y + 2) text f shadow;;
  ImageDraw_text draw (x, y) text f color_rgba;;
  out ← Image_alpha_composite base txt_layer;
  if negb (String.eqb orig_mode "RGBA") then Image_convert out orig_mode
  else mret out.

(** [Image.open(p)]: a new image object decoded from the file at [p]. *)
Definition Image_open (p : path) : M nat := fun w =>
  match FS.node_at (fs w) p with
  | Some (File d) => (i ← Eff.lift (decode d); alloc i) w
  | Some Dir => (Raise (IsADirectoryError "is a directory"), w)
  | None => (Raise (FileNotFoundError "no such file"), w)
  end.

(** Writing a file: its directory must exist and [p] must not be a
    directory. *)
Definition write_file (p : path) (data : encoded) : M unit := fun w =>
  match FS.node_at (fs w) (PyPath.parent p), FS.node_at (fs w) p with
  | Some Dir, Some Dir => (Raise (IsADirectoryError "is a directory"), w)
  | Some Dir, _ => (Ret tt, FS.set_fs (<[p := File data]> (fs w)) w)
  | Some (File _), _ => (Raise (NotADirectoryError "not a directory"), w)
  | None, _ => (Raise (FileNotFoundError "no such directory"), w)
  end.

(** [img.save(p, format=fmt, **kwargs)]: the file is written when the
    encoder accepts the image and the path can be written.  What a failed
    save leaves at [p] is not modelled. *)
Definition Image_save (l : nat) (p : path) (fmt : string) (kw : save_kwargs)
  : M unit :=
  i ← load l;
  Eff.lift (encoder_check i fmt kw);;
  write_file p (Encoded i fmt kw).

(** ** [process_file] *)

(** [not text] *)
Definition no_text (text : option string) : bool :=
  match text with
  | Some s => String.eqb s ""
  | None => true
  end.

(** [(im.format or "PNG").upper()] *)
Definition format_of (i : image) : string :=
  PyStr.upper match im_format i with
              | Some s => if String.eqb s "" then "PNG" else s
              | None => "PNG"
              end.

(** The keyword arguments [process_file] collects for [save]. *)
Definition save_kwargs_of (fmt : string) (exif_bytes : option (list Byte.byte))
  : save_kwargs :=
  let base :=
    if String.eqb fmt "JPEG" then SaveKwargs (Some 95) (Some 2) None
    else SaveKwargs None None None in
  match exif_bytes with
  | Some ((_ :: _) as b) =>
      if String.eqb fmt "JPEG" || String.eqb fmt "TIFF"
      then SaveKwargs (kw_quality base) (kw_subsampling base) (Some b)
      else base
  | _ => base
  end.

(** The body of the [try] block of [process_file]. *)
Definition process_file_body (in_file out_root source_root : path) (f : font)
    (color_rgba : rgba) (position : string) : M unit :=
  im ← Image_open in_file;
  i ← load im;
  text ← Eff.lift (exif_date_text i);
  if no_text text then Eff.print (MsgSkip in_file)
  else
    out_img ← draw_watermark im (default EmptyString text) f color_rgba position;
    rel_path ← Eff.try_except
                 (Eff.lift (PyPath.relative_to in_file source_root))
                 (fun _ => mret (PyPath.of_string (PyPath.name in_file)));
    let out_path := PyPath.join out_root rel_path in
    FS.mkdir_p (PyPath.parent out_path);;
    i ← load im;
    let fmt := format_of i in
    save_kwargs ← Eff.try_except (mret (save_kwargs_of fmt (im_info_exif i)))
                    (fun _ => mret (save_kwargs_of fmt None));
    out_path ← Eff.lift (PyPath.with_suffix out_path (PyPath.suffix in_file));
    Image_save out_img out_path fmt save_kwargs;;
    Eff.print (MsgDone in_file out_path).

Definition process_file (in_file out_root source_root : path) (f : font)
    (color_rgba : rgba) (position : string) : M unit :=
  Eff.try_except
    (process_file_body in_file out_root source_root f color_rgba position)
    (fun e => Eff.print (MsgError in_file e)).

(** ** The batch loop of [main] *)

(** [for img_path in files: process_file(...); count += 1] *)
Fixpoint process_all (files : list path) (out_root source_root : path)
    (f : font) (color_rgba : rgba) (position : string) (count : Z) : M Z :=
  match files with
  | [] => mret count
  | img_path :: rest =>
      process_file img_path out_root source_root f color_rgba position;;
      process_all rest out_root source_root f color_rgba position (count + 1)
  end.

(** ** [load_font] *)

(** [ImageFont.truetype(path, size=size)] of the imaging library: the
    font, or an exception when the file cannot be loaded. *)
Variable ImageFont_truetype : string -> Z -> result font.

(** [load_font]: the user's font when one is given and loads, otherwise
    the bundled DejaVuSans, otherwise the built-in default font. *)
Definition load_font (font_path : option string) (size : Z) : M font :=
  user ← match font_path with
         | Some p =>
             if String.eqb p "" then mret None
             else
               Eff.try_except
                 (f ← Eff.lift (ImageFont_truetype p size); mret (Some f))
                 (fun _ => Eff.print (MsgFontWarning p);; mret None)
         | None => mret None
         end;
  match user with
  | Some f => mret f
  | None =>
      Eff.try_except (Eff.lift (ImageFont_truetype "DejaVuSans.ttf" size))
                     (fun _ => mret DefaultFont)
  end.

(** ** [main] *)

(** The parsed command line. *)
Record Namespace := {
  args_path : string;
  args_font_size : Z;
  args_color : string;
  args_position : string;
  args_font_path : option string
}.

(** The files [walk_images] yields for a directory, given the file system
    at the start of the walk.  The generator is lazy: [os.walk] lists each
    directory when it reaches it, between two calls of [process_file], so
    what it yields may depend on what the run has written by then.  The
    sequence is therefore left open: it is whatever list the walk yields
    in the run, and nothing is assumed about how it relates to the file
    system. *)
Variable walk_images : path -> gmap path node -> list path.

(** [main], given the parsed arguments. *)
Definition main (args : Namespace) : M unit :=
  let input_path := PyPath.of_string (args_path args) in
  w ← Eff.get;
  match FS.node_at (fs w) input_path with
  | None => Eff.print (MsgNotFound input_path)
  | Some _ =>
      color_rgba ← parse_color (args_color args);
      f ← load_font (args_font_path args) (args_font_size args);
      out_root ← ensure_output_root input_path;
      is_file ← FS.is_file input_path;
      if is_file : bool then
        process_file input_path out_root (PyPath.parent input_path) f
                     color_rgba (args_position args)
      else
        w ← Eff.get;
        count ← process_all (walk_images input_path (fs w)) out_root
                            input_path f color_rgba (args_position args) 0;
        if count =? 0 then Eff.print MsgNoImages else mret tt
  end.

(** The steps of the imaging library that [draw_watermark] needs succeed
    for the image [i], the text [text] and the font [f]: the tags can be
    read, the text can be measured and drawn, and the image can be
    converted to RGBA and back. *)
Definition renders (i : image) (text : string) (f : font) : Prop :=
  (exists exif, im_getexif i = Ret exif)
  /\ (exists bbox, textbbox f text = Ret bbox)
  /\ (forall px, exists px', convert_pixels (im_mode i) "RGBA" px = Ret px')
  /\ (forall px, exists px', convert_pixels "RGBA" (im_mode i) px = Ret px')
  /\ (forall xy fill iw ih px,
        exists px', draw_text_pixels f text xy fill iw ih px = Ret px').

(** What [draw_watermark] guarantees, started in [w] on the object [img]:
    the objects, console and files of [w] are as they were; a returned
    image is a new object in the colour mode of [img]; and it does return
    when the library steps succeed. *)
Definition draw_watermark_post (w : world) (img : nat) (text : string)
    (f : font) (r : result nat) (w' : world) : Prop :=
  (forall l, (l < length (heap w))%nat -> heap w' !! l = heap w !! l)
  /\ stdout w' = stdout w /\ fs w' = fs w
  /\ (forall out, r = Ret out ->
        (length (heap w) <= out)%nat
        /\ exists i o, heap w !! img = Some i /\ heap w' !! out = Some o
                       /\ im_mode o = im_mode i)
  /\ (forall i, heap w !! img = Some i -> renders i text f ->
        exists out, r = Ret out).

(** ** [is_image_file] *)

Definition SUPPORTED_EXTS : list string :=
  [".jpg"; ".jpeg"; ".png"; ".tif"; ".tiff"].

Definition is_image_file (p : path) : M bool :=
  f ← FS.is_file p;
  mret (f && bool_decide (PyStr.lower (PyPath.suffix p) ∈ SUPPORTED_EXTS)).

(** The path of [in_file] below the output root: its path relative to
    [source_root], or its bare name when it does not lie under
    [source_root]. *)
Definition rel_path_of (in_file source_root : path) : path :=
  match PyPath.relative_to in_file source_root with
  | Ret rel => rel
  | Raise _ => PyPath.of_string (PyPath.name in_file)
  end.

(** What a successful [process_file] has written for the image [i] decoded
    from the input: at [out_path], a file in the format of the input,
    encoded with the keyword arguments chosen for that format, holding an
    image in the colour mode of [i]. *)
Definition saved_as (w' : world) (out_path : path) (i : image) : Prop :=
  exists o,
    FS.node_at (fs w') out_path
    = Some (File (Encoded o (format_of i)
                          (save_kwargs_of (format_of i) (im_info_exif i))))
    /\ im_mode o = im_mode i.

(** The path a console output reports as written for [in_file], if it
    ends with the success notice for it. *)
Definition reported_output (in_file : path) (out : list message) : path :=
  match last out with
  | Some (MsgDone _ out_path) => out_path
  | _ => in_file
  end.

(** What [process_file] for [in_file] may do to the file system: every
    path holds what it held before, or a new directory where nothing was,
    with one exception at most, a path where no directory was and that now
    holds a file; when the console output ends with the success notice,
    that path is the one reported.  (A [save] that fails may leave a file
    behind at the output path; the statement allows for it.) *)
Definition touches_only_output (in_file : path) (w w' : world) : Prop :=
  exists q,
    (forall out_path,
       last (stdout w') = Some (MsgDone in_file out_path) -> out_path = q)
    /\ forall p,
         fs w' !! p = fs w !! p
         \/ (fs w !! p = None /\ fs w' !! p = Some Dir)
         \/ (p = q /\ fs w !! p <> Some Dir
             /\ exists saved, fs w' !! p = Some (File saved)).

(** The lines [main] prints before it handles any file: the warning about
    the colour and the warning about the font. *)
Definition is_warning (args : Namespace) (msg : message) : Prop :=
  msg = MsgColorWarning (args_color args)
  \/ exists p, args_font_path args = Some p /\ msg = MsgFontWarning p.

(** [main] from the point where the path is known to exist and colour and
    font are settled. *)
Definition main_rest (args : Namespace) (color_rgba : rgba) (f : font)
  : M unit :=
  let input_path := PyPath.of_string (args_path args) in
  out_root ← ensure_output_root input_path;
  is_file ← FS.is_file input_path;
  if is_file : bool then
    process_file input_path out_root (PyPath.parent input_path) f
                 color_rgba (args_position args)
  else
    w ← Eff.get;
    count ← process_all (walk_images input_path (fs w)) out_root
                        input_path f color_rgba (args_position args) 0;
    if count =? 0 then Eff.print MsgNoImages else mret tt.


(** Nothing that was in the file system of [w] is gone in [w']: a
    directory is still a directory, and a file is still a file, possibly
    with new content. *)
Definition keeps_entries (w w' : world) : Prop :=
  forall p n,
    fs w !! p = Some n ->
    match n with
    | Dir => fs w' !! p = Some Dir
    | File _ => exists d, fs w' !! p = Some (File d)
    end.

(** * Properties *)

Example split_date_time :
  PyStr.split " " "2023:07:04 10:20:30" = ["2023:07:04"; "10:20:30"].
Proof. reflexivity. Qed.

Example format_examples :
  PyStr.format_0d 4 2023 = "2023" /\ PyStr.format_0d 2 7 = "07"
  /\ PyStr.format_0d 4 (-5) = "-005" /\ PyStr.format_0d 2 123 = "123"
  /\ PyStr.format_0d 4 0 = "0000" /\ PyStr.str_of_int (-120) = "-120".
Proof. repeat split; reflexivity. Qed.

Example int_examples :
  PyInt.parse 0 10 "2023" = Ret 2023 /\ PyInt.parse 0 10 "07" = Ret 7
  /\ PyInt.parse 0 16 "fF" = Ret 255 /\ PyInt.parse 0 16 "80" = Ret 128
  /\ PyInt.parse 0 10 " 1_0 " = Ret 10 /\ PyInt.parse 0 16 "-f" = Ret (-15)
  /\ PyInt.parse 0 16 "0x" = Raise (PyInt.invalid_literal "0x")
  /\ PyInt.parse 0 10 "2023/07/04" = Raise (PyInt.invalid_literal "2023/07/04")
  /\ PyInt.parse 0 10 "" = Raise (PyInt.invalid_literal "")
  /\ PyInt.parse 0 10 "1__0" = Raise (PyInt.invalid_literal "1__0")
  /\ PyInt.parse 0 16 "g0" = Raise (PyInt.invalid_literal "g0").
Proof. repeat split; reflexivity. Qed.

(** ** [calc_position] *)

Lemma calc_position_center_eq (w h tw th m : Z) :
  calc_position w h tw th "center" m = ((w - tw) / 2, (h - th) / 2).
Proof. reflexivity. Qed.

(** C4, as amended: for position ["center"] the anchor is
    [((imgW - textW) // 2, (imgH - textH) // 2)] with floor division
    (rounding towards minus infinity); it is not clamped, and is negative
    exactly when the text exceeds the image; the space left after the text
    exceeds the space before it by 0 or 1 pixel; when the text fits, floor
    and truncating division agree. *)
Theorem calc_position_center_floor (w h tw th m : Z) :
  let x := (calc_position w h tw th "center" m).1 in
  let y := (calc_position w h tw th "center" m).2 in
  x = (w - tw) / 2 /\ y = (h - th) / 2
  /\ 0 <= (w - tw - x) - x <= 1 /\ 0 <= (h - th - y) - y <= 1
  /\ (x < 0 <-> w < tw) /\ (y < 0 <-> h < th)
  /\ (tw <= w -> x = (w - tw) ÷ 2) /\ (th <= h -> y = (h - th) ÷ 2).
Proof.
  rewrite calc_position_center_eq; cbn [fst snd].
  pose proof (Z.div_mod (w - tw) 2 ltac:(lia)) as Hx.
  pose proof (Z.mod_pos_bound (w - tw) 2 ltac:(lia)) as Hxb.
  pose proof (Z.div_mod (h - th) 2 ltac:(lia)) as Hy.
  pose proof (Z.mod_pos_bound (h - th) 2 ltac:(lia)) as Hyb.
  repeat split; try lia.
  - intros Hfit. symmetry. apply Z.quot_div_nonneg; lia.
  - intros Hfit. symmetry. apply Z.quot_div_nonneg; lia.
Qed.

(** C5: for each of the four corner positions the anchor has
    [x >= margin] and [y >= margin], whatever the sizes of image and text
    (so also when the text is wider or taller than the image) and whatever
    the margin (so also for the default margin). *)
Theorem calc_position_corners_margin (w h tw th m : Z) (pos : string) :
  pos ∈ ["top-left"; "top-right"; "bottom-left"; "bottom-right"] ->
  m <= (calc_position w h tw th pos m).1 /\ m <= (calc_position w h tw th pos m).2.
Proof.
  intros Hpos. repeat (apply elem_of_cons in Hpos as [-> | Hpos]);
    [ | | | | by apply elem_of_nil in Hpos ];
    unfold calc_position; cbn [String.eqb Ascii.eqb Bool.eqb fst snd]; lia.
Qed.

Lemma eqb_false_of_neq (s t : string) : s <> t -> String.eqb s t = false.
Proof. intros H. by apply String.eqb_neq. Qed.

(** C10: [calc_position] is a total function of the position string, and
    every string other than ["top-left"], ["top-right"], ["center"] and
    ["bottom-left"] gets the bottom-right anchor. *)
Theorem calc_position_other_is_bottom_right (w h tw th m : Z) (pos : string) :
  pos <> "top-left" -> pos <> "top-right" -> pos <> "center" ->
  pos <> "bottom-left" ->
  calc_position w h tw th pos m = calc_position w h tw th "bottom-right" m
  /\ calc_position w h tw th pos m
     = (Z.max (w - tw - m) m, Z.max (h - th - m) m).
Proof.
  intros H1 H2 H3 H4. unfold calc_position.
  rewrite !eqb_false_of_neq by assumption.
  split; reflexivity.
Qed.

(** ** Characters and [int()] *)

Ltac each_ascii c := destruct c as [[] [] [] [] [] [] [] []].

Lemma hex_digit_facts (c : ascii) (v : Z) :
  hex_digit c = Some v ->
  PyInt.digit_value c = Some v /\ 0 <= v < 16
  /\ PyStr.is_space c = false /\ PyStr.is_int_space c = false
  /\ Ascii.eqb c "+" = false /\ Ascii.eqb c "-" = false
  /\ Ascii.eqb c "_" = false /\ Ascii.eqb c "x" = false
  /\ Ascii.eqb c "X" = false /\ Ascii.eqb c "#" = false.
Proof.
  each_ascii c; intros H; vm_compute in H; try discriminate H;
    injection H as <-; vm_compute; repeat split; congruence.
Qed.

Lemma lstrip_with_stop (f : ascii -> bool) (c : ascii) (s : string) :
  f c = false -> PyStr.lstrip_with f (String c s) = String c s.
Proof. intros H. cbn. by rewrite H. Qed.

Lemma rstrip_with_id (f : ascii -> bool) (s : string) :
  all_chars (fun c => negb (f c)) s = true -> PyStr.rstrip_with f s = s.
Proof.
  induction s as [|c s IH]; [done|]. cbn. intros [Hc Hs]%andb_prop.
  rewrite (IH Hs). destruct s; [|done].
  by destruct (f c).
Qed.

(** Two hexadecimal digits are read as the byte they write. *)
Lemma parse_hex_pair (hi lo : ascii) (vh vl : Z) :
  hex_digit hi = Some vh -> hex_digit lo = Some vl ->
  PyInt.parse int_max_str_digits 16 (String hi (String lo EmptyString))
  = Ret (hex_byte vh vl).
Proof.
  intros (Dh & Bh & _ & Sh & Ph & Mh & Uh & _)%hex_digit_facts
         (Dl & Bl & _ & Sl & _ & _ & Ul & Xl & XXl & _)%hex_digit_facts.
  unfold PyInt.parse. rewrite lstrip_with_stop by done.
  unfold PyInt.skip_sign. rewrite Ph, Mh.
  unfold PyInt.skip_prefix. rewrite Xl, XXl, andb_false_r.
  cbn [PyStr.startswith]. rewrite Uh.
  cbn [PyInt.scan_digits]. rewrite Uh, Dh, Ul, Dl.
  assert ((vh <? 16) = true) as -> by lia.
    assert ((0 * 16 + vh <? 16) = true) as Hx by lia.
  assert ((vl <? 16) = true) as -> by lia.
  cbn [PyStr.lstrip_with]. cbn [Z.eqb andb]. unfold hex_byte.
  f_equal. lia.
Qed.

(** [int()] on a string raises nothing but [ValueError]. *)
Lemma parse_raises_ValueError (limit : nat) (base : Z) (s : string) (e : exn) :
  PyInt.parse limit base s = Raise e -> is_ValueError e = true.
Proof.
  unfold PyInt.parse.
  repeat match goal with
         | |- context [let '(_, _) := ?x in _] => destruct x
         | |- context [match ?x with _ => _ end] => destruct x
         end;
    intros H; try discriminate H; by injection H as <-.
Qed.

(** ** [parse_color] *)

Lemma strip_hash_hex8 (a1 a2 r1 r2 g1 g2 b1 b2 : ascii) :
  let s := String "#" (String a1 (String a2 (String r1 (String r2
            (String g1 (String g2 (String b1 (String b2 EmptyString)))))))) in
  all_chars (fun c => negb (PyStr.is_space c)) s = true -> PyStr.strip s = s.
Proof.
  intros s Hs. subst s. unfold PyStr.strip.
  rewrite lstrip_with_stop by reflexivity. by apply rstrip_with_id.
Qed.

(** C2: a ['#'] followed by exactly eight hexadecimal digits is read alpha
    first: the first byte is the alpha channel, the next three are red,
    green and blue, and the result is [(r, g, b, a)]; nothing is printed. *)
Theorem parse_color_hex8_alpha_first
    (a1 a2 r1 r2 g1 g2 b1 b2 : ascii) (va1 va2 vr1 vr2 vg1 vg2 vb1 vb2 : Z)
    (w : world) :
  hex_digit a1 = Some va1 -> hex_digit a2 = Some va2 ->
  hex_digit r1 = Some vr1 -> hex_digit r2 = Some vr2 ->
  hex_digit g1 = Some vg1 -> hex_digit g2 = Some vg2 ->
  hex_digit b1 = Some vb1 -> hex_digit b2 = Some vb2 ->
  parse_color
    (String "#" (String a1 (String a2 (String r1 (String r2
      (String g1 (String g2 (String b1 (String b2 EmptyString)))))))))
    w
  = (Ret (hex_byte vr1 vr2, hex_byte vg1 vg2, hex_byte vb1 vb2,
          hex_byte va1 va2), w).
Proof.
  intros Ha1 Ha2 Hr1 Hr2 Hg1 Hg2 Hb1 Hb2.
  unfold parse_color. rewrite strip_hash_hex8.
  2:{ cbn [all_chars].
      rewrite (proj1 (proj2 (proj2 (hex_digit_facts _ _ Ha1)))),
              (proj1 (proj2 (proj2 (hex_digit_facts _ _ Ha2)))),
              (proj1 (proj2 (proj2 (hex_digit_facts _ _ Hr1)))),
              (proj1 (proj2 (proj2 (hex_digit_facts _ _ Hr2)))),
              (proj1 (proj2 (proj2 (hex_digit_facts _ _ Hg1)))),
              (proj1 (proj2 (proj2 (hex_digit_facts _ _ Hg2)))),
              (proj1 (proj2 (proj2 (hex_digit_facts _ _ Hb1)))),
              (proj1 (proj2 (proj2 (hex_digit_facts _ _ Hb2)))).
      reflexivity. }
  unfold parse_hex. cbn [PyStr.startswith Ascii.eqb Bool.eqb PyStr.tail].
  change (PyStr.len _ =? 8) with true. cbn iota.
  unfold parse_hex8, hex_pair, PyStr.slice.
  cbn [String.substring Nat.add Nat.sub].
  rewrite (parse_hex_pair _ _ _ _ Ha1 Ha2), (parse_hex_pair _ _ _ _ Hr1 Hr2),
          (parse_hex_pair _ _ _ _ Hg1 Hg2), (parse_hex_pair _ _ _ _ Hb1 Hb2).
  reflexivity.
Qed.

Lemma parse_hex8_raises_ValueError (hexstr : string) (e : exn) :
  parse_hex8 hexstr = Raise e -> is_ValueError e = true.
Proof.
  unfold parse_hex8, hex_pair, mbind, result_bind, Res.bind.
  repeat match goal with
         | |- context [PyInt.parse ?l ?b ?s] =>
             let E := fresh "E" in
             destruct (PyInt.parse l b s) eqn:E;
             [ | intros [= <-]; by eapply parse_raises_ValueError ]
         end.
  discriminate.
Qed.

Lemma parse_hex6_raises_ValueError (hexstr : string) (e : exn) :
  parse_hex6 hexstr = Raise e -> is_ValueError e = true.
Proof.
  unfold parse_hex6, hex_pair, mbind, result_bind, Res.bind.
  repeat match goal with
         | |- context [PyInt.parse ?l ?b ?s] =>
             let E := fresh "E" in
             destruct (PyInt.parse l b s) eqn:E;
             [ | intros [= <-]; by eapply parse_raises_ValueError ]
         end.
  discriminate.
Qed.

(** The hexadecimal part never raises. *)
Lemma parse_hex_returns (c : string) : exists o, parse_hex c = Ret o.
Proof.
  unfold parse_hex.
  destruct (PyStr.startswith "#" c); [|by eexists].
  destruct (PyStr.len (PyStr.tail c) =? 8).
  - unfold Res.try_except_ValueError, mbind, result_bind, Res.bind.
    destruct (parse_hex8 _) eqn:E; [by eexists|].
    rewrite (parse_hex8_raises_ValueError _ _ E). by eexists.
  - destruct (PyStr.len (PyStr.tail c) =? 6); [|by eexists].
    unfold Res.try_except_ValueError, mbind, result_bind, Res.bind.
    destruct (parse_hex6 _) eqn:E; [by eexists|].
    rewrite (parse_hex6_raises_ValueError _ _ E). by eexists.
Qed.

(** When the hexadecimal part falls through: the string does not start
    with ['#'], or what follows has neither 8 nor 6 characters, or one of
    the two-character groups is not a number in base 16. *)
Lemma parse_hex_fallthrough (c : string) :
  parse_hex c = Ret None <->
  PyStr.startswith "#" c = false
  \/ (PyStr.len (PyStr.tail c) <> 8 /\ PyStr.len (PyStr.tail c) <> 6)
  \/ (PyStr.startswith "#" c = true /\ PyStr.len (PyStr.tail c) = 8
      /\ exists e, parse_hex8 (PyStr.tail c) = Raise e)
  \/ (PyStr.startswith "#" c = true /\ PyStr.len (PyStr.tail c) = 6
      /\ exists e, parse_hex6 (PyStr.tail c) = Raise e).
Proof.
  unfold parse_hex.
  destruct (PyStr.startswith "#" c); [|by split; [left|]].
  destruct (Z.eqb_spec (PyStr.len (PyStr.tail c)) 8) as [E8|N8].
  - unfold Res.try_except_ValueError, mbind, result_bind, Res.bind.
    destruct (parse_hex8 _) eqn:E.
    + split; [done|]. intros [?|[[? ?]|[(_ & _ & e & ?)|(_ & ? & _)]]];
        try done; lia.
    + rewrite (parse_hex8_raises_ValueError _ _ E).
      split; [|done]. intros _. right; right; left. eauto.
  - destruct (Z.eqb_spec (PyStr.len (PyStr.tail c)) 6) as [E6|N6].
    + unfold Res.try_except_ValueError, mbind, result_bind, Res.bind.
      destruct (parse_hex6 _) eqn:E.
      * split; [done|]. intros [?|[[? ?]|[(_ & ? & _)|(_ & _ & e & ?)]]];
          try done; lia.
      * rewrite (parse_hex6_raises_ValueError _ _ E).
        split; [|done]. intros _. right; right; right. eauto.
    + split; [|done]. intros _. right; left. done.
Qed.


(** ** [exif_date_text] *)

Lemma split_not_nil (sep : ascii) (s : string) : PyStr.split sep s <> [].
Proof.
  induction s as [|c s IH]; cbn; [done|].
  destruct (Ascii.eqb c sep); [done|]. by destruct (PyStr.split sep s).
Qed.

Lemma index0_split (sep : ascii) (s : string) :
  index0 (PyStr.split sep s) = Ret (hd EmptyString (PyStr.split sep s)).
Proof.
  pose proof (split_not_nil sep s). by destruct (PyStr.split sep s).
Qed.

(** The second [try] block by cases on the fields: with three fields or
    more, the first three are read as integers and the rest is ignored;
    with fewer, the unpacking raises. *)
Lemma date_of_raw_cases (raw : exif_value) :
  date_of_raw raw =
  match date_fields raw with
  | y :: m :: d :: _ =>
      yi ← PyInt.parse int_max_str_digits 10 y;
      mi ← PyInt.parse int_max_str_digits 10 m;
      di ← PyInt.parse int_max_str_digits 10 d;
      Ret (Some (date_text yi mi di))
  | _ => Raise (ValueError "wrong number of values to unpack")
  end.
Proof.
  unfold date_of_raw, date_fields. rewrite index0_split.
  cbn [mbind result_bind Res.bind].
  destruct (PyStr.split ":" _) as [|y [|m [|d rest]]]; reflexivity.
Qed.

Lemma exif_date_text_chosen (img : image) (exif : gmap Z exif_value)
    (v : exif_value) :
  im_getexif img = Ret exif -> chosen_raw exif = Some v -> truthy v = true ->
  exif_date_text img = Res.try_except (date_of_raw v) (fun _ => Ret None).
Proof.
  intros Hexif Hraw Hv. unfold exif_date_text. rewrite Hexif.
  cbn [Res.try_except mbind result_bind Res.bind].
  destruct (decide (exif = ∅)) as [->|_].
  { unfold chosen_raw in Hraw. by rewrite !lookup_empty in Hraw. }
  rewrite Hraw. cbn [py_not]. by rewrite Hv.
Qed.

(** C1, as amended: [exif_date_text] never raises.  It works on the
    [DateTimeOriginal] tag, or on [DateTime] when the former is absent or
    empty.  A read failure, absent or empty tags, fewer than three
    colon-separated fields before the first space, or a field among the
    first three that [int()] rejects, give no date.  Otherwise the first
    three fields Y, M, D give the text [Y-M-D] padded with zeros to 4, 2 and
    2 digits; fields after the third are ignored. *)
Theorem exif_date_text_spec (img : image) :
  (exists r, exif_date_text img = Ret r)
  /\ (forall e, im_getexif img = Raise e -> exif_date_text img = Ret None)
  /\ (forall exif, im_getexif img = Ret exif ->
      (forall v, exif !! EXIF_TAG_DATETIME_ORIGINAL = Some v -> truthy v = true ->
         chosen_raw exif = Some v)
      /\ (py_not (exif !! EXIF_TAG_DATETIME_ORIGINAL) = true ->
          chosen_raw exif = exif !! EXIF_TAG_DATETIME)
      /\ (py_not (chosen_raw exif) = true -> exif_date_text img = Ret None)
      /\ (forall v, chosen_raw exif = Some v -> truthy v = true ->
          match date_fields v with
          | y :: m :: d :: _ =>
              match PyInt.parse int_max_str_digits 10 y,
                    PyInt.parse int_max_str_digits 10 m,
                    PyInt.parse int_max_str_digits 10 d with
              | Ret yi, Ret mi, Ret di =>
                  exif_date_text img = Ret (Some (date_text yi mi di))
              | _, _, _ => exif_date_text img = Ret None
              end
          | _ => exif_date_text img = Ret None
          end)).
Proof.
  assert (forall exif v, im_getexif img = Ret exif ->
            chosen_raw exif = Some v -> truthy v = true ->
            match date_fields v with
            | y :: m :: d :: _ =>
                match PyInt.parse int_max_str_digits 10 y,
                      PyInt.parse int_max_str_digits 10 m,
                      PyInt.parse int_max_str_digits 10 d with
                | Ret yi, Ret mi, Ret di =>
                    exif_date_text img = Ret (Some (date_text yi mi di))
                | _, _, _ => exif_date_text img = Ret None
                end
            | _ => exif_date_text img = Ret None
            end) as Hcases.
  { intros exif v Hexif Hraw Hv.
    rewrite (exif_date_text_chosen _ _ _ Hexif Hraw Hv), date_of_raw_cases.
    destruct (date_fields v) as [|y [|m [|d rest]]]; try reflexivity.
    cbn [mbind result_bind Res.bind].
    destruct (PyInt.parse int_max_str_digits 10 y),
      (PyInt.parse int_max_str_digits 10 m),
      (PyInt.parse int_max_str_digits 10 d);
      reflexivity. }
  assert (forall exif, im_getexif img = Ret exif ->
            py_not (chosen_raw exif) = true -> exif_date_text img = Ret None)
    as Hnone.
  { intros exif Hexif Hnot. unfold exif_date_text. rewrite Hexif.
    cbn [Res.try_except mbind result_bind Res.bind].
    destruct (decide (exif = ∅)); [done|]. by rewrite Hnot. }
  assert (forall e, im_getexif img = Raise e -> exif_date_text img = Ret None)
    as Hfail.
  { intros e He. unfold exif_date_text. by rewrite He. }
  split; [|split; [exact Hfail|]].
  - destruct (im_getexif img) as [exif|e] eqn:Hexif; [|by eauto].
    destruct (py_not (chosen_raw exif)) eqn:Hnot; [by eauto|].
    destruct (chosen_raw exif) as [v|] eqn:Hraw; [|done].
    apply negb_false_iff in Hnot.
    specialize (Hcases exif v eq_refl Hraw Hnot).
    destruct (date_fields v) as [|y [|m [|d rest]]]; eauto.
    destruct (PyInt.parse int_max_str_digits 10 y),
      (PyInt.parse int_max_str_digits 10 m),
      (PyInt.parse int_max_str_digits 10 d);
      eauto.
  - intros exif Hexif. repeat split.
    + intros v Hv Ht. unfold chosen_raw. rewrite Hv. cbn. by rewrite Ht.
    + intros Hnot. unfold chosen_raw.
      destruct (exif !! EXIF_TAG_DATETIME_ORIGINAL) as [v|]; [|done].
      cbn in *. apply negb_true_iff in Hnot. by rewrite Hnot.
    + by apply Hnone.
    + intros v. by apply Hcases.
Qed.

(** ** Paths and [ensure_output_root] *)

Lemma all_chars_app (f : ascii -> bool) (s t : string) :
  all_chars f (s +:+ t) = all_chars f s && all_chars f t.
Proof.
  induction s as [|c s IH]; simpl; [done|]. by rewrite IH, andb_assoc.
Qed.

Lemma split_no_sep (sep : ascii) (s : string) :
  all_chars (fun c => negb (Ascii.eqb c sep)) s = true ->
  PyStr.split sep s = [s].
Proof.
  induction s as [|c s IH]; cbn; [done|]. intros [Hc Hs]%andb_prop.
  apply negb_true_iff in Hc. by rewrite Hc, (IH Hs).
Qed.

Lemma root_of_no_slash (s : string) :
  PyPath.has_slash s = false -> PyPath.root_of s = "".
Proof.
  unfold PyPath.has_slash. intros H%negb_false_iff.
  destruct s as [|c s]; [done|]. cbn in H. apply andb_prop in H as [Hc _].
  apply negb_true_iff, Ascii.eqb_neq in Hc.
  unfold PyPath.root_of. each_ascii c; try reflexivity. done.
Qed.

Lemma string_app_nil_inv (s t : string) : s +:+ t = "" -> t = "".
Proof. by destruct s. Qed.

Lemma string_app_length (s t : string) :
  String.length (s +:+ t) = (String.length s + String.length t)%nat.
Proof. induction s as [|c s IH]; simpl; [done|]. by rewrite IH. Qed.

(** The name given to the output root is a single path component. *)
Lemma of_string_watermark (n : string) :
  PyPath.has_slash n = false ->
  PyPath.of_string (n +:+ "_watermark") = Path "" [n +:+ "_watermark"].
Proof.
  intros Hn.
  assert (PyPath.has_slash (n +:+ "_watermark") = false) as Hs.
  { unfold PyPath.has_slash in *. rewrite all_chars_app.
    apply negb_false_iff in Hn. by rewrite Hn. }
  unfold PyPath.of_string. rewrite (root_of_no_slash _ Hs).
  rewrite split_no_sep by (by apply negb_false_iff in Hs).
  cbn [List.filter]. unfold PyPath.is_component.
  assert (String.eqb (n +:+ "_watermark") "" = false) as ->.
  { apply String.eqb_neq. intros H%string_app_nil_inv. discriminate H. }
  assert (String.eqb (n +:+ "_watermark") "." = false) as ->.
  { apply String.eqb_neq. intros H%(f_equal String.length).
    rewrite string_app_length in H. cbn in H. lia. }
  reflexivity.
Qed.

Lemma parent_snoc (a : string) (ps : list string) (x : string) :
  PyPath.parent (Path a (ps ++ [x])) = Path a ps.
Proof. unfold PyPath.parent. cbn. by rewrite removelast_last. Qed.

Lemma name_snoc (a : string) (ps : list string) (x : string) :
  PyPath.name (Path a (ps ++ [x])) = x.
Proof. unfold PyPath.name. cbn. by rewrite last_last. Qed.

Lemma node_at_insert_eq (f : gmap path node) (p : path) :
  FS.node_at (<[p := Dir]> f) p = Some Dir.
Proof.
  unfold FS.node_at. destruct (parts p); [done|]. by rewrite lookup_insert_eq.
Qed.

(** What a successful [mkdir] leaves: the directory, and the console and
    the image objects as they were. *)
Definition mkdir_post (p : path) (w w' : world) : Prop :=
  FS.node_at (fs w') p = Some Dir /\ stdout w' = stdout w /\ heap w' = heap w.

Lemma os_mkdir_ret (p : path) (w w' : world) :
  FS.os_mkdir p w = (Ret tt, w') -> mkdir_post p w w'.
Proof.
  unfold FS.os_mkdir.
  destruct (FS.node_at (fs w) (PyPath.parent p)) as [[|d]|]; try done.
  destruct (FS.node_at (fs w) p); [done|]. intros [= <-].
  split; [apply node_at_insert_eq|done].
Qed.

Lemma os_mkdir_raise (p : path) (w w' : world) (e : exn) :
  FS.os_mkdir p w = (Raise e, w') -> w' = w.
Proof.
  unfold FS.os_mkdir.
  destruct (FS.node_at (fs w) (PyPath.parent p)) as [[|d]|]; try by intros [= _ <-].
  destruct (FS.node_at (fs w) p); [by intros [= _ <-]|done].
Qed.

Lemma mkdir_exists_ret (p : path) (ok : bool) (e : exn) (w w' : world) :
  FS.mkdir_exists p ok e w = (Ret tt, w') -> mkdir_post p w w'.
Proof.
  unfold FS.mkdir_exists, FS.is_dir, mbind, M_bind, Eff.raise, mret, M_ret.
  destruct (FS.node_at (fs w) p) as [[|d]|] eqn:E; destruct ok; cbn;
    intros [= <-]; done.
Qed.

Lemma mkdir_single_ret (p : path) (ok : bool) (w w' : world) :
  FS.mkdir_single p ok w = (Ret tt, w') -> mkdir_post p w w'.
Proof.
  unfold FS.mkdir_single, Eff.try_except_if.
  destruct (FS.os_mkdir p w) as [[[]|e] w1] eqn:E.
  - intros [= <-]. by apply os_mkdir_ret.
  - apply os_mkdir_raise in E as ->.
    destruct (is_OSError e); [|done].
    destruct (is_FileNotFoundError e); [done|]. apply mkdir_exists_ret.
Qed.

Lemma mkdir_parents_ret (a : string) (rparts : list string) (ok : bool)
    (w w' : world) :
  FS.mkdir_parents a rparts ok w = (Ret tt, w') ->
  mkdir_post (Path a (rev rparts)) w w'.
Proof.
  revert ok w w'. induction rparts as [|x rp IH]; intros ok w w';
    cbn [FS.mkdir_parents]; unfold Eff.try_except_if;
    destruct (FS.os_mkdir _ w) as [[[]|e] w1] eqn:E;
    try (intros [= <-]; by apply os_mkdir_ret);
    apply os_mkdir_raise in E as ->;
    (destruct (is_OSError e); [|done]);
    (destruct (is_FileNotFoundError e); [|by apply mkdir_exists_ret]);
    [done|].
  unfold mbind, M_bind.
  destruct (FS.mkdir_parents a rp true w) as [[[]|e'] w2] eqn:E2; [|done].
  intros H%mkdir_single_ret. apply IH in E2.
  destruct H as (H1 & H2 & H3), E2 as (_ & H5 & H6).
  split; [done|]. split; congruence.
Qed.

Lemma ensure_output_root_unfold (input_path : path) (w : world) :
  PyPath.has_slash (PyPath.name (base_dir_of input_path w)) = false ->
  ensure_output_root input_path w
  = (FS.mkdir_p (watermark_dir_in (base_dir_of input_path w));;
     mret (watermark_dir_in (base_dir_of input_path w))) w.
Proof.
  intros Hname. unfold ensure_output_root, FS.is_file.
  unfold mbind at 1. unfold M_bind at 1. cbn beta iota.
  assert ((if match FS.node_at (fs w) input_path with
              | Some (File _) => true
              | _ => false
              end
           then PyPath.parent input_path else input_path)
          = base_dir_of input_path w) as ->.
  { unfold base_dir_of. by destruct (FS.node_at (fs w) input_path) as [[|d]|]. }
  rewrite (of_string_watermark _ Hname). reflexivity.
Qed.

(** C3, as amended: the output root is named after the base directory (the
    input directory, or the parent of an input file) with [_watermark]
    appended, and it is created inside that base directory, as its child.
    The call succeeds when the base directory exists and no file has the
    name of the output root. *)
Theorem ensure_output_root_inside_base (input_path : path) (w : world) :
  PyPath.has_slash (PyPath.name (base_dir_of input_path w)) = false ->
  (forall out w', ensure_output_root input_path w = (Ret out, w') ->
     out = watermark_dir_in (base_dir_of input_path w)
     /\ PyPath.name out = PyPath.name (base_dir_of input_path w) +:+ "_watermark"
     /\ PyPath.parent out = base_dir_of input_path w
     /\ FS.node_at (fs w') out = Some Dir
     /\ stdout w' = stdout w /\ heap w' = heap w)
  /\ (FS.node_at (fs w) (base_dir_of input_path w) = Some Dir ->
      (forall d, FS.node_at (fs w) (watermark_dir_in (base_dir_of input_path w))
                 <> Some (File d)) ->
      exists w', ensure_output_root input_path w
                 = (Ret (watermark_dir_in (base_dir_of input_path w)), w')).
Proof.
  intros Hname. rewrite (ensure_output_root_unfold _ _ Hname).
  generalize (base_dir_of input_path w) as base. intros [a ps].
  unfold watermark_dir_in. cbn [anchor parts].
  change (PyPath.name (Path a ps)) with (List.last ps "").
  set (x := List.last ps "" +:+ "_watermark").
  unfold FS.mkdir_p, mbind, M_bind, mret, M_ret. cbn [anchor parts].
  split.
  - intros out w'.
    destruct (FS.mkdir_parents a (rev (ps ++ [x])) true w) as [[[]|e] w1] eqn:E;
      [|done].
    intros [= <- <-]. apply mkdir_parents_ret in E. rewrite rev_involutive in E.
    destruct E as (E1 & E2 & E3).
    rewrite parent_snoc, name_snoc. done.
  - intros Hbase Hfree. rewrite rev_app_distr. cbn [rev app FS.mkdir_parents].
    rewrite rev_involutive. unfold Eff.try_except_if.
    unfold FS.os_mkdir. rewrite parent_snoc, Hbase.
    destruct (FS.node_at (fs w) (Path a (ps ++ [x]))) as [[|d]|] eqn:E.
    + cbn. unfold FS.mkdir_exists, FS.is_dir, mbind, M_bind, mret, M_ret.
      rewrite E. cbn. by eexists.
    + by destruct (Hfree d).
    + by eexists.
Qed.

(** C3 as stated fails: for the directory [/data/photos] the output root is
    [/data/photos/photos_watermark], a child of the input directory and not
    its sibling. *)
Lemma output_root_not_sibling_of_input :
  FS.node_at (fs Sample.photos_world) Sample.photos_dir = Some Dir
  /\ exists w', ensure_output_root Sample.photos_dir Sample.photos_world
       = (Ret (Path "/" ["data"; "photos"; "photos_watermark"]), w')
     /\ PyPath.parent (Path "/" ["data"; "photos"; "photos_watermark"]) = Sample.photos_dir
     /\ ~ siblings (Path "/" ["data"; "photos"; "photos_watermark"]) Sample.photos_dir.
Proof.
  split; [reflexivity|]. eexists. split; [vm_compute; reflexivity|].
  split; [reflexivity|]. intros [H _]. discriminate H.
Qed.

(** ** Reasoning about effectful code *)

Lemma wp_bind {A B} (m : M A) (k : A -> M B) (w : world)
    (Q : result B -> world -> Prop) :
  wp m w (fun r w1 => match r with
                      | Ret a => wp (k a) w1 Q
                      | Raise e => Q (Raise e) w1
                      end) ->
  wp (m ≫= k) w Q.
Proof.
  unfold wp. change ((m ≫= k) w) with
    (match m w with (Ret a, w') => k a w' | (Raise e, w') => (Raise e, w') end).
  by destruct (m w) as [[a|e] w1].
Qed.

Lemma wp_conseq {A} (m : M A) (w : world) (Q Q' : result A -> world -> Prop) :
  (forall r w', Q r w' -> Q' r w') -> wp m w Q -> wp m w Q'.
Proof. unfold wp. auto. Qed.

Lemma wp_try_except {A} (body : M A) (handler : exn -> M A) (w : world)
    (Q : result A -> world -> Prop) :
  wp body w (fun r w1 => match r with
                         | Ret a => Q (Ret a) w1
                         | Raise e => wp (handler e) w1 Q
                         end) ->
  wp (Eff.try_except body handler) w Q.
Proof.
  unfold wp, Eff.try_except. by destruct (body w) as [[a|e] w1].
Qed.

Lemma wp_run {A} (m : M A) (w : world) (Q : result A -> world -> Prop)
    (r : result A) (w' : world) :
  wp m w Q -> m w = (r, w') -> Q r w'.
Proof. unfold wp. intros H E. by rewrite E in H. Qed.

Lemma lookup_snoc_eq {A} (l : list A) (x : A) : (l ++ [x]) !! length l = Some x.
Proof. by rewrite list_lookup_middle. Qed.

Lemma lookup_snoc_lt {A} (l : list A) (x : A) (i : nat) :
  (i < length l)%nat -> (l ++ [x]) !! i = l !! i.
Proof. intros H. by rewrite lookup_app_l. Qed.

Lemma insert_snoc {A} (l : list A) (x y : A) :
  <[length l := y]> (l ++ [x]) = l ++ [y].
Proof.
  rewrite insert_app_r_alt by lia. by rewrite Nat.sub_diag.
Qed.

Lemma wp_eq {A} (m : M A) (w : world) (Q : result A -> world -> Prop)
    (r : result A) (w' : world) :
  m w = (r, w') -> Q r w' -> wp m w Q.
Proof. unfold wp. by intros ->. Qed.


Lemma wp_lift {A} (r : result A) (w : world) (Q : result A -> world -> Prop) :
  Q r w -> wp (Eff.lift r) w Q.
Proof. done. Qed.

Lemma wp_print (msg : message) (w : world) (Q : result unit -> world -> Prop) :
  Q (Ret tt) (World (stdout w ++ [msg]) (fs w) (heap w)) ->
  wp (Eff.print msg) w Q.
Proof. done. Qed.

Lemma wp_alloc (i : image) (w : world) (Q : result nat -> world -> Prop) :
  Q (Ret (length (heap w))) (set_heap (heap w ++ [i]) w) -> wp (alloc i) w Q.
Proof. done. Qed.

Lemma wp_load (l : nat) (w : world) (Q : result image -> world -> Prop) :
  match heap w !! l with
  | Some i => Q (Ret i) w
  | None => Q (Raise (Exn "ReferenceError" "no such image object")) w
  end ->
  wp (load l) w Q.
Proof. unfold wp, load. by destruct (heap w !! l). Qed.

(** ** The imaging library, operation by operation *)

Lemma Image_copy_spec (l : nat) (w : world) :
  match heap w !! l with
  | Some i =>
      Image_copy l w
      = (Ret (length (heap w)),
         set_heap (heap w ++ [Image (im_mode i) (im_width i) (im_height i)
                                    (im_pixels i) None (im_info_exif i)
                                    (im_getexif i)]) w)
  | None =>
      Image_copy l w = (Raise (Exn "ReferenceError" "no such image object"), w)
  end.
Proof.
  unfold Image_copy, load, mbind, M_bind. by destruct (heap w !! l).
Qed.

Lemma Image_convert_spec (l : nat) (mode : string) (w : world) :
  match heap w !! l with
  | Some i =>
      match convert_pixels (im_mode i) mode (im_pixels i) with
      | Ret px =>
          Image_convert l mode w
          = (Ret (length (heap w)),
             set_heap (heap w ++ [Image mode (im_width i) (im_height i) px None
                                        (im_info_exif i) (im_getexif i)]) w)
      | Raise e => Image_convert l mode w = (Raise e, w)
      end
  | None =>
      Image_convert l mode w
      = (Raise (Exn "ReferenceError" "no such image object"), w)
  end.
Proof.
  unfold Image_convert, load, mbind, M_bind, Eff.lift.
  destruct (heap w !! l) as [i|]; [|done].
  by destruct (convert_pixels _ _ _).
Qed.

(** [exif_transpose] reads its argument and creates an image of the same
    mode. *)
Lemma ImageOps_exif_transpose_spec (l : nat) (w : world) :
  match heap w !! l with
  | Some i =>
      match im_getexif i with
      | Ret exif =>
          exists i1, im_mode i1 = im_mode i
            /\ ImageOps_exif_transpose l w
               = (Ret (length (heap w)), set_heap (heap w ++ [i1]) w)
      | Raise e => ImageOps_exif_transpose l w = (Raise e, w)
      end
  | None =>
      ImageOps_exif_transpose l w
      = (Raise (Exn "ReferenceError" "no such image object"), w)
  end.
Proof.
  pose proof (Image_copy_spec l w) as Hcopy.
  unfold ImageOps_exif_transpose, load, mbind, M_bind, Eff.lift.
  destruct (heap w !! l) as [i|]; [|done].
  destruct (im_getexif i) as [exif|e]; [|done].
  destruct (orientation_method exif) as [o|]; eexists; (split; [|done]); done.
Qed.

Lemma ImageDraw_text_spec (draw : nat) (xy : Z * Z) (text : string) (f : font)
    (fill : rgba) (w : world) :
  match heap w !! draw with
  | Some i =>
      match draw_text_pixels f text xy fill (im_width i) (im_height i)
                             (im_pixels i) with
      | Ret px =>
          ImageDraw_text draw xy text f fill w
          = (Ret tt, set_heap (<[draw := with_pixels i px]> (heap w)) w)
      | Raise e => ImageDraw_text draw xy text f fill w = (Raise e, w)
      end
  | None =>
      ImageDraw_text draw xy text f fill w
      = (Raise (Exn "ReferenceError" "no such image object"), w)
  end.
Proof.
  unfold ImageDraw_text, load, store, mbind, M_bind, Eff.lift.
  destruct (heap w !! draw) as [i|]; [|done].
  by destruct (draw_text_pixels _ _ _ _ _ _ _).
Qed.

(** ** [draw_watermark] *)

(** The working copy: a new RGBA object of the same size, unless the
    conversion to RGBA raises. *)
Lemma to_rgba_spec (l : nat) (w : world) (i : image) :
  heap w !! l = Some i ->
  let m := if negb (String.eqb (im_mode i) "RGBA")
           then Image_convert l "RGBA" else Image_copy l in
  (exists i2, im_mode i2 = "RGBA" /\ im_width i2 = im_width i
     /\ im_height i2 = im_height i
     /\ m w = (Ret (length (heap w)), set_heap (heap w ++ [i2]) w))
  \/ (exists e, convert_pixels (im_mode i) "RGBA" (im_pixels i) = Raise e
        /\ m w = (Raise e, w)).
Proof.
  intros Hl m. subst m.
  pose proof (Image_copy_spec l w) as Hcopy.
  pose proof (Image_convert_spec l "RGBA" w) as Hconv.
  rewrite Hl in Hcopy, Hconv.
  destruct (String.eqb_spec (im_mode i) "RGBA") as [Hm|Hm]; cbn [negb].
  - left. eexists. split; [|split; [|split; [|exact Hcopy]]]; done.
  - destruct (convert_pixels _ _ _) as [px|e].
    + left. eexists. split; [|split; [|split; [|exact Hconv]]]; done.
    + right. by exists e.
Qed.

(** The result: the composite itself when the original mode is RGBA, a new
    object in the original mode otherwise, unless the conversion raises. *)
Lemma from_rgba_spec (out : nat) (mode : string) (w : world) (i : image) :
  heap w !! out = Some i -> im_mode i = "RGBA" ->
  let m := if negb (String.eqb mode "RGBA")
           then Image_convert out mode else mret out in
  (exists l o extra, m w = (Ret l, set_heap (heap w ++ extra) w)
     /\ (heap w ++ extra) !! l = Some o /\ im_mode o = mode
     /\ (out <= l)%nat)
  \/ (exists e, convert_pixels "RGBA" mode (im_pixels i) = Raise e
        /\ m w = (Raise e, w)).
Proof.
  intros Hl Hrgba m. subst m.
  pose proof (Image_convert_spec out mode w) as Hconv.
  rewrite Hl, Hrgba in Hconv.
  destruct (String.eqb_spec mode "RGBA") as [Hm|Hm]; cbn [negb].
  - left. exists out, i, []. rewrite app_nil_r. destruct w. split; [done|].
    split; [done|]. split; [congruence|lia].
  - destruct (convert_pixels _ _ _) as [px|e].
    + left. eexists _, _, [_]. split; [exact Hconv|].
      split; [apply lookup_snoc_eq|]. split; [done|].
      apply lookup_lt_Some in Hl. lia.
    + right. by exists e.
Qed.

(** Drawing on the object allocated last replaces that object and nothing
    else. *)
Lemma draw_text_last (h : list image) (i3 : image) (xy : Z * Z) (text : string)
    (f : font) (fill : rgba) (out : list message) (files : gmap path node) :
  (exists px,
     ImageDraw_text (length h) xy text f fill (World out files (h ++ [i3]))
     = (Ret tt, World out files (h ++ [with_pixels i3 px])))
  \/ (exists e,
        draw_text_pixels f text xy fill (im_width i3) (im_height i3)
                         (im_pixels i3) = Raise e
        /\ ImageDraw_text (length h) xy text f fill (World out files (h ++ [i3]))
           = (Raise e, World out files (h ++ [i3]))).
Proof.
  pose proof (ImageDraw_text_spec (length h) xy text f fill
                (World out files (h ++ [i3]))) as H.
  cbn [heap] in H. rewrite lookup_snoc_eq in H.
  destruct (draw_text_pixels _ _ _ _ _ _ _) as [px|e].
  - left. exists px. rewrite H. unfold set_heap. cbn [heap stdout fs].
    by rewrite insert_snoc.
  - right. by exists e.
Qed.

Lemma Image_alpha_composite_spec (l1 l2 : nat) (w : world) (i1 i2 : image) :
  heap w !! l1 = Some i1 -> heap w !! l2 = Some i2 ->
  im_mode i1 = "RGBA" -> im_mode i2 = "RGBA" ->
  im_width i1 = im_width i2 -> im_height i1 = im_height i2 ->
  Image_alpha_composite l1 l2 w
  = (Ret (length (heap w)),
     set_heap (heap w ++ [Image "RGBA" (im_width i1) (im_height i1)
                                (composite_pixels (im_pixels i1) (im_pixels i2))
                                None (im_info_exif i1) (im_getexif i1)]) w).
Proof.
  intros H1 H2 M1 M2 W H.
  unfold Image_alpha_composite, load, mbind, M_bind.
  rewrite H1, H2, M1, M2, W, H, !Z.eqb_refl. reflexivity.
Qed.

Ltac heap_frame :=
  intros; cbn [set_heap heap stdout fs];
  repeat (rewrite lookup_app_l by (rewrite ?length_app; cbn [length]; lia));
  try done.

Ltac raise_leaf i0 Hi0 Hr :=
  split; [heap_frame|]; split; [done|]; split; [done|]; split; [done|];
  intros i0 Hi0 Hr.

Lemma draw_watermark_spec (img : nat) (text : string) (f : font)
    (color_rgba : rgba) (position : string) (w : world) :
  wp (draw_watermark img text f color_rgba position) w
     (draw_watermark_post w img text f).
Proof.
  unfold draw_watermark, draw_watermark_post. apply wp_bind.
  pose proof (ImageOps_exif_transpose_spec img w) as H1.
  destruct (heap w !! img) as [i|] eqn:Himg.
  2:{ eapply wp_eq; [exact H1|]. raise_leaf i0 Hi0 Hr. congruence. }
  destruct (im_getexif i) as [exif|e] eqn:Hexif.
  2:{ eapply wp_eq; [exact H1|]. raise_leaf i0 Hi0 Hr.
      destruct Hr as ([? ?] & _). congruence. }
  destruct H1 as (i1 & Hmode1 & H1). eapply wp_eq; [exact H1|]. clear H1.
  apply wp_bind, wp_load. cbn [set_heap heap stdout fs].
  rewrite lookup_snoc_eq. apply wp_bind.
  set (w1 := World (stdout w) (fs w) (heap w ++ [i1])).
  destruct (to_rgba_spec (length (heap w)) w1 i1 (lookup_snoc_eq _ _))
    as [(i2 & Hmode2 & Hw2 & Hh2 & H2)|(e & He & H2)];
    (eapply wp_eq; [exact H2|]); clear H2; subst w1;
    cbn [set_heap heap stdout fs].
  2:{ raise_leaf i0 Hi0 Hr. assert (i0 = i) as -> by congruence.
      destruct Hr as (_ & _ & Hr & _). rewrite Hmode1 in He.
      destruct (Hr (im_pixels i1)). congruence. }
  apply wp_bind, wp_load. cbn [set_heap heap stdout fs].
  rewrite lookup_snoc_eq. apply wp_bind. unfold Image_new. apply wp_alloc.
  cbn [set_heap heap stdout fs fst snd].
  set (i3 := Image "RGBA" _ _ _ _ _ _).
  apply wp_bind, wp_lift.
  destruct (textbbox f text) as [[[[x0 y0] x1] y1]|e] eqn:Hbbox.
  2:{ raise_leaf i0 Hi0 Hr. destruct Hr as (_ & [? ?] & _). congruence. }
  destruct (calc_position _ _ _ _ _ _) as [x y].
  unfold set_heap at 1 2. cbn [heap stdout fs].
  set (h2 := (heap w ++ [i1]) ++ [i2]).
  apply wp_bind.
  destruct (draw_text_last h2 i3 (x + 1, y + 1) text f
              (0, 0, 0, Z.min 120 color_rgba.2) (stdout w) (fs w))
    as [(px1 & H3)|(e & He & H3)]; (eapply wp_eq; [exact H3|]); clear H3.
  2:{ subst h2. raise_leaf i0 Hi0 Hr. destruct Hr as (_ & _ & _ & _ & Hr).
      edestruct Hr as [? Hr']. rewrite Hr' in He. discriminate He. }
  apply wp_bind.
  destruct (draw_text_last h2 (with_pixels i3 px1) (x + 2, y + 2) text f
              (0, 0, 0, Z.min 120 color_rgba.2) (stdout w) (fs w))
    as [(px2 & H3)|(e & He & H3)]; (eapply wp_eq; [exact H3|]); clear H3.
  2:{ subst h2. raise_leaf i0 Hi0 Hr. destruct Hr as (_ & _ & _ & _ & Hr).
      edestruct Hr as [? Hr']. rewrite Hr' in He. discriminate He. }
  apply wp_bind.
  destruct (draw_text_last h2 (with_pixels (with_pixels i3 px1) px2) (x, y)
              text f color_rgba (stdout w) (fs w))
    as [(px3 & H3)|(e & He & H3)]; (eapply wp_eq; [exact H3|]); clear H3.
  2:{ subst h2. raise_leaf i0 Hi0 Hr. destruct Hr as (_ & _ & _ & _ & Hr).
      edestruct Hr as [? Hr']. rewrite Hr' in He. discriminate He. }
  set (i3' := with_pixels _ px3).
  apply wp_bind. eapply wp_eq.
  { apply (Image_alpha_composite_spec _ _ _ i2 i3'); cbn [heap]; subst h2.
    - rewrite lookup_snoc_lt by (rewrite !length_app; cbn; lia).
      apply lookup_snoc_eq.
    - apply lookup_snoc_eq.
    - done.
    - done.
    - done.
    - done. }
  cbn [heap]. set (i4 := Image "RGBA" _ _ _ _ _ _).
  unfold set_heap. cbn [heap stdout fs].
  destruct (from_rgba_spec (length (h2 ++ [i3'])) (im_mode i1)
              (World (stdout w) (fs w) ((h2 ++ [i3']) ++ [i4])) i4
              (lookup_snoc_eq _ _) eq_refl)
    as [(l & o & extra & H5 & Hl & Ho & Hle)|(e & He & H5)];
    (eapply wp_eq; [exact H5|]); clear H5; subst h2;
    unfold set_heap; cbn [heap stdout fs] in *.
  2:{ raise_leaf i0 Hi0 Hr. assert (i0 = i) as -> by congruence.
      destruct Hr as (_ & _ & _ & Hr & _). rewrite Hmode1 in He.
      edestruct Hr as [? Hr']. rewrite Hr' in He. discriminate He. }
  split; [heap_frame|]. split; [done|]. split; [done|]. split.
  - intros out [= <-]. split.
    + rewrite !length_app in Hle. lia.
    + exists i, o. split; [done|]. split; [done|]. congruence.
  - intros. by eexists.
Qed.

(** C8: [draw_watermark] never changes the image object it is given, nor
    any other object that existed, nor the console or the files: it draws
    on objects it has created itself.  The image it returns is a new object
    whose colour mode is the mode of the input, and it does return one
    whenever the steps of the imaging library succeed. *)
Theorem draw_watermark_leaves_input (img : nat) (text : string) (f : font)
    (color_rgba : rgba) (position : string) (w : world) :
  let r := (draw_watermark img text f color_rgba position w).1 in
  let w' := (draw_watermark img text f color_rgba position w).2 in
  (forall l, (l < length (heap w))%nat -> heap w' !! l = heap w !! l)
  /\ stdout w' = stdout w /\ fs w' = fs w
  /\ (forall out, r = Ret out ->
        (length (heap w) <= out)%nat
        /\ exists i o, heap w !! img = Some i /\ heap w' !! out = Some o
                       /\ im_mode o = im_mode i)
  /\ (forall i, heap w !! img = Some i -> renders i text f ->
        exists out, r = Ret out).
Proof. exact (draw_watermark_spec img text f color_rgba position w). Qed.

(** ** Console output of the file operations *)

Lemma bind_run {A B} (m : M A) (k : A -> M B) (w : world) :
  (m ≫= k) w = match m w with
               | (Ret a, w1) => k a w1
               | (Raise e, w1) => (Raise e, w1)
               end.
Proof. reflexivity. Qed.

Lemma quiet_bind {A B} (m : M A) (k : A -> M B) :
  quiet m -> (forall a, quiet (k a)) -> quiet (m ≫= k).
Proof.
  intros Hm Hk w. rewrite bind_run. specialize (Hm w).
  destruct (m w) as [[a|e] w1]; cbn in *; [|done]. by rewrite Hk.
Qed.

Lemma quiet_try_except_if {A} (c : exn -> bool) (m : M A) (h : exn -> M A) :
  quiet m -> (forall e, quiet (h e)) -> quiet (Eff.try_except_if c m h).
Proof.
  intros Hm Hh w. unfold Eff.try_except_if. specialize (Hm w).
  destruct (m w) as [[a|e] w1]; cbn in *; [done|].
  destruct (c e); [|done]. by rewrite Hh.
Qed.

Lemma quiet_try_except {A} (m : M A) (h : exn -> M A) :
  quiet m -> (forall e, quiet (h e)) -> quiet (Eff.try_except m h).
Proof.
  intros Hm Hh w. unfold Eff.try_except. specialize (Hm w).
  destruct (m w) as [[a|e] w1]; cbn in *; [done|]. by rewrite Hh.
Qed.

Lemma quiet_ret {A} (a : A) : quiet (mret a : M A).
Proof. done. Qed.

Lemma quiet_lift {A} (r : result A) : quiet (Eff.lift r).
Proof. done. Qed.

Lemma quiet_raise {A} (e : exn) : quiet (Eff.raise e : M A).
Proof. done. Qed.

Lemma quiet_load (l : nat) : quiet (load l).
Proof. intros w. unfold load. by destruct (heap w !! l). Qed.

Lemma quiet_alloc (i : image) : quiet (alloc i).
Proof. done. Qed.

Lemma quiet_is_dir (p : path) : quiet (FS.is_dir p).
Proof. done. Qed.

Lemma quiet_os_mkdir (p : path) : quiet (FS.os_mkdir p).
Proof.
  intros w. unfold FS.os_mkdir.
  destruct (FS.node_at (fs w) (PyPath.parent p)) as [[|d]|]; try done.
  by destruct (FS.node_at (fs w) p).
Qed.

Lemma quiet_mkdir_exists (p : path) (ok : bool) (e : exn) :
  quiet (FS.mkdir_exists p ok e).
Proof.
  apply quiet_bind; [apply quiet_is_dir|]. intros d.
  destruct (negb ok || negb d); [apply quiet_raise|apply quiet_ret].
Qed.

Lemma quiet_mkdir_single (p : path) (ok : bool) : quiet (FS.mkdir_single p ok).
Proof.
  apply quiet_try_except_if; [apply quiet_os_mkdir|]. intros e.
  destruct (is_FileNotFoundError e); [apply quiet_raise|apply quiet_mkdir_exists].
Qed.

Lemma quiet_mkdir_parents (a : string) (rparts : list string) (ok : bool) :
  quiet (FS.mkdir_parents a rparts ok).
Proof.
  revert ok. induction rparts as [|x rp IH]; intros ok; cbn [FS.mkdir_parents];
    (apply quiet_try_except_if; [apply quiet_os_mkdir|]); intros e;
    (destruct (is_FileNotFoundError e); [|apply quiet_mkdir_exists]).
  - apply quiet_raise.
  - apply quiet_bind; [apply IH|]. intros _. apply quiet_mkdir_single.
Qed.

Lemma quiet_mkdir_p (p : path) : quiet (FS.mkdir_p p).
Proof. apply quiet_mkdir_parents. Qed.

Lemma quiet_Image_open (p : path) : quiet (Image_open p).
Proof.
  intros w. unfold Image_open.
  destruct (FS.node_at (fs w) p) as [[|d]|]; try done.
  apply (quiet_bind (Eff.lift (decode d)) alloc); [apply quiet_lift|].
  apply quiet_alloc.
Qed.

Lemma quiet_write_file (p : path) (d : encoded) : quiet (write_file p d).
Proof.
  intros w. unfold write_file.
  destruct (FS.node_at (fs w) (PyPath.parent p)) as [[|?]|]; try done.
  by destruct (FS.node_at (fs w) p) as [[|?]|].
Qed.

Lemma quiet_Image_save (l : nat) (p : path) (fmt : string) (kw : save_kwargs) :
  quiet (Image_save l p fmt kw).
Proof.
  apply quiet_bind; [apply quiet_load|]. intros i.
  apply quiet_bind; [apply quiet_lift|]. intros _. apply quiet_write_file.
Qed.

Lemma quiet_draw_watermark (img : nat) (text : string) (f : font)
    (color_rgba : rgba) (position : string) :
  quiet (draw_watermark img text f color_rgba position).
Proof.
  intros w. by destruct (draw_watermark_spec img text f color_rgba position w)
    as (_ & ? & _).
Qed.

Lemma one_line_print (P : message -> Prop) (msg : message) :
  P msg -> one_line P (Eff.print msg).
Proof. intros H w. cbn. eauto. Qed.

Lemma one_line_bind {A} (P : message -> Prop) (m : M A) (k : A -> M unit) :
  quiet m -> (forall a, one_line P (k a)) -> one_line P (m ≫= k).
Proof.
  intros Hm Hk w. rewrite bind_run. specialize (Hm w).
  destruct (m w) as [[a|e] w1]; cbn in *; [|done].
  specialize (Hk a w1). destruct (k a w1) as [[[]|e] w2]; cbn in *.
  - destruct Hk as (msg & ? & ->). exists msg. by rewrite Hm.
  - congruence.
Qed.

(** The body of [process_file] prints one line when it returns: the skip
    notice or the success notice for the file. *)
Lemma process_file_body_one_line (in_file out_root source_root : path)
    (f : font) (color_rgba : rgba) (position : string) :
  one_line (fun msg => msg = MsgSkip in_file
                       \/ exists out, msg = MsgDone in_file out)
    (process_file_body in_file out_root source_root f color_rgba position).
Proof.
  unfold process_file_body.
  apply one_line_bind; [apply quiet_Image_open|]. intros im.
  apply one_line_bind; [apply quiet_load|]. intros i.
  apply one_line_bind; [apply quiet_lift|]. intros text.
  destruct (no_text text); [apply one_line_print; by left|].
  apply one_line_bind; [apply quiet_draw_watermark|]. intros out_img.
  apply one_line_bind.
  { apply quiet_try_except; [apply quiet_lift|]. intros _. apply quiet_ret. }
  intros rel_path.
  apply one_line_bind; [apply quiet_mkdir_p|]. intros _.
  apply one_line_bind; [apply quiet_load|]. intros i'.
  apply one_line_bind.
  { apply quiet_try_except; [apply quiet_ret|]. intros _. apply quiet_ret. }
  intros kw.
  apply one_line_bind; [apply quiet_lift|]. intros out_path.
  apply one_line_bind; [apply quiet_Image_save|]. intros _.
  apply one_line_print. right. by eexists.
Qed.

(** [process_file] always returns, and prints exactly one line, about its
    file: the error notice when the body raised. *)
Lemma process_file_returns (in_file out_root source_root : path) (f : font)
    (color_rgba : rgba) (position : string) (w : world) :
  exists w' msg,
    process_file in_file out_root source_root f color_rgba position w
    = (Ret tt, w')
    /\ stdout w' = stdout w ++ [msg] /\ line_about in_file msg
    /\ forall e w1,
         process_file_body in_file out_root source_root f color_rgba position w
         = (Raise e, w1) ->
         msg = MsgError in_file e
         /\ w' = World (stdout w1 ++ [MsgError in_file e]) (fs w1) (heap w1).
Proof.
  pose proof (process_file_body_one_line in_file out_root source_root f
                color_rgba position w) as Hbody.
  unfold process_file, Eff.try_except.
  destruct (process_file_body _ _ _ _ _ _ w) as [[[]|e] w1]; cbn in Hbody.
  - destruct Hbody as (msg & Hmsg & Hout). exists w1, msg.
    split; [done|]. split; [done|]. split; [|done].
    destruct Hmsg as [->|[out ->]]; [by left|right; left; by eexists].
  - eexists _, _. split; [reflexivity|]. cbn.
    split; [by rewrite Hbody|]. split; [right; right; by eexists|].
    by intros ? ? [= <- <-].
Qed.



(** ** [process_file] and the EXIF blob *)

Lemma Image_open_spec (p : path) (w : world) (d : encoded) (i : image) :
  FS.node_at (fs w) p = Some (File d) -> decode d = Ret i ->
  Image_open p w = (Ret (length (heap w)), set_heap (heap w ++ [i]) w).
Proof. intros Hp Hd. unfold Image_open. rewrite Hp, bind_run. cbn. by rewrite Hd. Qed.

Lemma save_kwargs_of_exif (fmt : string) (blob : list Byte.byte) :
  fmt = "JPEG" \/ fmt = "TIFF" -> blob <> [] ->
  kw_exif (save_kwargs_of fmt (Some blob)) = Some blob.
Proof. intros [-> | ->] Hblob; (destruct blob; [done|reflexivity]). Qed.

Lemma process_file_body_exif (in_file out_root source_root : path) (f : font)
    (color_rgba : rgba) (position : string) (w : world) (d : encoded)
    (i : image) (blob : list Byte.byte) :
  FS.node_at (fs w) in_file = Some (File d) -> decode d = Ret i ->
  format_of i = "JPEG" \/ format_of i = "TIFF" ->
  im_info_exif i = Some blob -> blob <> [] ->
  wp (process_file_body in_file out_root source_root f color_rgba position) w
     (fun r w' =>
        forall out_path,
          r = Ret tt -> last (stdout w') = Some (MsgDone in_file out_path) ->
          saved_with_exif w' out_path (format_of i) blob).
Proof.
  intros Hfile Hdec Hfmt Hinfo Hblob. unfold process_file_body.
  apply wp_bind. eapply wp_eq; [exact (Image_open_spec _ _ _ _ Hfile Hdec)|].
  apply wp_bind, wp_load. cbn [set_heap heap stdout fs].
  rewrite lookup_snoc_eq.
  apply wp_bind, wp_lift. destruct (exif_date_text i) as [text|e]; [|done].
  destruct (no_text text).
  { apply wp_print. intros out_path _. cbn [stdout]. rewrite last_snoc. done. }
  apply wp_bind. eapply wp_conseq; [|apply draw_watermark_spec].
  intros [out_img|e] w2 (Hframe & _ & Hfs2 & _); [|done].
  unfold set_heap in Hframe. cbn [heap] in Hframe.
  assert (heap w2 !! length (heap w) = Some i) as Him.
  { rewrite Hframe by (rewrite length_app; cbn; lia). apply lookup_snoc_eq. }
  apply wp_bind. eapply wp_eq.
  { unfold Eff.try_except, Eff.lift.
    instantiate (1 := w2).
    instantiate (1 := Ret match PyPath.relative_to in_file source_root with
                          | Ret a => a
                          | Raise _ => PyPath.of_string (PyPath.name in_file)
                          end).
    by destruct (PyPath.relative_to in_file source_root). }
  set (rel_path := match PyPath.relative_to in_file source_root with
                   | Ret a => a
                   | Raise _ => PyPath.of_string (PyPath.name in_file)
                   end).
  apply wp_bind.
  destruct (FS.mkdir_p (PyPath.parent (PyPath.join out_root rel_path)) w2)
    as [[[]|e] w3] eqn:Hmk; (eapply wp_eq; [exact Hmk|]); [|done].
  apply mkdir_parents_ret in Hmk as (_ & _ & Hheap3).
  apply wp_bind, wp_load. rewrite Hheap3, Him.
  apply wp_bind. eapply wp_eq; [reflexivity|].
  apply wp_bind, wp_lift.
  destruct (PyPath.with_suffix _ _) as [out_path|e]; [|done].
  apply wp_bind. unfold Image_save. apply wp_bind, wp_load.
  destruct (heap w3 !! out_img) as [o|]; [|done].
  apply wp_bind, wp_lift.
  destruct (encoder_check o (format_of i) _) as [[]|e]; [|done].
  unfold wp at 1. unfold write_file.
  destruct (FS.node_at (fs w3) (PyPath.parent out_path)) as [[|?]|]; try done.
  destruct (FS.node_at (fs w3) out_path) as [[|?]|] eqn:Hout; try done;
    cbn [fst snd]; apply wp_print; intros out_path' _;
    cbn [stdout fs heap FS.set_fs];
    rewrite last_snoc; intros [= <-]; eexists;
    (split; [unfold FS.node_at in Hout |- *;
             (destruct (parts out_path); [discriminate Hout|]);
             apply lookup_insert_eq|]);
    (split; [reflexivity|]);
    cbn [enc_kwargs]; rewrite Hinfo; by apply save_kwargs_of_exif.
Qed.

(** C9: when the input is a JPEG or TIFF file whose decoded image carries
    an EXIF blob, a successful [process_file] has written the output file
    with exactly that blob, taken from the input object after
    [draw_watermark] has produced the orientation-normalised pixels. *)
Theorem process_file_keeps_exif_blob (in_file out_root source_root : path)
    (f : font) (color_rgba : rgba) (position : string) (w : world)
    (d : encoded) (i : image) (blob : list Byte.byte) :
  FS.node_at (fs w) in_file = Some (File d) -> decode d = Ret i ->
  im_format i = Some "JPEG" \/ im_format i = Some "TIFF" ->
  im_info_exif i = Some blob -> blob <> [] ->
  wp (process_file in_file out_root source_root f color_rgba position) w
     (fun _ w' =>
        forall out_path,
          last (stdout w') = Some (MsgDone in_file out_path) ->
          saved_with_exif w' out_path (format_of i) blob).
Proof.
  intros Hfile Hdec Hfmt Hinfo Hblob.
  assert (format_of i = "JPEG" \/ format_of i = "TIFF") as Hfmt'.
  { unfold format_of. destruct Hfmt as [-> | ->]; [by left|by right]. }
  unfold process_file. apply wp_try_except.
  eapply wp_conseq;
    [|by apply (process_file_body_exif _ _ _ _ _ _ _ d i blob)].
  intros [[]|e] w' Hpost.
  - intros out_path. by apply Hpost.
  - apply wp_print. intros out_path. cbn [stdout]. by rewrite last_snoc.
Qed.

(** ** Plain decimal fields *)

Lemma dec_digit_facts (c : ascii) (v : Z) :
  dec_digit c = Some v ->
  PyInt.digit_value c = Some v /\ 0 <= v < 10
  /\ PyStr.is_int_space c = false
  /\ Ascii.eqb c "+" = false /\ Ascii.eqb c "-" = false
  /\ Ascii.eqb c "_" = false.
Proof.
  each_ascii c; intros H; vm_compute in H; try discriminate H;
    injection H as <-; vm_compute; repeat split; congruence.
Qed.

Lemma scan_digits_decimal (s : string) (acc v : Z) (n : nat) :
  dec_value acc s = Some v ->
  PyInt.scan_digits 10 false acc n s
  = Some (v, (n + String.length s)%nat, EmptyString).
Proof.
  revert acc n. induction s as [|c s IH]; intros acc n; cbn [dec_value].
  - intros [= ->]. cbn. by rewrite Nat.add_0_r.
  - destruct (dec_digit c) as [d|] eqn:Hc; [|done].
    apply dec_digit_facts in Hc as (Hd & Hb & _ & _ & _ & Hu).
    intros Hv. cbn [PyInt.scan_digits String.length]. rewrite Hu, Hd.
    assert ((d <? 10) = true) as -> by lia.
    rewrite (IH (acc * 10 + d) (S n)).
    + do 3 f_equal. lia.
    + by rewrite Z.mul_comm.
Qed.

Lemma skip_prefix_decimal (s : string) : PyInt.skip_prefix 10 s = s.
Proof. by destruct s as [|c0 [|c1 s]]. Qed.

(** A non-empty string of at most 640 decimal digits is read by [int()] as
    the number it writes, whatever the interpreter's limit. *)
Lemma parse_decimal (limit : nat) (s : string) (v : Z) :
  s <> EmptyString -> (String.length s <= 640)%nat ->
  dec_value 0 s = Some v ->
  PyInt.parse limit 10 s = Ret v.
Proof.
  intros Hne Hlen Hv. destruct s as [|c s]; [done|].
  pose proof Hv as Hv'. cbn [dec_value] in Hv'.
  destruct (dec_digit c) as [d|] eqn:Hc; [|done].
  apply dec_digit_facts in Hc as (_ & _ & Hs & Hp & Hm & Hu).
  unfold PyInt.parse. rewrite lstrip_with_stop by done.
  unfold PyInt.skip_sign. rewrite Hp, Hm, skip_prefix_decimal.
  cbn [PyStr.startswith]. rewrite Hu.
  rewrite (scan_digits_decimal _ _ _ _ Hv). cbn [Nat.add String.length].
  cbn [PyStr.lstrip_with]. unfold PyInt.over_limit.
  assert ((PyInt.max_str_digits_threshold <? S (String.length s))%nat = false)
    as ->.
  { apply Nat.ltb_ge. unfold PyInt.max_str_digits_threshold.
    cbn [String.length] in Hlen. lia. }
  reflexivity.
Qed.

(** C4 as stated fails: the division is not truncating.  For a 10-pixel
    image and a 13-pixel text the anchor is [-2], where truncation would
    give [-1]. *)
Lemma calc_position_center_not_truncated :
  calc_position 10 10 13 13 "center" default_margin = (-2, -2)
  /\ calc_position 10 10 13 13 "center" default_margin
     <> ((10 - 13) ÷ 2, (10 - 13) ÷ 2).
Proof. split; [reflexivity|]. intros H. discriminate H. Qed.

(** ** Printing and reading decimal numbers *)

Lemma dec_digit_char (d : Z) :
  0 <= d < 10 -> dec_digit (PyStr.digit_char d) = Some d.
Proof.
  intros H.
  assert (d = 0 \/ d = 1 \/ d = 2 \/ d = 3 \/ d = 4 \/ d = 5 \/ d = 6
          \/ d = 7 \/ d = 8 \/ d = 9) as Hd by lia.
  repeat (destruct Hd as [->|Hd]; [reflexivity|]). by subst.
Qed.

(** Reading the digits printed for [n] continues the number read so far by
    the digits of [n]. *)
Lemma dec_value_digits_fuel (fuel : nat) (n : Z) (rest : string) :
  0 <= n < 10 ^ Z.of_nat fuel ->
  exists k, 0 <= k /\ forall a,
    dec_value a (PyStr.digits_fuel fuel n rest) = dec_value (a * 10 ^ k + n) rest.
Proof.
  revert n rest. induction fuel as [|fuel IH]; intros n rest Hn.
  - exists 0. split; [done|]. intros a. cbn in *. f_equal. lia.
  - cbn [PyStr.digits_fuel].
    pose proof (Z.div_mod n 10 ltac:(lia)) as Hdm.
    pose proof (Z.mod_pos_bound n 10 ltac:(lia)) as Hmod.
    destruct (Z.ltb_spec n 10) as [Hlt|Hge].
    + exists 1. split; [done|]. intros a. cbn [dec_value].
      rewrite dec_digit_char by done. f_equal. lia.
    + destruct (IH (n / 10) (String (PyStr.digit_char (n mod 10)) rest))
        as (k & Hk & IHk).
      { rewrite Nat2Z.inj_succ, Z.pow_succ_r in Hn by lia.
        split; [apply Z.div_pos; lia|].
        apply Z.div_lt_upper_bound; lia. }
      exists (k + 1). split; [lia|]. intros a. rewrite IHk. cbn [dec_value].
      rewrite dec_digit_char by done. f_equal.
      rewrite Z.pow_add_r by lia. lia.
Qed.

Lemma enough_fuel (n : Z) :
  0 <= n -> n < 10 ^ Z.of_nat (S (Z.to_nat (Z.log2 n))).
Proof.
  intros Hn. rewrite Nat2Z.inj_succ, Z2Nat.id by apply Z.log2_nonneg.
  destruct (Z.eq_dec n 0) as [->|Hpos]; [done|].
  pose proof (Z.log2_spec n ltac:(lia)) as [_ Hup].
  eapply Z.lt_le_trans; [exact Hup|].
  apply Z.pow_le_mono_l. pose proof (Z.log2_nonneg n). lia.
Qed.

(** The digits printed for a number write that number. *)
Lemma dec_value_digits (n : Z) : 0 <= n -> dec_value 0 (PyStr.digits n) = Some n.
Proof.
  intros Hn. unfold PyStr.digits.
  destruct (dec_value_digits_fuel (S (Z.to_nat (Z.log2 n))) n EmptyString)
    as (k & _ & Hk); [split; [done|by apply enough_fuel]|].
  rewrite Hk. cbn [dec_value]. by f_equal.
Qed.

Lemma digits_fuel_length (fuel : nat) (n : Z) (rest : string) :
  (String.length (PyStr.digits_fuel fuel n rest) <= fuel + String.length rest)%nat.
Proof.
  revert n rest. induction fuel as [|fuel IH]; intros n rest; cbn; [lia|].
  destruct (n <? 10); cbn; [lia|].
  etrans; [apply IH|]. cbn. lia.
Qed.

Lemma digits_fuel_grows (fuel : nat) (n : Z) (rest : string) :
  (String.length rest <= String.length (PyStr.digits_fuel fuel n rest))%nat.
Proof.
  revert n rest. induction fuel as [|fuel IH]; intros n rest; cbn; [lia|].
  destruct (n <? 10); cbn; [lia|].
  etrans; [|apply IH]. cbn. lia.
Qed.

Lemma digits_not_empty (n : Z) : PyStr.digits n <> EmptyString.
Proof.
  unfold PyStr.digits. cbn [PyStr.digits_fuel].
  destruct (n <? 10); [done|].
  intros H%(f_equal String.length).
  pose proof (digits_fuel_grows (Z.to_nat (Z.log2 n)) (n / 10)
                (String (PyStr.digit_char (n mod 10)) EmptyString)) as Hg.
  rewrite H in Hg. cbn in Hg. lia.
Qed.

Lemma dec_value_zeros (k : nat) (s : string) :
  dec_value 0 (PyStr.zeros k +:+ s) = dec_value 0 s.
Proof. induction k as [|k IH]; [done|]. cbn. exact IH. Qed.

Lemma zeros_length (k : nat) : String.length (PyStr.zeros k) = k.
Proof. induction k as [|k IH]; cbn; [done|]. by rewrite IH. Qed.

(** A non-negative number printed with zero padding is read back by
    [int()] as the same number. *)
Lemma parse_format_0d (limit width : nat) (n : Z) :
  0 <= n < 2 ^ 600 -> (width <= 600)%nat ->
  PyInt.parse limit 10 (PyStr.format_0d width n) = Ret n.
Proof.
  intros [Hn Hup] Hw. unfold PyStr.format_0d.
  assert ((n <? 0) = false) as -> by lia.
  apply parse_decimal.
  - destruct (PyStr.zeros _) eqn:Hz; [apply digits_not_empty|done].
  - rewrite string_app_length, zeros_length.
    pose proof (digits_fuel_length (S (Z.to_nat (Z.log2 n))) n EmptyString) as Hl.
    fold (PyStr.digits n) in Hl. cbn [String.length] in Hl.
    assert (Z.log2 n < 600) as Hlog.
    { destruct (Z.eq_dec n 0) as [->|Hpos]; [done|].
      apply Z.log2_lt_pow2; lia. }
    pose proof (Z.log2_nonneg n). lia.
  - rewrite dec_value_zeros. by apply dec_value_digits.
Qed.

(** ** Dates in canonical form *)

Lemma dec_value_all_digits (s : string) (a v : Z) :
  dec_value a s = Some v ->
  all_chars (fun c => bool_decide (is_Some (dec_digit c))) s = true.
Proof.
  revert a. induction s as [|c s IH]; intros a; cbn [dec_value all_chars];
    [done|].
  destruct (dec_digit c) as [d|]; [|done]. intros H.
  rewrite (IH _ H), andb_true_r. apply bool_decide_eq_true. by eexists.
Qed.

Lemma all_chars_impl (f g : ascii -> bool) (s : string) :
  (forall c, f c = true -> g c = true) ->
  all_chars f s = true -> all_chars g s = true.
Proof.
  intros Hfg. induction s as [|c s IH]; cbn [all_chars]; [done|].
  intros [Hc Hs]%andb_prop. by rewrite (Hfg _ Hc), (IH Hs).
Qed.

Lemma digit_not_sep (sep c : ascii) :
  dec_digit sep = None ->
  bool_decide (is_Some (dec_digit c)) = true -> negb (Ascii.eqb c sep) = true.
Proof.
  intros Hsep Hc%bool_decide_eq_true. apply negb_true_iff, Ascii.eqb_neq.
  intros ->. rewrite Hsep in Hc. by destruct Hc.
Qed.

(** A zero-padded number contains neither a colon nor a space. *)
Lemma format_0d_no_sep (sep : ascii) (width : nat) (n : Z) :
  dec_digit sep = None -> 0 <= n ->
  all_chars (fun c => negb (Ascii.eqb c sep)) (PyStr.format_0d width n) = true.
Proof.
  intros Hsep Hn.
  apply (all_chars_impl (fun c => bool_decide (is_Some (dec_digit c))));
    [intros c; by apply digit_not_sep|].
  unfold PyStr.format_0d. assert ((n <? 0) = false) as -> by lia.
  eapply (dec_value_all_digits _ 0). rewrite dec_value_zeros.
  by apply dec_value_digits.
Qed.

(** Splitting at the first separator. *)
Lemma split_app_sep (sep : ascii) (a b : string) :
  all_chars (fun c => negb (Ascii.eqb c sep)) a = true ->
  PyStr.split sep (a +:+ String sep b) = a :: PyStr.split sep b.
Proof.
  induction a as [|c a IH]; simpl.
  - intros _. by rewrite Ascii.eqb_refl.
  - intros [Hc Ha]%andb_prop. apply negb_true_iff in Hc.
    by rewrite Hc, (IH Ha).
Qed.

(** X26: a date written as [YYYY:MM:DD], followed by a space and
    anything, is returned as [YYYY-MM-DD]. *)
Lemma exif_date_text_canonical (img : image) (exif : gmap Z exif_value)
    (y m d : Z) (time : string) :
  im_getexif img = Ret exif ->
  chosen_raw exif
  = Some (EStr ((PyStr.format_0d 4 y +:+ ":" +:+ PyStr.format_0d 2 m +:+ ":"
                 +:+ PyStr.format_0d 2 d) +:+ " " +:+ time)) ->
  0 <= y <= 9999 -> 0 <= m <= 99 -> 0 <= d <= 99 ->
  exif_date_text img = Ret (Some (date_text y m d)).
Proof.
  intros Hexif Hraw Hy Hm Hd.
  assert (forall n, 0 <= n <= 9999 -> 0 <= n < 2 ^ 600) as Hsmall.
  { intros n Hn. split; [lia|]. eapply Z.le_lt_trans; [apply Hn|]. reflexivity. }
  pose proof (format_0d_no_sep ":" 4 y eq_refl (proj1 Hy)) as Hy1.
  pose proof (format_0d_no_sep ":" 2 m eq_refl (proj1 Hm)) as Hm1.
  pose proof (format_0d_no_sep ":" 2 d eq_refl (proj1 Hd)) as Hd1.
  pose proof (format_0d_no_sep " " 4 y eq_refl (proj1 Hy)) as Hy2.
  pose proof (format_0d_no_sep " " 2 m eq_refl (proj1 Hm)) as Hm2.
  pose proof (format_0d_no_sep " " 2 d eq_refl (proj1 Hd)) as Hd2.
  set (ys := PyStr.format_0d 4 y) in *. set (ms := PyStr.format_0d 2 m) in *.
  set (ds := PyStr.format_0d 2 d) in *.
  rewrite (exif_date_text_chosen _ _ _ Hexif Hraw).
  2:{ cbn [truthy]. apply negb_true_iff, String.eqb_neq.
      intros H%(f_equal String.length). rewrite !string_app_length in H.
      cbn in H. lia. }
  rewrite date_of_raw_cases. unfold date_fields. cbn [py_str].
  change (" " +:+ time) with (String " " time).
  rewrite split_app_sep.
  2:{ rewrite all_chars_app, Hy2. change (":" +:+ ms +:+ ":" +:+ ds)
        with (String ":" (ms +:+ String ":" ds)).
      cbn [all_chars andb]. rewrite all_chars_app, Hm2. cbn [all_chars andb].
      by rewrite Hd2. }
  cbn [hd].
  change (":" +:+ ms +:+ ":" +:+ ds) with (String ":" (ms +:+ String ":" ds)).
  rewrite (split_app_sep ":" ys) by done.
  rewrite (split_app_sep ":" ms) by done.
  rewrite (split_no_sep ":" ds) by done.
  subst ys ms ds.
  rewrite !parse_format_0d by (try apply Hsmall; lia).
  reflexivity.
Qed.

(** * Further properties *)

(** ** [calc_position]: where the text box ends up *)

(** X1: when the text fits between the margins, every corner position puts
    the whole text box inside the image, at least [margin] away from each
    edge: left positions are flush with the left margin, right positions
    with the right margin, and likewise for top and bottom. *)
Theorem calc_position_corner_inside (w h tw th m : Z) (pos : string) :
  pos ∈ ["top-left"; "top-right"; "bottom-left"; "bottom-right"] ->
  tw + 2 * m <= w -> th + 2 * m <= h ->
  let x := (calc_position w h tw th pos m).1 in
  let y := (calc_position w h tw th pos m).2 in
  (m <= x /\ x + tw <= w - m) /\ (m <= y /\ y + th <= h - m)
  /\ (pos ∈ ["top-left"; "bottom-left"] -> x = m)
  /\ (pos ∈ ["top-right"; "bottom-right"] -> x + tw = w - m)
  /\ (pos ∈ ["top-left"; "top-right"] -> y = m)
  /\ (pos ∈ ["bottom-left"; "bottom-right"] -> y + th = h - m).
Proof.
  intros Hpos Hw Hh.
  repeat (apply elem_of_cons in Hpos as [-> | Hpos]);
    [ | | | | by apply elem_of_nil in Hpos ];
    unfold calc_position; cbn [String.eqb Ascii.eqb Bool.eqb fst snd];
    (repeat split; try lia);
    intros Hin; exfalso;
    repeat (apply elem_of_cons in Hin as [Hin | Hin]; [discriminate Hin|]);
    by apply elem_of_nil in Hin.
Qed.

(** X2: when the text is no larger than the image, the centred text box
    lies inside the image. *)
Theorem calc_position_center_inside (w h tw th m : Z) :
  tw <= w -> th <= h ->
  let x := (calc_position w h tw th "center" m).1 in
  let y := (calc_position w h tw th "center" m).2 in
  0 <= x /\ x + tw <= w /\ 0 <= y /\ y + th <= h.
Proof.
  intros Hw Hh. rewrite calc_position_center_eq. cbn [fst snd].
  pose proof (Z.div_mod (w - tw) 2 ltac:(lia)) as Hx.
  pose proof (Z.mod_pos_bound (w - tw) 2 ltac:(lia)) as Hxb.
  pose proof (Z.div_mod (h - th) 2 ltac:(lia)) as Hy.
  pose proof (Z.mod_pos_bound (h - th) 2 ltac:(lia)) as Hyb.
  lia.
Qed.


(** ** [parse_color]: the other input forms *)

Lemma hex_byte_range (hi lo : Z) :
  0 <= hi < 16 -> 0 <= lo < 16 -> 0 <= hex_byte hi lo <= 255.
Proof. unfold hex_byte. lia. Qed.

Lemma strip_no_space (c : ascii) (s : string) :
  PyStr.is_space c = false ->
  all_chars (fun c => negb (PyStr.is_space c)) (String c s) = true ->
  PyStr.strip (String c s) = String c s.
Proof.
  intros Hc Hs. unfold PyStr.strip.
  rewrite lstrip_with_stop by done. by apply rstrip_with_id.
Qed.

(** X4: a ['#'] followed by exactly six hexadecimal digits is read as red,
    green, blue with full opacity; every channel is between 0 and 255,
    nothing is printed and the colour-name resolver plays no part. *)
Theorem parse_color_hex6_opaque
    (r1 r2 g1 g2 b1 b2 : ascii) (vr1 vr2 vg1 vg2 vb1 vb2 : Z) (w : world) :
  hex_digit r1 = Some vr1 -> hex_digit r2 = Some vr2 ->
  hex_digit g1 = Some vg1 -> hex_digit g2 = Some vg2 ->
  hex_digit b1 = Some vb1 -> hex_digit b2 = Some vb2 ->
  parse_color
    (String "#" (String r1 (String r2 (String g1 (String g2
      (String b1 (String b2 EmptyString)))))))
    w
  = (Ret (hex_byte vr1 vr2, hex_byte vg1 vg2, hex_byte vb1 vb2, 255), w)
  /\ 0 <= hex_byte vr1 vr2 <= 255 /\ 0 <= hex_byte vg1 vg2 <= 255
  /\ 0 <= hex_byte vb1 vb2 <= 255.
Proof.
  intros Hr1 Hr2 Hg1 Hg2 Hb1 Hb2.
  pose proof (hex_digit_facts _ _ Hr1) as (_ & ? & Sr1 & _).
  pose proof (hex_digit_facts _ _ Hr2) as (_ & ? & Sr2 & _).
  pose proof (hex_digit_facts _ _ Hg1) as (_ & ? & Sg1 & _).
  pose proof (hex_digit_facts _ _ Hg2) as (_ & ? & Sg2 & _).
  pose proof (hex_digit_facts _ _ Hb1) as (_ & ? & Sb1 & _).
  pose proof (hex_digit_facts _ _ Hb2) as (_ & ? & Sb2 & _).
  split; [|by repeat split; apply hex_byte_range].
  unfold parse_color. rewrite strip_no_space; [|reflexivity|].
  2:{ cbn [all_chars]. by rewrite Sr1, Sr2, Sg1, Sg2, Sb1, Sb2. }
  unfold parse_hex. cbn [PyStr.startswith Ascii.eqb Bool.eqb PyStr.tail].
  change (PyStr.len _ =? 8) with false. change (PyStr.len _ =? 6) with true.
  cbn iota. unfold parse_hex6, hex_pair, PyStr.slice.
  cbn [String.substring Nat.add Nat.sub].
  rewrite (parse_hex_pair _ _ _ _ Hr1 Hr2), (parse_hex_pair _ _ _ _ Hg1 Hg2),
          (parse_hex_pair _ _ _ _ Hb1 Hb2).
  reflexivity.
Qed.

(** X5: a colour that does not start with ['#'] once trimmed is left to
    the resolver, which is given the trimmed string: a 4-tuple is returned
    as it is, a 3-tuple gets alpha 255, and nothing is printed. *)
Theorem parse_color_named (color : string) (t : color_tuple) (w : world) :
  PyStr.startswith "#" (PyStr.strip color) = false ->
  ImageColor_getcolor (PyStr.strip color) = Ret t ->
  parse_color color w
  = (Ret match t with
         | RGB r g b => (r, g, b, 255)
         | RGBA r g b a => (r, g, b, a)
         end, w).
Proof.
  intros Hhash Ht.
  unfold parse_color, parse_hex. rewrite Hhash.
  unfold parse_named, mbind, M_bind, Eff.lift, Eff.try_except. rewrite Ht.
  by destruct t.
Qed.

Lemma parse_minus_digit (d : ascii) (v : Z) :
  hex_digit d = Some v ->
  PyInt.parse int_max_str_digits 16 (String "-" (String d EmptyString))
  = Ret (- v).
Proof.
  intros (Dd & Bd & _ & _ & _ & _ & Ud & _)%hex_digit_facts.
  unfold PyInt.parse. rewrite lstrip_with_stop by reflexivity.
  cbn [PyInt.skip_sign Ascii.eqb Bool.eqb PyInt.skip_prefix PyStr.startswith].
  rewrite Ud. cbn [PyInt.scan_digits]. rewrite Ud, Dd.
  assert ((v <? 16) = true) as -> by lia.
  cbn [PyStr.lstrip_with Z.eqb andb]. by f_equal.
Qed.

(** X6: the hexadecimal form does not keep the channels within 0..255: in
    the eight-character form a minus sign is accepted in place of the first
    digit of a pair, and the channel is then the negated digit. *)
Theorem parse_color_hex8_negative (a r g b : ascii) (va vr vg vb : Z)
    (w : world) :
  hex_digit a = Some va -> hex_digit r = Some vr ->
  hex_digit g = Some vg -> hex_digit b = Some vb ->
  parse_color
    (String "#" (String "-" (String a (String "-" (String r
      (String "-" (String g (String "-" (String b EmptyString)))))))))
    w
  = (Ret (- vr, - vg, - vb, - va), w).
Proof.
  intros Ha Hr Hg Hb.
  pose proof (hex_digit_facts _ _ Ha) as (_ & _ & Sa & _).
  pose proof (hex_digit_facts _ _ Hr) as (_ & _ & Sr & _).
  pose proof (hex_digit_facts _ _ Hg) as (_ & _ & Sg & _).
  pose proof (hex_digit_facts _ _ Hb) as (_ & _ & Sb & _).
  unfold parse_color. rewrite strip_no_space; [|reflexivity|].
  2:{ cbn [all_chars]. rewrite Sa, Sr, Sg, Sb. reflexivity. }
  unfold parse_hex. cbn [PyStr.startswith Ascii.eqb Bool.eqb PyStr.tail].
  change (PyStr.len _ =? 8) with true. cbn iota.
  unfold parse_hex8, hex_pair, PyStr.slice.
  cbn [String.substring Nat.add Nat.sub].
  rewrite (parse_minus_digit _ _ Ha), (parse_minus_digit _ _ Hr),
          (parse_minus_digit _ _ Hg), (parse_minus_digit _ _ Hb).
  reflexivity.
Qed.

(** ** [exif_date_text]: which tag is read, and what comes out *)

(** X7: the [DateTime] tag is a fallback for an absent or empty
    [DateTimeOriginal] only, not for a malformed one: when
    [DateTimeOriginal] is present, non-empty and has fewer than three
    fields, there is no date, whatever [DateTime] holds. *)
Theorem exif_date_text_no_fallback_on_malformed (img : image)
    (exif : gmap Z exif_value) (v : exif_value) :
  im_getexif img = Ret exif ->
  exif !! EXIF_TAG_DATETIME_ORIGINAL = Some v -> truthy v = true ->
  (length (date_fields v) < 3)%nat ->
  exif_date_text img = Ret None.
Proof.
  intros Hexif Hv Ht Hlen.
  assert (chosen_raw exif = Some v) as Hraw.
  { unfold chosen_raw, py_or. by rewrite Hv, Ht. }
  rewrite (exif_date_text_chosen _ _ _ Hexif Hraw Ht), date_of_raw_cases.
  destruct (date_fields v) as [|y [|m [|d rest]]]; try reflexivity.
  cbn in Hlen. lia.
Qed.

Lemma format_0d_length (width : nat) (n : Z) :
  (width <= String.length (PyStr.format_0d width n))%nat.
Proof.
  unfold PyStr.format_0d. destruct (n <? 0); cbn [String.length];
    rewrite string_app_length, zeros_length; lia.
Qed.

Lemma date_text_length (y m d : Z) :
  (10 <= String.length (date_text y m d))%nat.
Proof.
  unfold date_text.
  change ("-" +:+ PyStr.format_0d 2 m +:+ "-" +:+ PyStr.format_0d 2 d)
    with (String "-" (PyStr.format_0d 2 m +:+ String "-" (PyStr.format_0d 2 d))).
  rewrite string_app_length. cbn [String.length]. rewrite string_app_length.
  cbn [String.length].
  pose proof (format_0d_length 4 y). pose proof (format_0d_length 2 m).
  pose proof (format_0d_length 2 d). lia.
Qed.

(** X8: a date text that [exif_date_text] returns is never empty: it has
    at least ten characters.  So the only way [process_file] skips a file
    for its date is that no date was returned. *)
Theorem exif_date_text_at_least_ten (img : image) (text : string) :
  exif_date_text img = Ret (Some text) -> (10 <= String.length text)%nat.
Proof.
  unfold exif_date_text.
  destruct (im_getexif img) as [exif|e];
    cbn [Res.try_except mbind result_bind Res.bind]; [|done].
  destruct (decide (exif = ∅)); [done|].
  destruct (py_not (chosen_raw exif)); [done|].
  destruct (chosen_raw exif) as [v|]; [|done].
  rewrite date_of_raw_cases.
  destruct (date_fields v) as [|y [|m [|d rest]]]; try done.
  cbn [mbind result_bind Res.bind].
  destruct (PyInt.parse int_max_str_digits 10 y); [|done].
  destruct (PyInt.parse int_max_str_digits 10 m); [|done].
  destruct (PyInt.parse int_max_str_digits 10 d); [|done].
  cbn [Res.try_except]. intros [= <-]. apply date_text_length.
Qed.

(** ** [ensure_output_root]: what it does to the file system *)

Lemma only_adds_dirs_refl (w : world) : only_adds_dirs w w.
Proof. repeat split; [done|]. intros p n H. by left. Qed.

Lemma only_adds_dirs_trans (w1 w2 w3 : world) :
  only_adds_dirs w1 w2 -> only_adds_dirs w2 w3 -> only_adds_dirs w1 w3.
Proof.
  intros (S1 & N1 & O1 & H1) (S2 & N2 & O2 & H2).
  split; [by etrans|]. split; [|split; congruence].
  intros p n Hp. destruct (N2 p n Hp) as [Hp2 | ->]; [|by right].
  by apply N1.
Qed.

Lemma node_at_mono (f f' : gmap path node) (p : path) (n : node) :
  f ⊆ f' -> FS.node_at f p = Some n -> FS.node_at f' p = Some n.
Proof.
  intros Hsub. unfold FS.node_at. destruct (parts p); [done|].
  intros H. by eapply lookup_weaken.
Qed.

Lemma os_mkdir_only_adds (p : path) (w : world) :
  only_adds_dirs w (FS.os_mkdir p w).2.
Proof.
  unfold FS.os_mkdir.
  destruct (FS.node_at (fs w) (PyPath.parent p)) as [[|d]|];
    try apply only_adds_dirs_refl.
  destruct (FS.node_at (fs w) p) as [n|] eqn:Hp;
    [apply only_adds_dirs_refl|].
  assert (fs w !! p = None) as Hnone.
  { unfold FS.node_at in Hp. by destruct (parts p). }
  unfold only_adds_dirs, FS.set_fs. cbn [snd fs stdout heap].
  split; [by apply insert_subseteq|]. split; [|done].
  intros q n Hq. destruct (decide (p = q)) as [<-|Hne].
  - rewrite lookup_insert_eq in Hq. right. congruence.
  - rewrite lookup_insert_ne in Hq by done. by left.
Qed.

Lemma mkdir_exists_same (p : path) (ok : bool) (e : exn) (w : world) :
  (FS.mkdir_exists p ok e w).2 = w.
Proof.
  unfold FS.mkdir_exists, FS.is_dir, mbind, M_bind, Eff.raise, mret, M_ret.
  by destruct (negb ok || negb _).
Qed.

Lemma mkdir_single_only_adds (p : path) (ok : bool) (w : world) :
  only_adds_dirs w (FS.mkdir_single p ok w).2.
Proof.
  pose proof (os_mkdir_only_adds p w) as H.
  unfold FS.mkdir_single, Eff.try_except_if.
  destruct (FS.os_mkdir p w) as [[[]|e] w1]; cbn [snd] in *; [done|].
  destruct (is_OSError e); [|done].
  destruct (is_FileNotFoundError e); [done|].
  by rewrite mkdir_exists_same.
Qed.

Lemma mkdir_parents_only_adds (a : string) (rparts : list string) (ok : bool)
    (w : world) :
  only_adds_dirs w (FS.mkdir_parents a rparts ok w).2.
Proof.
  revert ok w. induction rparts as [|x rp IH]; intros ok w;
    cbn [FS.mkdir_parents]; unfold Eff.try_except_if.
  - pose proof (os_mkdir_only_adds (Path a (rev [])) w) as H.
    destruct (FS.os_mkdir _ w) as [[[]|e] w1]; cbn [snd] in *; [done|].
    destruct (is_OSError e); [|done].
    destruct (is_FileNotFoundError e); [done|]. by rewrite mkdir_exists_same.
  - pose proof (os_mkdir_only_adds (Path a (rev (x :: rp))) w) as H.
    destruct (FS.os_mkdir _ w) as [[[]|e] w1]; cbn [snd] in *; [done|].
    destruct (is_OSError e); [|done].
    destruct (is_FileNotFoundError e); [|by rewrite mkdir_exists_same].
    rewrite bind_run. specialize (IH true w1).
    destruct (FS.mkdir_parents a rp true w1) as [[[]|e'] w2]; cbn [snd] in *.
    + eapply only_adds_dirs_trans; [exact H|].
      eapply only_adds_dirs_trans; [exact IH|]. apply mkdir_single_only_adds.
    + by eapply only_adds_dirs_trans.
Qed.

Lemma ensure_output_root_run (input_path : path) (w : world) :
  let out := PyPath.join (base_dir_of input_path w)
               (PyPath.of_string (PyPath.name (base_dir_of input_path w)
                                  +:+ "_watermark")) in
  ensure_output_root input_path w
  = match FS.mkdir_p out w with
    | (Ret _, w') => (Ret out, w')
    | (Raise e, w') => (Raise e, w')
    end.
Proof.
  unfold ensure_output_root, FS.is_file. rewrite bind_run. cbn beta iota.
  assert ((if match FS.node_at (fs w) input_path with
              | Some (File _) => true
              | _ => false
              end
           then PyPath.parent input_path else input_path)
          = base_dir_of input_path w) as ->.
  { unfold base_dir_of. by destruct (FS.node_at (fs w) input_path) as [[|d]|]. }
  rewrite bind_run. by destruct (FS.mkdir_p _ w) as [[[]|e] w'].
Qed.

(** X9: whatever its outcome, [ensure_output_root] changes the world only
    by adding directories: no existing file or directory is removed or
    replaced, no file is written, nothing is printed and no image object
    is touched. *)
Theorem ensure_output_root_only_adds_dirs (input_path : path) (w : world) :
  only_adds_dirs w (ensure_output_root input_path w).2.
Proof.
  rewrite ensure_output_root_run. cbn zeta.
  pose proof (mkdir_parents_only_adds
                (anchor (PyPath.join (base_dir_of input_path w)
                   (PyPath.of_string (PyPath.name (base_dir_of input_path w)
                                      +:+ "_watermark"))))
                (rev (parts (PyPath.join (base_dir_of input_path w)
                   (PyPath.of_string (PyPath.name (base_dir_of input_path w)
                                      +:+ "_watermark")))))
                true w) as H.
  unfold FS.mkdir_p.
  by destruct (FS.mkdir_parents _ _ true w) as [[[]|e] w'].
Qed.

Lemma base_dir_of_only_adds (p : path) (w w' : world) :
  only_adds_dirs w w' -> base_dir_of p w' = base_dir_of p w.
Proof.
  intros (Hsub & Hnew & _). unfold base_dir_of, FS.node_at.
  destruct (parts p); [done|].
  destruct (fs w !! p) as [n|] eqn:Hp.
  - by rewrite (lookup_weaken _ _ _ _ Hp Hsub).
  - destruct (fs w' !! p) as [n'|] eqn:Hp'; [|done].
    destruct (Hnew _ _ Hp') as [Hold | ->]; [congruence|done].
Qed.

Lemma os_mkdir_ret_parent (p : path) (w w' : world) :
  FS.os_mkdir p w = (Ret tt, w') ->
  FS.node_at (fs w) (PyPath.parent p) = Some Dir.
Proof.
  unfold FS.os_mkdir.
  by destruct (FS.node_at (fs w) (PyPath.parent p)) as [[|d]|].
Qed.

Lemma os_mkdir_raise_parent (p : path) (w w' : world) (e : exn) :
  FS.os_mkdir p w = (Raise e, w') -> is_FileNotFoundError e = false ->
  FS.node_at (fs w) (PyPath.parent p) <> None.
Proof.
  unfold FS.os_mkdir.
  destruct (FS.node_at (fs w) (PyPath.parent p)) as [[|d]|]; try done.
  by intros [= <- _].
Qed.

(** After a successful [mkdir] the parent of the directory is not
    missing. *)
Lemma mkdir_parents_ret_parent (a : string) (rparts : list string) (ok : bool)
    (w w' : world) :
  FS.mkdir_parents a rparts ok w = (Ret tt, w') ->
  FS.node_at (fs w') (PyPath.parent (Path a (rev rparts))) <> None.
Proof.
  destruct rparts as [|x rp]; [done|].
  cbn [FS.mkdir_parents]. unfold Eff.try_except_if.
  pose proof (os_mkdir_only_adds (Path a (rev (x :: rp))) w) as Hadds.
  destruct (FS.os_mkdir _ w) as [[[]|e] w1] eqn:E; cbn [snd] in Hadds.
  - intros [= <-]. apply os_mkdir_ret_parent in E.
    destruct Hadds as (Hsub & _). by rewrite (node_at_mono _ _ _ _ Hsub E).
  - apply os_mkdir_raise in E as Hw; subst w1.
    destruct (is_OSError e); [|done].
    destruct (is_FileNotFoundError e) eqn:Hfnf.
    + rewrite bind_run.
      destruct (FS.mkdir_parents a rp true w) as [[[]|e'] w2] eqn:E2; [|done].
      intros Hsingle. apply mkdir_parents_ret in E2 as (Hdir & _).
      pose proof (mkdir_single_only_adds (Path a (rev (x :: rp))) ok w2)
        as (Hsub & _).
      rewrite Hsingle in Hsub. cbn [snd] in Hsub.
      cbn [rev]. rewrite parent_snoc.
      by rewrite (node_at_mono _ _ _ _ Hsub Hdir).
    + intros Hex. pose proof (mkdir_exists_same (Path a (rev (x :: rp))) ok e w)
        as Hsame.
      rewrite Hex in Hsame. cbn [snd] in Hsame. subst w'.
      by eapply os_mkdir_raise_parent.
Qed.

(** [mkdir] on a directory that is there, under a parent that is not
    missing, returns and changes nothing. *)
Lemma mkdir_parents_again (a : string) (rparts : list string) (w : world) :
  FS.node_at (fs w) (Path a (rev rparts)) = Some Dir ->
  FS.node_at (fs w) (PyPath.parent (Path a (rev rparts))) <> None ->
  FS.mkdir_parents a rparts true w = (Ret tt, w).
Proof.
  intros Hdir Hparent.
  assert (Eff.try_except_if is_OSError (FS.os_mkdir (Path a (rev rparts)))
            (fun e => if is_FileNotFoundError e
                      then Eff.raise e
                      else FS.mkdir_exists (Path a (rev rparts)) true e) w
          = (Ret tt, w)) as Hrun.
  { unfold Eff.try_except_if, FS.os_mkdir.
    destruct (FS.node_at (fs w) (PyPath.parent (Path a (rev rparts))))
      as [[|d]|]; [| |done].
    - rewrite Hdir. cbn. unfold FS.mkdir_exists, FS.is_dir. rewrite bind_run.
      by rewrite Hdir.
    - cbn. unfold FS.mkdir_exists, FS.is_dir. rewrite bind_run.
      by rewrite Hdir. }
  destruct rparts as [|x rp]; cbn [FS.mkdir_parents];
    unfold Eff.try_except_if in *;
    destruct (FS.os_mkdir _ w) as [[[]|e] w1]; try done;
    destruct (is_OSError e); try done;
    by destruct (is_FileNotFoundError e).
Qed.

Lemma mkdir_parents_run_adds (a : string) (rparts : list string) (ok : bool)
    (w w' : world) (r : result unit) :
  FS.mkdir_parents a rparts ok w = (r, w') -> only_adds_dirs w w'.
Proof.
  intros E. pose proof (mkdir_parents_only_adds a rparts ok w) as H.
  by rewrite E in H.
Qed.

(** X10: [ensure_output_root] can be repeated: once it has returned, a
    second call returns the same directory and changes nothing, so running
    the tool again does not fail on the output directory that is already
    there. *)
Theorem ensure_output_root_idempotent (input_path : path) (w w1 : world)
    (out : path) :
  ensure_output_root input_path w = (Ret out, w1) ->
  ensure_output_root input_path w1 = (Ret out, w1).
Proof.
  rewrite !ensure_output_root_run. cbn zeta.
  unfold FS.mkdir_p in *.
  destruct (FS.mkdir_parents _ _ true w) as [[[]|e] w'] eqn:E; [|done].
  pose proof (mkdir_parents_run_adds _ _ _ _ _ _ E) as Hadds.
  intros [= <- <-].
  rewrite (base_dir_of_only_adds _ _ _ Hadds).
  pose proof (mkdir_parents_ret _ _ _ _ _ E) as (Hdir & _).
  pose proof (mkdir_parents_ret_parent _ _ _ _ _ E) as Hparent.
  by rewrite (mkdir_parents_again _ _ _ Hdir Hparent).
Qed.

Lemma mkdir_p_blocked (a : string) (ps : list string) (x : string)
    (d : encoded) (w : world) :
  FS.node_at (fs w) (Path a ps) = Some Dir ->
  FS.node_at (fs w) (Path a (ps ++ [x])) = Some (File d) ->
  FS.mkdir_p (Path a (ps ++ [x])) w = (Raise (FileExistsError "file exists"), w).
Proof.
  intros Hbase Hfile. unfold FS.mkdir_p. cbn [anchor parts].
  rewrite rev_app_distr. cbn [rev app FS.mkdir_parents].
  rewrite rev_involutive. unfold Eff.try_except_if, FS.os_mkdir.
  rewrite parent_snoc, Hbase, Hfile. cbn.
  unfold FS.mkdir_exists, FS.is_dir. rewrite bind_run, Hfile. reflexivity.
Qed.

(** X11: when a regular file already has the name of the output root
    inside an existing base directory, [ensure_output_root] raises
    [FileExistsError] and leaves the world as it was. *)
Theorem ensure_output_root_blocked_by_file (input_path : path) (w : world)
    (d : encoded) :
  PyPath.has_slash (PyPath.name (base_dir_of input_path w)) = false ->
  FS.node_at (fs w) (base_dir_of input_path w) = Some Dir ->
  FS.node_at (fs w) (watermark_dir_in (base_dir_of input_path w))
  = Some (File d) ->
  ensure_output_root input_path w = (Raise (FileExistsError "file exists"), w).
Proof.
  intros Hname. rewrite (ensure_output_root_unfold _ _ Hname).
  generalize (base_dir_of input_path w) as base. intros [a ps].
  unfold watermark_dir_in. cbn [anchor parts].
  set (x := PyPath.name (Path a ps) +:+ "_watermark").
  intros Hbase Hfile. rewrite bind_run.
  by rewrite (mkdir_p_blocked _ _ _ d).
Qed.

(** ** [is_image_file]: which names count as images *)

Lemma rfind_dot_no_dot (s : string) : no_dot s = true -> PyStr.rfind_dot s = None.
Proof.
  unfold no_dot. induction s as [|c s IH]; cbn [all_chars PyStr.rfind_dot];
    [done|].
  intros [Hc Hs]%andb_prop. rewrite (IH Hs).
  apply negb_true_iff in Hc. by rewrite Hc.
Qed.

Lemma rfind_dot_last (stem ext : string) :
  no_dot ext = true ->
  PyStr.rfind_dot (stem +:+ String "." ext) = Some (String.length stem).
Proof.
  intros Hext. induction stem as [|c stem IH]; simpl.
  - by rewrite (rfind_dot_no_dot _ Hext).
  - by rewrite IH.
Qed.

Lemma substring_all (s : string) : String.substring 0 (String.length s) s = s.
Proof. induction s as [|c s IH]; simpl; [done|]. by rewrite IH. Qed.

Lemma substring_skip (s t : string) :
  String.substring (String.length s) (String.length t) (s +:+ t) = t.
Proof. induction s as [|c s IH]; simpl; [apply substring_all|done]. Qed.

(** The suffix of a name [stem.ext] whose extension has no further dot. *)
Lemma suffix_stem_ext (a : string) (dirs : list string) (stem ext : string) :
  stem <> EmptyString -> ext <> EmptyString -> no_dot ext = true ->
  PyPath.suffix (Path a (dirs ++ [stem +:+ String "." ext])) = String "." ext.
Proof.
  intros Hstem Hext Hdot. unfold PyPath.suffix. rewrite name_snoc.
  rewrite (rfind_dot_last _ _ Hdot), string_app_length. cbn [String.length].
  assert ((0 <? String.length stem)%nat = true) as ->.
  { apply Nat.ltb_lt. destruct stem; [done|]. cbn. lia. }
  assert ((String.length stem <? String.length stem + S (String.length ext) - 1)%nat
          = true) as ->.
  { apply Nat.ltb_lt. destruct ext; [done|]. cbn. lia. }
  cbn [andb].
  replace (String.length stem + S (String.length ext) - String.length stem)%nat
    with (String.length (String "." ext)) by (cbn; lia).
  apply substring_skip.
Qed.

Lemma dotted_in_supported (e : string) :
  String "." e ∈ SUPPORTED_EXTS <-> e ∈ ["jpg"; "jpeg"; "png"; "tif"; "tiff"].
Proof.
  unfold SUPPORTED_EXTS. rewrite !elem_of_cons, !elem_of_nil.
  split; intros H;
    repeat (destruct H as [H|H]; [first [injection H as -> | subst e]; tauto|]);
    done.
Qed.

(** X12: an existing file named [stem.ext] is an image file exactly when
    its extension, in lower case, is one of [jpg], [jpeg], [png], [tif],
    [tiff]; so the case of the extension does not matter, and of several
    dots only the last counts.  A directory or a missing path of that name
    is not an image file. *)
Theorem is_image_file_by_extension (a : string) (dirs : list string)
    (stem ext : string) (w : world) :
  stem <> EmptyString -> ext <> EmptyString -> no_dot ext = true ->
  let p := Path a (dirs ++ [stem +:+ String "." ext]) in
  (forall d, fs w !! p = Some (File d) ->
     (is_image_file p w = (Ret true, w)
      <-> PyStr.lower ext ∈ ["jpg"; "jpeg"; "png"; "tif"; "tiff"]))
  /\ ((fs w !! p = None \/ fs w !! p = Some Dir) ->
      is_image_file p w = (Ret false, w)).
Proof.
  intros Hstem Hext Hdot p.
  assert (FS.node_at (fs w) p = fs w !! p) as Hnode.
  { unfold FS.node_at, p. cbn [parts]. by destruct dirs. }
  subst p.
  unfold is_image_file, FS.is_file. rewrite bind_run, Hnode.
  rewrite (suffix_stem_ext _ _ _ _ Hstem Hext Hdot).
  change (PyStr.lower (String "." ext)) with (String "." (PyStr.lower ext)).
  split.
  - intros d ->. cbn [andb]. rewrite <- dotted_in_supported.
    split.
    + intros [= H]. by apply bool_decide_eq_true in H.
    + intros H. by rewrite bool_decide_eq_true_2.
  - by intros [-> | ->].
Qed.

(** X13: a name without a dot, or whose only dot is its first character
    (such as [.png]), has no suffix, so a file of that name is never an
    image file. *)
Theorem is_image_file_needs_extension (a : string) (dirs : list string)
    (n : string) (w : world) :
  no_dot (PyStr.tail n) = true ->
  is_image_file (Path a (dirs ++ [n])) w = (Ret false, w).
Proof.
  intros Hn. unfold is_image_file, FS.is_file. rewrite bind_run.
  assert (PyPath.suffix (Path a (dirs ++ [n])) = EmptyString) as ->.
  { unfold PyPath.suffix. rewrite name_snoc. destruct n as [|c n]; [done|].
    cbn [PyStr.tail] in Hn. cbn [PyStr.rfind_dot].
    rewrite (rfind_dot_no_dot _ Hn). by destruct (Ascii.eqb c "."). }
  by destruct (FS.node_at _ _) as [[|d]|].
Qed.

(** ** [process_file]: what is written, and where *)

Lemma rel_path_run (in_file source_root : path) (w : world) :
  Eff.try_except (Eff.lift (PyPath.relative_to in_file source_root))
    (fun _ => mret (PyPath.of_string (PyPath.name in_file))) w
  = (Ret (rel_path_of in_file source_root), w).
Proof.
  unfold Eff.try_except, Eff.lift, rel_path_of.
  by destruct (PyPath.relative_to in_file source_root).
Qed.

(** A run of the body that ends with the success notice has opened and
    decoded the input, and has written the result at the reported path,
    which is the mirrored path with the suffix of the input. *)
Lemma process_file_body_saved (in_file out_root source_root : path) (f : font)
    (color_rgba : rgba) (position : string) (w : world) :
  wp (process_file_body in_file out_root source_root f color_rgba position) w
     (fun r w' =>
        forall out_path,
          r = Ret tt -> last (stdout w') = Some (MsgDone in_file out_path) ->
          exists d i,
            FS.node_at (fs w) in_file = Some (File d) /\ decode d = Ret i
            /\ saved_as w' out_path i
            /\ PyPath.with_suffix
                 (PyPath.join out_root (rel_path_of in_file source_root))
                 (PyPath.suffix in_file) = Ret out_path).
Proof.
  unfold process_file_body. apply wp_bind.
  destruct (FS.node_at (fs w) in_file) as [[|d]|] eqn:Hfile.
  1,3: by (eapply wp_eq; [unfold Image_open; by rewrite Hfile|]).
  destruct (decode d) as [i|e] eqn:Hdec.
  2:{ eapply wp_eq;
        [unfold Image_open; rewrite Hfile, bind_run; unfold Eff.lift;
         by rewrite Hdec|done]. }
  eapply wp_eq; [exact (Image_open_spec _ _ _ _ Hfile Hdec)|].
  apply wp_bind, wp_load. cbn [set_heap heap stdout fs].
  rewrite lookup_snoc_eq.
  apply wp_bind, wp_lift. destruct (exif_date_text i) as [text|e]; [|done].
  destruct (no_text text).
  { apply wp_print. intros out_path _. cbn [stdout]. rewrite last_snoc. done. }
  apply wp_bind. eapply wp_conseq; [|apply draw_watermark_spec].
  intros [out_img|e] w2 (Hframe & _ & Hfs2 & Hout & _); [|done].
  unfold set_heap in Hframe, Hout. cbn [heap] in Hframe, Hout.
  assert (heap w2 !! length (heap w) = Some i) as Him.
  { rewrite Hframe by (rewrite length_app; cbn; lia). apply lookup_snoc_eq. }
  destruct (Hout out_img eq_refl) as (_ & i0 & o & Hi0 & Ho & Hmode).
  rewrite lookup_snoc_eq in Hi0. injection Hi0 as <-.
  apply wp_bind. eapply wp_eq; [apply rel_path_run|].
  apply wp_bind.
  destruct (FS.mkdir_p (PyPath.parent (PyPath.join out_root
              (rel_path_of in_file source_root))) w2)
    as [[[]|e] w3] eqn:Hmk; (eapply wp_eq; [exact Hmk|]); [|done].
  apply mkdir_parents_ret in Hmk as (_ & _ & Hheap3).
  apply wp_bind, wp_load. rewrite Hheap3, Him.
  apply wp_bind. eapply wp_eq; [reflexivity|].
  apply wp_bind, wp_lift.
  destruct (PyPath.with_suffix _ _) as [out_path|e] eqn:Hsuf; [|done].
  apply wp_bind. unfold Image_save. apply wp_bind, wp_load.
  rewrite Hheap3, Ho.
  apply wp_bind, wp_lift.
  destruct (encoder_check o (format_of i) _) as [[]|e]; [|done].
  unfold wp at 1. unfold write_file.
  destruct (FS.node_at (fs w3) (PyPath.parent out_path)) as [[|?]|]; try done.
  destruct (FS.node_at (fs w3) out_path) as [[|?]|] eqn:Hnode; try done;
    cbn [fst snd]; apply wp_print; intros out_path' _;
    cbn [stdout fs heap FS.set_fs];
    rewrite last_snoc; intros [= <-]; exists d, i;
    (split; [done|]); (split; [done|]); (split; [|done]);
    exists o; (split; [|done]);
    unfold FS.node_at in Hnode |- *;
    (destruct (parts out_path); [discriminate Hnode|]);
    apply lookup_insert_eq.
Qed.

Lemma process_file_saved (in_file out_root source_root : path) (f : font)
    (color_rgba : rgba) (position : string) (w : world) :
  wp (process_file in_file out_root source_root f color_rgba position) w
     (fun _ w' =>
        forall out_path,
          last (stdout w') = Some (MsgDone in_file out_path) ->
          exists d i,
            FS.node_at (fs w) in_file = Some (File d) /\ decode d = Ret i
            /\ saved_as w' out_path i
            /\ PyPath.with_suffix
                 (PyPath.join out_root (rel_path_of in_file source_root))
                 (PyPath.suffix in_file) = Ret out_path).
Proof.
  unfold process_file. apply wp_try_except.
  eapply wp_conseq; [|apply process_file_body_saved].
  intros [[]|e] w' Hpost.
  - intros out_path. by apply Hpost.
  - apply wp_print. intros out_path. cbn [stdout]. by rewrite last_snoc.
Qed.

Lemma save_kwargs_of_quality (fmt : string) (exif : option (list Byte.byte)) :
  kw_quality (save_kwargs_of fmt exif)
  = (if String.eqb fmt "JPEG" then Some 95 else None)
  /\ kw_subsampling (save_kwargs_of fmt exif)
     = (if String.eqb fmt "JPEG" then Some 2 else None).
Proof.
  unfold save_kwargs_of.
  destruct exif as [[|b blob]|], (String.eqb fmt "JPEG"),
    (String.eqb fmt "TIFF"); done.
Qed.

Lemma save_kwargs_of_no_exif (fmt : string) (exif : option (list Byte.byte)) :
  fmt <> "JPEG" -> fmt <> "TIFF" -> kw_exif (save_kwargs_of fmt exif) = None.
Proof.
  intros H1%String.eqb_neq H2%String.eqb_neq. unfold save_kwargs_of.
  rewrite H1, H2. by destruct exif as [[|b blob]|].
Qed.

(** X14: whenever [process_file] reports success, the input had been
    opened and decoded, and the file at the reported path is encoded in
    the format of the input (in upper case, PNG when the image names
    none), holds an image in the colour mode of the input, carries quality
    95 and subsampling 2 exactly when the format is JPEG, and carries no
    EXIF blob when the format is neither JPEG nor TIFF. *)
Theorem process_file_saves_in_input_format (in_file out_root source_root : path)
    (f : font) (color_rgba : rgba) (position : string) (w : world) :
  wp (process_file in_file out_root source_root f color_rgba position) w
     (fun _ w' =>
        forall out_path,
          last (stdout w') = Some (MsgDone in_file out_path) ->
          exists d i saved,
            FS.node_at (fs w) in_file = Some (File d) /\ decode d = Ret i
            /\ FS.node_at (fs w') out_path = Some (File saved)
            /\ enc_format saved = format_of i
            /\ im_mode (enc_image saved) = im_mode i
            /\ kw_quality (enc_kwargs saved)
               = (if String.eqb (format_of i) "JPEG" then Some 95 else None)
            /\ kw_subsampling (enc_kwargs saved)
               = (if String.eqb (format_of i) "JPEG" then Some 2 else None)
            /\ (format_of i <> "JPEG" -> format_of i <> "TIFF" ->
                kw_exif (enc_kwargs saved) = None)).
Proof.
  eapply wp_conseq; [|apply process_file_saved].
  intros r w' Hpost out_path Hlast.
  destruct (Hpost out_path Hlast)
    as (d & i & Hfile & Hdec & (o & Hnode & Hmode) & _).
  exists d, i. eexists. split; [done|]. split; [done|]. split; [exact Hnode|].
  cbn [enc_format enc_image enc_kwargs].
  destruct (save_kwargs_of_quality (format_of i) (im_info_exif i)) as [Hq Hs].
  repeat split; try done. apply save_kwargs_of_no_exif.
Qed.

(** ** Where the output goes *)

Lemma rfind_dot_none_no_dot (s : string) :
  PyStr.rfind_dot s = None -> no_dot s = true.
Proof.
  unfold no_dot. induction s as [|c s IH]; cbn [all_chars PyStr.rfind_dot];
    [done|].
  destruct (PyStr.rfind_dot s); [done|].
  destruct (Ascii.eqb c "."); [done|]. intros _. by rewrite IH.
Qed.

Lemma rfind_dot_split (s : string) (i : nat) :
  PyStr.rfind_dot s = Some i ->
  exists pre post, s = pre +:+ String "." post /\ String.length pre = i
                   /\ no_dot post = true.
Proof.
  revert i. induction s as [|c s IH]; intros i; cbn [PyStr.rfind_dot]; [done|].
  destruct (PyStr.rfind_dot s) as [j|] eqn:Hj.
  - intros [= <-]. destruct (IH j eq_refl) as (pre & post & -> & Hlen & Hpost).
    exists (String c pre), post. cbn. by rewrite Hlen.
  - destruct (Ascii.eqb_spec c ".") as [->|_]; [|done]. intros [= <-].
    exists EmptyString, s. repeat split. by apply rfind_dot_none_no_dot.
Qed.

Lemma substring_prefix (s t : string) :
  String.substring 0 (String.length s) (s +:+ t) = s.
Proof. induction s as [|c s IH]; simpl; [by destruct t|]. by rewrite IH. Qed.

Lemma string_app_nil_r (s : string) : s +:+ "" = s.
Proof.
  induction s as [|c s IH]; [done|].
  change (String c s +:+ "") with (String c (s +:+ "")). by rewrite IH.
Qed.

Lemma last_removelast (l : list string) :
  l <> [] -> removelast l ++ [List.last l EmptyString] = l.
Proof. intros H. symmetry. by apply app_removelast_last. Qed.

(** A suffix is empty, or it is the last dot of the name with what
    follows it. *)
Lemma suffix_cases (p : path) :
  PyPath.suffix p = EmptyString
  \/ exists pre post,
       PyPath.name p = pre +:+ String "." post
       /\ PyPath.suffix p = String "." post /\ post <> EmptyString.
Proof.
  unfold PyPath.suffix.
  destruct (PyStr.rfind_dot (PyPath.name p)) as [i|] eqn:Hdot; [|by left].
  destruct (rfind_dot_split _ _ Hdot) as (pre & post & Hsplit & Hlen & _).
  destruct ((0 <? i)%nat && (i <? String.length (PyPath.name p) - 1)%nat)
    eqn:Hin; [|by left].
  right. exists pre, post. split; [done|].
  apply andb_prop in Hin as [_ Hlt%Nat.ltb_lt].
  rewrite Hsplit, string_app_length in Hlt |- *. cbn [String.length] in *.
  split.
  - replace (String.length pre + S (String.length post) - i)%nat
      with (String.length (String "." post)) by (cbn; lia).
    rewrite <- Hlen. apply substring_skip.
  - intros ->. cbn in Hlt. lia.
Qed.

(** Replacing the suffix of a path by that same suffix gives the path
    back, whenever it gives anything. *)
Lemma with_suffix_same (p : path) :
  PyPath.name p <> EmptyString ->
  PyPath.has_slash (PyPath.suffix p) = false ->
  PyPath.with_suffix p (PyPath.suffix p) = Ret p.
Proof.
  intros Hname Hslash.
  assert (parts p <> []) as Hparts.
  { intros Hnil. apply Hname. unfold PyPath.name. by rewrite Hnil. }
  assert (String.eqb (PyPath.name p) "" = false) as Hn
    by by apply String.eqb_neq.
  assert (forall n, n = PyPath.name p ->
            Path (anchor p) (removelast (parts p) ++ [n]) = p) as Hsame.
  { intros n ->. unfold PyPath.name. rewrite last_removelast by done.
    by destruct p. }
  unfold PyPath.with_suffix. rewrite Hslash.
  destruct (suffix_cases p) as [Hs|(pre & post & Hsplit & Hs & Hpost)];
    rewrite Hs.
  - cbn. rewrite Hn, Nat.sub_0_r, substring_all, string_app_nil_r.
    by rewrite Hsame.
  - cbn [PyStr.startswith Ascii.eqb Bool.eqb negb andb orb String.eqb].
    assert (String.eqb post "" = false) as -> by by apply String.eqb_neq.
    rewrite Hn.
    replace (String.length (PyPath.name p) - String.length (String "." post))%nat
      with (String.length pre)
      by (rewrite Hsplit, string_app_length; cbn; lia).
    rewrite Hsplit at 1. rewrite substring_prefix. by rewrite Hsame.
Qed.

Lemma with_suffix_own (p q : path) :
  PyPath.with_suffix p (PyPath.suffix p) = Ret q -> q = p.
Proof.
  intros H.
  destruct (PyPath.has_slash (PyPath.suffix p)) eqn:Hslash.
  { unfold PyPath.with_suffix in H. by rewrite Hslash in H. }
  destruct (String.eqb (PyPath.name p) "") eqn:Hn.
  { unfold PyPath.with_suffix in H. rewrite Hslash, Hn in H.
    by destruct (_ || _) in H. }
  apply String.eqb_neq in Hn. rewrite with_suffix_same in H by done.
  by injection H.
Qed.

(** The suffix of a path is a function of its name. *)
Lemma suffix_of_name (p q : path) :
  PyPath.name p = PyPath.name q -> PyPath.suffix p = PyPath.suffix q.
Proof. unfold PyPath.suffix. by intros ->. Qed.

Lemma strip_prefix_app (pre rest : list string) :
  PyPath.strip_prefix pre (pre ++ rest) = Some rest.
Proof.
  induction pre as [|x pre IH]; [by destruct rest|].
  cbn. by rewrite String.eqb_refl.
Qed.

Lemma last_app_ne (l rest : list string) :
  rest <> [] -> List.last (l ++ rest) EmptyString = List.last rest EmptyString.
Proof.
  intros H. destruct (exists_last H) as (r & x & ->).
  by rewrite app_assoc, !last_last.
Qed.

(** X15: a file that lies under the source root is written under the
    output root at the same relative path, with its name unchanged:
    whenever [process_file] reports success for the file
    [source_root / rest], the reported output path is [out_root / rest],
    and the watermarked file is there. *)
Theorem process_file_mirrors_source_tree (a : string) (src rest : list string)
    (out_root : path) (f : font) (color_rgba : rgba) (position : string)
    (w : world) (Hrest : rest <> []) :
  let in_file := Path a (src ++ rest) in
  wp (process_file in_file out_root (Path a src) f color_rgba position) w
     (fun _ w' =>
        forall out_path,
          last (stdout w') = Some (MsgDone in_file out_path) ->
          out_path = Path (anchor out_root) (parts out_root ++ rest)
          /\ exists saved, FS.node_at (fs w') out_path = Some (File saved)).
Proof.
  intros in_file. eapply wp_conseq; [|apply process_file_saved].
  intros r w' Hpost out_path Hlast.
  destruct (Hpost out_path Hlast)
    as (d & i & _ & _ & (o & Hnode & _) & Hsuf).
  split; [|by eexists].
  assert (rel_path_of in_file (Path a src) = Path "" rest) as Hrel.
  { unfold rel_path_of, PyPath.relative_to. subst in_file. cbn [anchor parts].
    by rewrite String.eqb_refl, strip_prefix_app. }
  rewrite Hrel in Hsuf. unfold PyPath.join in Hsuf. cbn [anchor parts] in Hsuf.
  rewrite (suffix_of_name in_file
             (Path (anchor out_root) (parts out_root ++ rest))) in Hsuf.
  - by apply with_suffix_own in Hsuf.
  - subst in_file. unfold PyPath.name. cbn [parts]. by rewrite !last_app_ne.
Qed.

Lemma of_string_component (n : string) :
  PyPath.has_slash n = false -> PyPath.is_component n = true ->
  PyPath.of_string n = Path "" [n].
Proof.
  intros Hs Hn. unfold PyPath.of_string. rewrite (root_of_no_slash _ Hs).
  rewrite split_no_sep by (by apply negb_false_iff in Hs).
  cbn [List.filter]. by rewrite Hn.
Qed.

(** X16: a file that does not lie under the source root is written
    directly under the output root, under its bare name: whenever
    [process_file] reports success for such a file, the reported output
    path is [out_root / in_file.name]. *)
Theorem process_file_outside_root_is_flat (in_file out_root source_root : path)
    (f : font) (color_rgba : rgba) (position : string) (w : world) (e : exn)
    (Hout : PyPath.relative_to in_file source_root = Raise e)
    (Hslash : PyPath.has_slash (PyPath.name in_file) = false)
    (Hname : PyPath.is_component (PyPath.name in_file) = true) :
  wp (process_file in_file out_root source_root f color_rgba position) w
     (fun _ w' =>
        forall out_path,
          last (stdout w') = Some (MsgDone in_file out_path) ->
          out_path = Path (anchor out_root)
                          (parts out_root ++ [PyPath.name in_file])
          /\ exists saved, FS.node_at (fs w') out_path = Some (File saved)).
Proof.
  eapply wp_conseq; [|apply process_file_saved].
  intros r w' Hpost out_path Hlast.
  destruct (Hpost out_path Hlast)
    as (d & i & Hfile & _ & (o & Hnode & _) & Hsuf).
  split; [|by eexists].
  unfold rel_path_of in Hsuf. rewrite Hout in Hsuf.
  rewrite of_string_component in Hsuf by done.
  unfold PyPath.join in Hsuf. cbn [anchor parts String.eqb] in Hsuf.
  rewrite (suffix_of_name in_file
             (Path (anchor out_root) (parts out_root ++ [PyPath.name in_file])))
    in Hsuf.
  - by apply with_suffix_own in Hsuf.
  - by rewrite name_snoc.
Qed.

(** ** [process_file]: what it leaves alone *)


Lemma reported_output_spec (in_file out_path : path) (out : list message) :
  last out = Some (MsgDone in_file out_path) ->
  out_path = reported_output in_file out.
Proof. unfold reported_output. by intros ->. Qed.

Lemma touches_same (in_file : path) (w w' : world) :
  fs w' = fs w -> touches_only_output in_file w w'.
Proof.
  intros H. exists (reported_output in_file (stdout w')).
  split; [intros out_path; apply reported_output_spec|].
  intros p. left. by rewrite H.
Qed.

Lemma grown_cases (w w2 w3 : world) (p : path) :
  fs w2 = fs w -> only_adds_dirs w2 w3 ->
  fs w3 !! p = fs w !! p \/ (fs w !! p = None /\ fs w3 !! p = Some Dir).
Proof.
  intros H2 (Hsub & Hnew & _). rewrite <- H2.
  destruct (fs w3 !! p) as [n|] eqn:H3.
  - destruct (Hnew p n H3) as [H | ->]; [left; congruence|].
    destruct (fs w2 !! p) as [n2|] eqn:Hp2; [|by right].
    left. by rewrite (lookup_weaken _ _ _ _ Hp2 Hsub) in H3.
  - left. destruct (fs w2 !! p) as [n2|] eqn:Hp2; [|done].
    by rewrite (lookup_weaken _ _ _ _ Hp2 Hsub) in H3.
Qed.

Lemma touches_grown (in_file : path) (w w2 w3 w' : world) :
  fs w2 = fs w -> only_adds_dirs w2 w3 -> fs w' = fs w3 ->
  touches_only_output in_file w w'.
Proof.
  intros H2 Hadds H'. exists (reported_output in_file (stdout w')).
  split; [intros out_path; apply reported_output_spec|].
  intros p. rewrite H'.
  destruct (grown_cases w w2 w3 p H2 Hadds) as [H|H]; [by left|by right; left].
Qed.

Lemma touches_saved (in_file out_path : path) (data : encoded)
    (w w2 w3 w' : world) :
  fs w2 = fs w -> only_adds_dirs w2 w3 ->
  fs w3 !! out_path <> Some Dir ->
  fs w' = <[out_path := File data]> (fs w3) ->
  last (stdout w') = Some (MsgDone in_file out_path) ->
  touches_only_output in_file w w'.
Proof.
  intros H2 Hadds Hnode H' Hlast. exists out_path.
  split; [intros out_path'; rewrite Hlast; by intros [= <-]|].
  intros p. destruct (decide (out_path = p)) as [<-|Hne].
  - right. right. split; [done|]. split.
    + intros Hdir. apply Hnode. destruct Hadds as (Hsub & _).
      rewrite <- H2 in Hdir. by eapply lookup_weaken.
    + exists data. by rewrite H', lookup_insert_eq.
  - rewrite H', lookup_insert_ne by done.
    destruct (grown_cases w w2 w3 p H2 Hadds) as [H|H];
      [by left|by right; left].
Qed.

(** The goal of a branch that ends in an exception, from the fact [H]
    about worlds with the file system reached so far. *)
Ltac raised H := intros msg; by apply H.

Lemma process_file_body_touches (in_file out_root source_root : path)
    (f : font) (color_rgba : rgba) (position : string) (w : world) :
  wp (process_file_body in_file out_root source_root f color_rgba position) w
     (fun r w' =>
        match r with
        | Ret _ => touches_only_output in_file w w'
        | Raise _ => forall msg,
            touches_only_output in_file w
              (World (stdout w' ++ [msg]) (fs w') (heap w'))
        end).
Proof.
  unfold process_file_body. apply wp_bind.
  assert (forall w' : world, fs w' = fs w ->
            forall msg, touches_only_output in_file w
                          (World (stdout w' ++ [msg]) (fs w') (heap w')))
    as Hsame.
  { intros w' H msg. by apply touches_same. }
  destruct (FS.node_at (fs w) in_file) as [[|d]|] eqn:Hfile.
  1,3: by (eapply wp_eq; [unfold Image_open; by rewrite Hfile|];
          raised Hsame).
  destruct (decode d) as [i|e] eqn:Hdec.
  2:{ eapply wp_eq;
        [unfold Image_open; rewrite Hfile, bind_run; unfold Eff.lift;
         by rewrite Hdec|raised Hsame]. }
  eapply wp_eq; [exact (Image_open_spec _ _ _ _ Hfile Hdec)|].
  apply wp_bind, wp_load. cbn [set_heap heap stdout fs].
  rewrite lookup_snoc_eq.
  apply wp_bind, wp_lift.
  destruct (exif_date_text i) as [text|e]; [|raised Hsame].
  destruct (no_text text).
  { apply wp_print. by apply touches_same. }
  apply wp_bind. eapply wp_conseq; [|apply draw_watermark_spec].
  intros [out_img|e] w2 (_ & _ & Hfs2 & _ & _); [|raised Hsame].
  cbn [set_heap fs] in Hfs2.
  apply wp_bind. eapply wp_eq; [apply rel_path_run|].
  apply wp_bind.
  pose proof (mkdir_parents_only_adds
                (anchor (PyPath.parent (PyPath.join out_root
                           (rel_path_of in_file source_root))))
                (rev (parts (PyPath.parent (PyPath.join out_root
                           (rel_path_of in_file source_root))))) true w2)
    as Hadds.
  fold (FS.mkdir_p (PyPath.parent (PyPath.join out_root
              (rel_path_of in_file source_root)))) in Hadds.
  destruct (FS.mkdir_p (PyPath.parent (PyPath.join out_root
              (rel_path_of in_file source_root))) w2)
    as [[[]|e] w3] eqn:Hmk; (eapply wp_eq; [exact Hmk|]); cbn [snd] in Hadds.
  2:{ intros msg. by eapply touches_grown. }
  assert (forall w' : world, fs w' = fs w3 ->
            forall msg, touches_only_output in_file w
                          (World (stdout w' ++ [msg]) (fs w') (heap w')))
    as Hgrown.
  { intros w' H msg. by eapply touches_grown. }
  apply wp_bind, wp_load.
  destruct (heap w3 !! length (heap w)) as [i3|]; [|raised Hgrown].
  apply wp_bind. eapply wp_eq; [reflexivity|].
  apply wp_bind, wp_lift.
  destruct (PyPath.with_suffix _ _) as [out_path|e] eqn:Hsuf;
    [|raised Hgrown].
  apply wp_bind. unfold Image_save. apply wp_bind, wp_load.
  destruct (heap w3 !! out_img) as [o|]; [|raised Hgrown].
  apply wp_bind, wp_lift.
  destruct (encoder_check o (format_of i3) _) as [[]|e];
    [|raised Hgrown].
  unfold wp at 1. unfold write_file.
  destruct (FS.node_at (fs w3) (PyPath.parent out_path)) as [[|?]|];
    try raised Hgrown.
  assert (FS.node_at (fs w3) out_path <> Some Dir ->
          fs w3 !! out_path <> Some Dir) as Hnode.
  { unfold FS.node_at. destruct (parts out_path); [by intros []|done]. }
  destruct (FS.node_at (fs w3) out_path) as [[|?]|] eqn:Hout;
    try raised Hgrown;
    cbn [fst snd]; apply wp_print;
    (eapply touches_saved;
       [exact Hfs2|exact Hadds|by apply Hnode|reflexivity|];
     cbn [stdout]; apply last_snoc).
Qed.

(** X18: [process_file] never removes anything and writes one file at
    most: after the call every path holds what it held before, or a
    directory created where there was nothing, except for one path at
    most, which held no directory and now holds a file; when the console
    output ends with the success notice, that path is the reported one. *)
Theorem process_file_touches_only_output (in_file out_root source_root : path)
    (f : font) (color_rgba : rgba) (position : string) (w : world) :
  touches_only_output in_file w
    (process_file in_file out_root source_root f color_rgba position w).2.
Proof.
  change (wp (process_file in_file out_root source_root f color_rgba position)
             w (fun _ w' => touches_only_output in_file w w')).
  unfold process_file. apply wp_try_except.
  eapply wp_conseq; [|apply process_file_body_touches].
  intros [[]|e] w' Hpost; [done|]. apply wp_print, Hpost.
Qed.

(** ** [load_font]: which font is used *)

Lemma world_eta (w : world) (msgs : list message) :
  msgs = [] -> World (stdout w ++ msgs) (fs w) (heap w) = w.
Proof. intros ->. rewrite app_nil_r. by destruct w. Qed.

(** X19: a user font that loads is the font used: the bundled font is
    not consulted, nothing is printed, and the world is as it was. *)
Theorem load_font_prefers_user_font (p : string) (size : Z) (f : font)
    (w : world)
    (Hpath : p <> EmptyString)
    (Hloads : ImageFont_truetype p size = Ret f) :
  load_font (Some p) size w = (Ret f, w).
Proof.
  unfold load_font. apply String.eqb_neq in Hpath. rewrite Hpath, bind_run.
  unfold Eff.try_except. rewrite bind_run. unfold Eff.lift.
  by rewrite Hloads.
Qed.


Lemma parse_color_run (color : string) (w : world) :
  exists v msgs,
    parse_color color w = (Ret v, World (stdout w ++ msgs) (fs w) (heap w))
    /\ (msgs = [] \/ msgs = [MsgColorWarning color]).
Proof.
  unfold parse_color, parse_named, mbind, M_bind, Eff.lift, Eff.try_except,
    Eff.print, mret, M_ret.
  destruct (parse_hex_returns (PyStr.strip color)) as [o ->].
  destruct o as [v|].
  { exists v, []. rewrite world_eta by done. eauto. }
  destruct (ImageColor_getcolor _) as [[r g b|r g b a]|e];
    [eexists _, []; rewrite world_eta by done; eauto..|].
  eexists _, [_]. eauto.
Qed.

Lemma load_font_run (font_path : option string) (size : Z) (w : world) :
  exists f msgs,
    load_font font_path size w
    = (Ret f, World (stdout w ++ msgs) (fs w) (heap w))
    /\ (msgs = [] \/ exists p, font_path = Some p /\ msgs = [MsgFontWarning p]).
Proof.
  unfold load_font, mbind, M_bind, Eff.lift, Eff.try_except, Eff.print, mret,
    M_ret.
  destruct font_path as [p|]; [destruct (String.eqb p "")|].
  1,3: destruct (ImageFont_truetype "DejaVuSans.ttf" size);
       eexists _, []; rewrite world_eta by done; eauto.
  destruct (ImageFont_truetype p size) as [f|e].
  { eexists _, []. rewrite world_eta by done. eauto. }
  destruct (ImageFont_truetype "DejaVuSans.ttf" size); eexists _, [_]; eauto.
Qed.

(** ** [main] *)

Lemma split_components_no_slash (s : string) :
  Forall (fun c => PyPath.has_slash c = false) (PyStr.split "/" s).
Proof.
  induction s as [|c s IH]; cbn [PyStr.split]; [by constructor|].
  destruct (Ascii.eqb c "/") eqn:Hc; [by constructor|].
  assert (forall h, PyPath.has_slash h = false ->
            PyPath.has_slash (String c h) = false) as Hcons.
  { intros h Hh. unfold PyPath.has_slash in *. cbn [all_chars].
    rewrite Hc. done. }
  destruct (PyStr.split "/" s) as [|h t]; [constructor; by auto|].
  apply Forall_cons in IH as [Hh Ht]. constructor; by auto.
Qed.

Lemma last_no_slash (l : list string) :
  Forall (fun c => PyPath.has_slash c = false) l ->
  PyPath.has_slash (List.last l EmptyString) = false.
Proof.
  induction 1 as [|x l Hx Hl IH]; [done|]. by destruct l.
Qed.

Lemma removelast_no_slash (l : list string) :
  Forall (fun c => PyPath.has_slash c = false) l ->
  Forall (fun c => PyPath.has_slash c = false) (removelast l).
Proof.
  induction 1 as [|x l Hx Hl IH]; [done|]. cbn [removelast].
  destruct l; [done|]. by constructor.
Qed.

Lemma of_string_no_slash (s : string) :
  Forall (fun c => PyPath.has_slash c = false) (parts (PyPath.of_string s)).
Proof.
  unfold PyPath.of_string. cbn [parts].
  pose proof (split_components_no_slash s) as H.
  induction H as [|x l Hx Hl IH]; [done|]. cbn [List.filter].
  destruct (PyPath.is_component x); [by constructor|done].
Qed.

(** A path given on the command line has a base directory whose name is a
    single component. *)
Lemma base_dir_no_slash (s : string) (w : world) :
  PyPath.has_slash (PyPath.name (base_dir_of (PyPath.of_string s) w)) = false.
Proof.
  pose proof (of_string_no_slash s) as H. unfold base_dir_of.
  destruct (FS.node_at _ _) as [[|d]|]; try by apply last_no_slash.
  unfold PyPath.name, PyPath.parent. cbn [parts].
  by apply last_no_slash, removelast_no_slash.
Qed.


Lemma main_existing (args : Namespace) (w : world) (n : node) :
  FS.node_at (fs w) (PyPath.of_string (args_path args)) = Some n ->
  exists color_rgba f warnings,
    Forall (is_warning args) warnings
    /\ ~ (exists in_file out_path, last warnings = Some (MsgDone in_file out_path))
    /\ main args w
       = main_rest args color_rgba f
           (World (stdout w ++ warnings) (fs w) (heap w)).
Proof.
  intros Hn. unfold main. rewrite bind_run. unfold Eff.get. rewrite Hn.
  rewrite bind_run.
  destruct (parse_color_run (args_color args) w) as (v & m1 & -> & Hm1).
  rewrite bind_run.
  destruct (load_font_run (args_font_path args) (args_font_size args)
              (World (stdout w ++ m1) (fs w) (heap w)))
    as (f & m2 & -> & Hm2).
  cbn [stdout fs heap]. rewrite <- app_assoc.
  exists v, f, (m1 ++ m2). split; [|split; [|done]].
  - apply Forall_app. split.
    + destruct Hm1 as [-> | ->]; [done|]. constructor; [by left|done].
    + destruct Hm2 as [-> | (p & Hp & ->)]; [done|].
      constructor; [right; by exists p|done].
  - intros (in_file & out_path & Hlast).
    destruct Hm1 as [-> | ->], Hm2 as [-> | (p & Hp & ->)]; done.
Qed.
Lemma mirrored_output_path (a : string) (src rest : list string)
    (out_root out_path : path) :
  rest <> [] ->
  PyPath.with_suffix
    (PyPath.join out_root (rel_path_of (Path a (src ++ rest)) (Path a src)))
    (PyPath.suffix (Path a (src ++ rest))) = Ret out_path ->
  out_path = Path (anchor out_root) (parts out_root ++ rest).
Proof.
  intros Hrest Hsuf.
  assert (rel_path_of (Path a (src ++ rest)) (Path a src) = Path "" rest)
    as Hrel.
  { unfold rel_path_of, PyPath.relative_to. cbn [anchor parts].
    by rewrite String.eqb_refl, strip_prefix_app. }
  rewrite Hrel in Hsuf. unfold PyPath.join in Hsuf. cbn [anchor parts] in Hsuf.
  rewrite (suffix_of_name (Path a (src ++ rest))
             (Path (anchor out_root) (parts out_root ++ rest))) in Hsuf.
  - by apply with_suffix_own in Hsuf.
  - unfold PyPath.name. cbn [parts]. by rewrite !last_app_ne.
Qed.

Lemma own_parent_output_path (p out_root out_path : path) :
  parts p <> [] ->
  PyPath.with_suffix
    (PyPath.join out_root (rel_path_of p (PyPath.parent p)))
    (PyPath.suffix p) = Ret out_path ->
  out_path = Path (anchor out_root) (parts out_root ++ [PyPath.name p]).
Proof.
  destruct p as [a ps]. cbn [parts]. intros Hps.
  destruct (exists_last Hps) as (src & x & ->).
  rewrite parent_snoc, name_snoc. by apply mirrored_output_path.
Qed.

Lemma wp_ext {A} (m m' : M A) (w w' : world)
    (Q : result A -> world -> Prop) :
  m w = m' w' -> wp m' w' Q -> wp m w Q.
Proof. unfold wp. by intros ->. Qed.

(** Whatever [ensure_output_root] ends with, it has at most added
    directories; what it returns is the directory named after the base
    directory. *)
Lemma ensure_output_root_result (s : string) (w w' : world) (r : result path) :
  ensure_output_root (PyPath.of_string s) w = (r, w') ->
  only_adds_dirs w w'
  /\ forall out, r = Ret out ->
       out = watermark_dir_in (base_dir_of (PyPath.of_string s) w)
       /\ FS.node_at (fs w') out = Some Dir.
Proof.
  rewrite ensure_output_root_unfold by apply base_dir_no_slash.
  rewrite bind_run.
  pose proof (mkdir_parents_only_adds
                (anchor (watermark_dir_in (base_dir_of (PyPath.of_string s) w)))
                (rev (parts (watermark_dir_in
                               (base_dir_of (PyPath.of_string s) w))))
                true w) as Hadds.
  fold (FS.mkdir_p (watermark_dir_in (base_dir_of (PyPath.of_string s) w)))
    in Hadds.
  destruct (FS.mkdir_p _ w) as [[[]|e] w2] eqn:Hmk; cbn [snd] in Hadds;
    intros [= <- <-]; (split; [done|]); intros out [= <-].
  split; [done|]. unfold FS.mkdir_p in Hmk.
  apply mkdir_parents_ret in Hmk as (Hdir & _).
  rewrite rev_involutive in Hdir.
  by destruct (watermark_dir_in (base_dir_of (PyPath.of_string s) w)).
Qed.

(** X22: a single input file ends up in the directory
    [<parent>/<parent name>_watermark], under its own name: whenever
    [main], started on a path that is a file, ends its output with the
    success notice for it, the reported path is that one, and the saved
    file is there. *)
Theorem main_single_file_output (args : Namespace) (w : world) (d : encoded)
    (Hfile : FS.node_at (fs w) (PyPath.of_string (args_path args))
             = Some (File d)) :
  let input_path := PyPath.of_string (args_path args) in
  wp (main args) w
     (fun _ w' =>
        forall lines out_path,
          stdout w' = stdout w ++ lines ->
          last lines = Some (MsgDone input_path out_path) ->
          out_path
          = Path (anchor input_path)
                 (removelast (parts input_path)
                  ++ [PyPath.name (PyPath.parent input_path) +:+ "_watermark";
                      PyPath.name input_path])
          /\ exists saved, FS.node_at (fs w') out_path = Some (File saved)).
Proof.
  intros input_path.
  destruct (main_existing args w _ Hfile)
    as (color_rgba & f & warnings & _ & Hwarn & Hmain).
  eapply wp_ext; [exact Hmain|]. clear Hmain.
  set (w1 := World (stdout w ++ warnings) (fs w) (heap w)).
  unfold main_rest. fold input_path. apply wp_bind.
  destruct (ensure_output_root input_path w1) as [r w2] eqn:Hens.
  eapply wp_eq; [exact Hens|].
  apply ensure_output_root_result in Hens as (Hadds & Hroot).
  destruct Hadds as (Hsub & _ & Hstd & _).
  destruct r as [out_root|e].
  2:{ intros lines out_path Hout Hlast.
      rewrite Hstd in Hout. subst w1. cbn [stdout] in Hout.
      apply app_inv_head in Hout as <-. destruct Hwarn. eauto. }
  assert (base_dir_of input_path w1 = PyPath.parent input_path) as Hbase.
  { unfold base_dir_of. subst w1 input_path. cbn [fs]. by rewrite Hfile. }
  destruct (Hroot out_root eq_refl) as (Hout_root & _). clear Hroot.
  fold input_path in Hout_root. rewrite Hbase in Hout_root. subst out_root.
  assert (FS.node_at (fs w2) input_path = Some (File d)) as Hfile2.
  { by eapply node_at_mono. }
  apply wp_bind. eapply wp_eq; [unfold FS.is_file; by rewrite Hfile2|].
  assert (parts input_path <> []) as Hparts.
  { intros Hnil. unfold FS.node_at in Hfile2. by rewrite Hnil in Hfile2. }
  pose proof (process_file_saved input_path
                (watermark_dir_in (PyPath.parent input_path))
                (PyPath.parent input_path) f color_rgba (args_position args)
                w2) as Hsaved.
  unfold wp in *.
  destruct (process_file_returns input_path
              (watermark_dir_in (PyPath.parent input_path))
              (PyPath.parent input_path) f color_rgba (args_position args) w2)
    as (w3 & msg & Hrun & Hout3 & _).
  rewrite Hrun in *. cbn [fst snd] in *.
  intros lines out_path Hout Hlast.
  rewrite Hout3, Hstd in Hout. subst w1. cbn [stdout] in Hout.
  rewrite <- app_assoc in Hout. apply app_inv_head in Hout as <-.
  rewrite last_snoc in Hlast. injection Hlast as ->.
  destruct (Hsaved out_path) as (d' & i & _ & _ & (o & Hnode & _) & Hsuf).
  { by rewrite Hout3, last_snoc. }
  split; [|by eexists].
  apply own_parent_output_path in Hsuf; [|done].
  rewrite Hsuf. unfold watermark_dir_in, PyPath.parent. cbn [anchor parts].
  by rewrite <- app_assoc.
Qed.


(** ** The program never deletes *)

Lemma keeps_entries_same (w w' : world) : fs w' = fs w -> keeps_entries w w'.
Proof. intros H p n Hp. rewrite H, Hp. destruct n; eauto. Qed.

Lemma keeps_entries_trans (w1 w2 w3 : world) :
  keeps_entries w1 w2 -> keeps_entries w2 w3 -> keeps_entries w1 w3.
Proof.
  intros H12 H23 p n Hp. specialize (H12 p n Hp). destruct n as [|d].
  - exact (H23 p Dir H12).
  - destruct H12 as (d' & H12). exact (H23 p (File d') H12).
Qed.

Lemma only_adds_dirs_keeps (w w' : world) :
  only_adds_dirs w w' -> keeps_entries w w'.
Proof.
  intros (Hsub & _) p n Hp. rewrite (lookup_weaken _ _ _ _ Hp Hsub).
  destruct n; eauto.
Qed.

Lemma touches_keeps (in_file : path) (w w' : world) :
  touches_only_output in_file w w' -> keeps_entries w w'.
Proof.
  intros (q & _ & H) p n Hp.
  destruct (H p) as [Hsame|[[Hnone _]|(_ & Hnd & (d & Hd))]].
  - rewrite Hsame, Hp. destruct n; eauto.
  - congruence.
  - destruct n as [|d0]; [congruence|eauto].
Qed.

Lemma process_file_keeps (in_file out_root source_root : path) (f : font)
    (color_rgba : rgba) (position : string) (w : world) :
  keeps_entries w
    (process_file in_file out_root source_root f color_rgba position w).2.
Proof.
  change (wp (process_file in_file out_root source_root f color_rgba position)
             w (fun _ w' => keeps_entries w w')).
  unfold process_file. apply wp_try_except.
  eapply wp_conseq; [|apply process_file_body_touches].
  intros [[]|e] w' Hpost; [by eapply touches_keeps|].
  apply wp_print. eapply touches_keeps, Hpost.
Qed.

Lemma process_all_keeps (files : list path) (out_root source_root : path)
    (f : font) (color_rgba : rgba) (position : string) (count : Z) (w : world) :
  keeps_entries w
    (process_all files out_root source_root f color_rgba position count w).2.
Proof.
  revert count w. induction files as [|p files IH]; intros count w.
  - by apply keeps_entries_same.
  - cbn [process_all]. rewrite bind_run.
    pose proof (process_file_keeps p out_root source_root f color_rgba
                  position w) as Hp.
    destruct (process_file p out_root source_root f color_rgba position w)
      as [[[]|e] w1]; cbn [snd] in Hp; [|done].
    eapply keeps_entries_trans; [exact Hp|apply IH].
Qed.

(** X25: [main] never deletes anything and never turns a directory into
    a file or a file into a directory: whatever the arguments and however
    the run ends, every directory it found is still a directory and every
    file is still a file. *)
Theorem main_never_deletes (args : Namespace) (w : world) :
  keeps_entries w (main args w).2.
Proof.
  destruct (FS.node_at (fs w) (PyPath.of_string (args_path args)))
    as [n|] eqn:Hn.
  2:{ unfold main. rewrite bind_run. unfold Eff.get. rewrite Hn.
      by apply keeps_entries_same. }
  destruct (main_existing args w _ Hn)
    as (color_rgba & f & warnings & _ & _ & ->).
  set (w1 := World (stdout w ++ warnings) (fs w) (heap w)).
  apply (keeps_entries_trans w w1); [by apply keeps_entries_same|].
  change (wp (main_rest args color_rgba f) w1
             (fun _ w' => keeps_entries w1 w')).
  unfold main_rest. apply wp_bind.
  destruct (ensure_output_root (PyPath.of_string (args_path args)) w1)
    as [r w2] eqn:Hens.
  eapply wp_eq; [exact Hens|].
  apply ensure_output_root_result in Hens as (Hadds%only_adds_dirs_keeps & _).
  destruct r as [out_root|e]; [|done].
  apply wp_bind. eapply wp_eq; [reflexivity|].
  destruct (match FS.node_at (fs w2) (PyPath.of_string (args_path args)) with
            | Some (File _) => true
            | _ => false
            end).
  - unfold wp. eapply keeps_entries_trans; [exact Hadds|].
    apply process_file_keeps.
  - apply wp_bind. eapply wp_eq; [reflexivity|]. apply wp_bind.
    pose proof (process_all_keeps
                  (walk_images (PyPath.of_string (args_path args)) (fs w2))
                  out_root (PyPath.of_string (args_path args)) f color_rgba
                  (args_position args) 0 w2) as Hall.
    destruct (process_all _ _ _ _ _ _ _ w2) as [[count|e] w3] eqn:Hrun;
      cbn [snd] in Hall;
      (eapply wp_eq; [exact Hrun|]);
      [|by eapply keeps_entries_trans].
    unfold wp. apply (keeps_entries_trans w1 w3);
      [by eapply keeps_entries_trans|].
    apply keeps_entries_same. by destruct (count =? 0).
Qed.

End Watermark.

(** * The program on the sample instance *)

(** C1 as stated fails: a date with four colon-separated fields has the
    wrong field count, and still a date is returned, read from the first
    three fields. *)
Lemma exif_date_text_accepts_four_fields :
  length (date_fields (EStr "2023:07:04:05 10:20:30")) = 4%nat
  /\ exif_date_text Sample.int_max_str_digits Sample.four_fields
     = Ret (Some "2023-07-04")
  /\ exif_date_text Sample.int_max_str_digits Sample.four_fields <> Ret None.
Proof. split; [reflexivity|]. split; [reflexivity|]. intros H. discriminate H. Qed.

Example exif_date_text_slashes :
  exif_date_text Sample.int_max_str_digits Sample.slashes = Ret None.
Proof. reflexivity. Qed.

Example parse_color_examples :
  parse_color Sample.int_max_str_digits Sample.getcolor "#FFFFFF" Sample.one_photo
  = (Ret (255, 255, 255, 255), Sample.one_photo)
  /\ parse_color Sample.int_max_str_digits Sample.getcolor "red" Sample.one_photo
     = (Ret (255, 0, 0, 255), Sample.one_photo)
  /\ parse_color Sample.int_max_str_digits Sample.getcolor "not-a-color"
       Sample.one_photo
     = (Ret (255, 255, 255, 255),
        World [MsgColorWarning "not-a-color"] ∅ [Sample.photo]).
Proof. repeat split; reflexivity. Qed.

(** A corrupt file followed by a good one: the first gets its error
    notice, the second is watermarked and saved. *)
Example batch_with_corrupt_file :
  stdout (process_all Sample.int_max_str_digits Sample.transpose_pixels
            Sample.exif_tobytes Sample.convert_pixels Sample.blank_pixels
            Sample.textbbox Sample.draw_text_pixels Sample.composite_pixels
            Sample.decode Sample.encoder_check
            [Sample.broken_file; Sample.photo_file] Sample.out_dir
            Sample.photos_dir DefaultFont (255, 255, 255, 255) "bottom-right" 0
            Sample.batch_world).2
  = [MsgError Sample.broken_file (OSError "cannot identify image file");
     MsgDone Sample.photo_file
             (Path "/" ["data"; "photos"; "photos_watermark"; "a.jpg"])].
Proof. vm_compute. reflexivity. Qed.

(** The photo is stored rotated: the saved image has the sides exchanged,
    and the EXIF blob written with it is the one read from the input. *)
Example rotated_photo_keeps_blob :
  exists saved,
    fs (process_file Sample.int_max_str_digits Sample.transpose_pixels
          Sample.exif_tobytes Sample.convert_pixels Sample.blank_pixels
          Sample.textbbox Sample.draw_text_pixels Sample.composite_pixels
          Sample.decode Sample.encoder_check Sample.photo_file Sample.out_dir
          Sample.photos_dir DefaultFont (255, 255, 255, 255) "bottom-right"
          Sample.batch_world).2
    !! Path "/" ["data"; "photos"; "photos_watermark"; "a.jpg"]
    = Some (File saved)
    /\ (im_width Sample.photo, im_height Sample.photo) = (4, 3)
    /\ (im_width (enc_image saved), im_height (enc_image saved)) = (3, 4)
    /\ im_mode (enc_image saved) = im_mode Sample.photo
    /\ enc_kwargs saved = SaveKwargs (Some 95) (Some 2) (Some Sample.blob).
Proof. eexists. split; [vm_compute; reflexivity|]. repeat split. Qed.

(** ** The theorems at concrete inputs *)

Lemma exif_date_text_spec_witness :
  exif_date_text Sample.int_max_str_digits Sample.photo
  = Ret (Some "2023-07-04").
Proof.
  destruct (exif_date_text_spec Sample.int_max_str_digits Sample.photo)
    as (_ & _ & H).
  destruct (H _ eq_refl) as (_ & _ & _ & H4).
  exact (H4 (EStr "2023:07:04 10:20:30") eq_refl eq_refl).
Defined.

Lemma parse_color_hex8_alpha_first_witness :
  parse_color Sample.int_max_str_digits Sample.getcolor "#80FF0000"
    Sample.one_photo
  = (Ret (255, 0, 0, 128), Sample.one_photo).
Proof.
  exact (parse_color_hex8_alpha_first Sample.int_max_str_digits
           Sample.getcolor "8" "0" "F" "F" "0" "0" "0" "0" 8 0 15 15 0 0 0 0
           Sample.one_photo eq_refl eq_refl eq_refl eq_refl eq_refl eq_refl
           eq_refl eq_refl).
Defined.

Lemma ensure_output_root_inside_base_witness :
  PyPath.has_slash (PyPath.name (base_dir_of Sample.photos_dir
                                             Sample.photos_world)) = false
  /\ exists w', ensure_output_root Sample.photos_dir Sample.photos_world
                = (Ret Sample.out_dir, w').
Proof.
  split; [reflexivity|].
  apply (ensure_output_root_inside_base Sample.photos_dir Sample.photos_world
           eq_refl).
  - reflexivity.
  - intros d H. discriminate H.
Defined.

Lemma calc_position_center_floor_witness :
  (calc_position 100 50 31 10 "center" default_margin).1 = (100 - 31) ÷ 2.
Proof.
  destruct (calc_position_center_floor 100 50 31 10 default_margin)
    as (_ & _ & _ & _ & _ & _ & H & _).
  apply H. lia.
Defined.

Lemma calc_position_corners_margin_witness :
  default_margin <= (calc_position 10 10 13 13 "top-right" default_margin).1
  /\ default_margin <= (calc_position 10 10 13 13 "top-right" default_margin).2.
Proof.
  apply (calc_position_corners_margin 10 10 13 13 default_margin "top-right").
  repeat constructor.
Defined.



Lemma draw_watermark_leaves_input_witness :
  exists out,
    (draw_watermark Sample.transpose_pixels Sample.exif_tobytes
       Sample.convert_pixels Sample.blank_pixels Sample.textbbox
       Sample.draw_text_pixels Sample.composite_pixels 0 "2023-07-04"
       DefaultFont (255, 255, 255, 255) "bottom-right" Sample.one_photo).1
    = Ret out.
Proof.
  destruct (draw_watermark_leaves_input Sample.transpose_pixels
              Sample.exif_tobytes Sample.convert_pixels Sample.blank_pixels
              Sample.textbbox Sample.draw_text_pixels Sample.composite_pixels
              0%nat "2023-07-04" DefaultFont (255, 255, 255, 255)
              "bottom-right" Sample.one_photo) as (_ & _ & _ & _ & H).
  apply (H Sample.photo eq_refl).
  repeat split; intros; eexists; reflexivity.
Defined.

Lemma process_file_keeps_exif_blob_witness :
  saved_with_exif
    (process_file Sample.int_max_str_digits Sample.transpose_pixels
       Sample.exif_tobytes Sample.convert_pixels Sample.blank_pixels
       Sample.textbbox Sample.draw_text_pixels Sample.composite_pixels
       Sample.decode Sample.encoder_check Sample.photo_file Sample.out_dir
       Sample.photos_dir DefaultFont (255, 255, 255, 255) "bottom-right"
       Sample.batch_world).2
    (Path "/" ["data"; "photos"; "photos_watermark"; "a.jpg"])
    "JPEG" Sample.blob.
Proof.
  apply (process_file_keeps_exif_blob Sample.int_max_str_digits
           Sample.transpose_pixels Sample.exif_tobytes Sample.convert_pixels
           Sample.blank_pixels Sample.textbbox Sample.draw_text_pixels
           Sample.composite_pixels Sample.decode Sample.encoder_check
           Sample.photo_file Sample.out_dir Sample.photos_dir DefaultFont
           (255, 255, 255, 255) "bottom-right" Sample.batch_world
           (Encoded Sample.photo "JPEG" Sample.no_kwargs) Sample.photo
           Sample.blob).
  - reflexivity.
  - reflexivity.
  - left. reflexivity.
  - reflexivity.
  - intros H. discriminate H.
  - vm_compute. reflexivity.
Defined.

Lemma calc_position_other_is_bottom_right_witness :
  calc_position 10 10 13 13 "bottom_right" default_margin
  = calc_position 10 10 13 13 "bottom-right" default_margin
  /\ calc_position 10 10 13 13 "bottom_right" default_margin = (10, 10).
Proof.
  apply (calc_position_other_is_bottom_right 10 10 13 13 default_margin
           "bottom_right"); intros H; discriminate H.
Defined.

Lemma calc_position_corner_inside_witness :
  (calc_position 100 50 31 10 "bottom-right" default_margin).1 + 31
  = 100 - default_margin
  /\ (calc_position 100 50 31 10 "bottom-right" default_margin).2 + 10
     = 50 - default_margin.
Proof.
  pose proof (calc_position_corner_inside 100 50 31 10 default_margin
                "bottom-right") as H.
  cbv zeta in H.
  destruct H as (_ & _ & _ & Hx & _ & Hy);
    [repeat constructor|unfold default_margin; lia..|].
  split; [apply Hx|apply Hy]; repeat constructor.
Defined.

Lemma calc_position_center_inside_witness :
  0 <= (calc_position 100 50 31 10 "center" default_margin).1
  /\ (calc_position 100 50 31 10 "center" default_margin).1 + 31 <= 100
  /\ 0 <= (calc_position 100 50 31 10 "center" default_margin).2
  /\ (calc_position 100 50 31 10 "center" default_margin).2 + 10 <= 50.
Proof.
  apply (calc_position_center_inside 100 50 31 10 default_margin); lia.
Defined.


Lemma parse_color_hex6_opaque_witness :
  parse_color Sample.int_max_str_digits Sample.getcolor "#FF8000"
    Sample.one_photo
  = (Ret (255, 128, 0, 255), Sample.one_photo).
Proof.
  apply (parse_color_hex6_opaque Sample.int_max_str_digits Sample.getcolor
           "F" "F" "8" "0" "0" "0" 15 15 8 0 0 0 Sample.one_photo
           eq_refl eq_refl eq_refl eq_refl eq_refl eq_refl).
Defined.

Lemma parse_color_named_witness :
  parse_color Sample.int_max_str_digits Sample.getcolor " red "
    Sample.one_photo
  = (Ret (255, 0, 0, 255), Sample.one_photo).
Proof.
  exact (parse_color_named Sample.int_max_str_digits Sample.getcolor " red "
           (RGB 255 0 0) Sample.one_photo eq_refl eq_refl).
Defined.

Lemma parse_color_hex8_negative_witness :
  parse_color Sample.int_max_str_digits Sample.getcolor "#-1-2-3-4"
    Sample.one_photo
  = (Ret (-2, -3, -4, -1), Sample.one_photo).
Proof.
  exact (parse_color_hex8_negative Sample.int_max_str_digits Sample.getcolor
           "1" "2" "3" "4" 1 2 3 4 Sample.one_photo
           eq_refl eq_refl eq_refl eq_refl).
Defined.

Lemma exif_date_text_no_fallback_on_malformed_witness :
  exif_date_text Sample.int_max_str_digits Sample.malformed = Ret None.
Proof.
  apply (exif_date_text_no_fallback_on_malformed Sample.int_max_str_digits
           Sample.malformed
           {[ EXIF_TAG_DATETIME_ORIGINAL := EStr "2023-07-04";
              EXIF_TAG_DATETIME := EStr "2023:07:04 10:20:30" ]}
           (EStr "2023-07-04")).
  - reflexivity.
  - reflexivity.
  - reflexivity.
  - vm_compute. lia.
Defined.

Lemma exif_date_text_at_least_ten_witness :
  (10 <= String.length "2023-07-04")%nat.
Proof.
  apply (exif_date_text_at_least_ten Sample.int_max_str_digits Sample.photo).
  reflexivity.
Defined.

Lemma exif_date_text_canonical_witness :
  exif_date_text Sample.int_max_str_digits Sample.photo
  = Ret (Some (date_text 2023 7 4)).
Proof.
  apply (exif_date_text_canonical Sample.int_max_str_digits Sample.photo
           {[ EXIF_TAG_DATETIME_ORIGINAL := EStr "2023:07:04 10:20:30";
              EXIF_TAG_ORIENTATION := EInt 6 ]}
           2023 7 4 "10:20:30"); [reflexivity|reflexivity|lia..].
Defined.

Lemma ensure_output_root_idempotent_witness :
  ensure_output_root Sample.photos_dir
    (ensure_output_root Sample.photos_dir Sample.photos_world).2
  = (Ret Sample.out_dir,
     (ensure_output_root Sample.photos_dir Sample.photos_world).2).
Proof.
  apply (ensure_output_root_idempotent Sample.photos_dir Sample.photos_world).
  vm_compute. reflexivity.
Defined.

Lemma ensure_output_root_blocked_by_file_witness :
  ensure_output_root Sample.photos_dir Sample.blocked_world
  = (Raise (FileExistsError "file exists"), Sample.blocked_world).
Proof.
  apply (ensure_output_root_blocked_by_file Sample.photos_dir
           Sample.blocked_world (Encoded Sample.photo "JPEG" Sample.no_kwargs));
    vm_compute; reflexivity.
Defined.

Lemma is_image_file_by_extension_witness :
  is_image_file Sample.photo_file Sample.batch_world
  = (Ret true, Sample.batch_world).
Proof.
  assert ("a" <> EmptyString) as Hstem by (intros H; discriminate H).
  assert ("jpg" <> EmptyString) as Hext by (intros H; discriminate H).
  pose proof (is_image_file_by_extension "/" ["data"; "photos"] "a" "jpg"
                Sample.batch_world Hstem Hext eq_refl) as H.
  cbv zeta in H. destruct H as (H & _).
  apply (H (Encoded Sample.photo "JPEG" Sample.no_kwargs)).
  - vm_compute. reflexivity.
  - change (PyStr.lower "jpg") with "jpg". repeat constructor.
Defined.

Lemma is_image_file_needs_extension_witness :
  is_image_file (Path "/" ["data"; "photos"; ".jpg"]) Sample.batch_world
  = (Ret false, Sample.batch_world).
Proof.
  apply (is_image_file_needs_extension "/" ["data"; "photos"] ".jpg"
           Sample.batch_world).
  reflexivity.
Defined.
Lemma process_file_mirrors_source_tree_witness :
  exists saved,
    FS.node_at
      (fs (process_file Sample.int_max_str_digits Sample.transpose_pixels
             Sample.exif_tobytes Sample.convert_pixels Sample.blank_pixels
             Sample.textbbox Sample.draw_text_pixels Sample.composite_pixels
             Sample.decode Sample.encoder_check Sample.photo_file
             Sample.out_dir Sample.photos_dir DefaultFont
             (255, 255, 255, 255) "bottom-right" Sample.batch_world).2)
      (Path "/" ["data"; "photos"; "photos_watermark"; "a.jpg"])
    = Some (File saved).
Proof.
  assert (["a.jpg"] <> @nil string) as Hrest by (intros H; discriminate H).
  refine (proj2 (process_file_mirrors_source_tree Sample.int_max_str_digits
           Sample.transpose_pixels Sample.exif_tobytes Sample.convert_pixels
           Sample.blank_pixels Sample.textbbox Sample.draw_text_pixels
           Sample.composite_pixels Sample.decode Sample.encoder_check
           "/" ["data"; "photos"] ["a.jpg"] Sample.out_dir DefaultFont
           (255, 255, 255, 255) "bottom-right" Sample.batch_world Hrest
           (Path "/" ["data"; "photos"; "photos_watermark"; "a.jpg"]) _)).
  vm_compute. reflexivity.
Defined.

Lemma process_file_outside_root_is_flat_witness :
  exists saved,
    FS.node_at
      (fs (process_file Sample.int_max_str_digits Sample.transpose_pixels
             Sample.exif_tobytes Sample.convert_pixels Sample.blank_pixels
             Sample.textbbox Sample.draw_text_pixels Sample.composite_pixels
             Sample.decode Sample.encoder_check Sample.photo_file
             Sample.out_dir (Path "/" ["elsewhere"]) DefaultFont
             (255, 255, 255, 255) "bottom-right" Sample.batch_world).2)
      (Path "/" ["data"; "photos"; "photos_watermark"; "a.jpg"])
    = Some (File saved).
Proof.
  refine (proj2 (process_file_outside_root_is_flat Sample.int_max_str_digits
           Sample.transpose_pixels Sample.exif_tobytes Sample.convert_pixels
           Sample.blank_pixels Sample.textbbox Sample.draw_text_pixels
           Sample.composite_pixels Sample.decode Sample.encoder_check
           Sample.photo_file Sample.out_dir (Path "/" ["elsewhere"])
           DefaultFont (255, 255, 255, 255) "bottom-right" Sample.batch_world
           (ValueError "path is not in the subpath of the other")
           eq_refl eq_refl eq_refl
           (Path "/" ["data"; "photos"; "photos_watermark"; "a.jpg"]) _)).
  vm_compute. reflexivity.
Defined.


Lemma load_font_prefers_user_font_witness :
  load_font Sample.truetype (Some "/fonts/arial.ttf") 36 Sample.one_photo
  = (Ret (TrueType "/fonts/arial.ttf" 36), Sample.one_photo).
Proof.
  apply (load_font_prefers_user_font Sample.truetype "/fonts/arial.ttf" 36
           (TrueType "/fonts/arial.ttf" 36) Sample.one_photo).
  - intros H. discriminate H.
  - reflexivity.
Defined.


Lemma main_single_file_output_witness :
  exists saved,
    FS.node_at
      (fs (main Sample.int_max_str_digits Sample.getcolor
             Sample.transpose_pixels Sample.exif_tobytes Sample.convert_pixels
             Sample.blank_pixels Sample.textbbox Sample.draw_text_pixels
             Sample.composite_pixels Sample.decode Sample.encoder_check
             Sample.truetype Sample.walk
             (Build_Namespace "/data/photos/a.jpg" 36 "#FFFFFF" "bottom-right"
                None)
             Sample.batch_world).2)
      (Path "/" ["data"; "photos"; "photos_watermark"; "a.jpg"])
    = Some (File saved).
Proof.
  refine (proj2 (main_single_file_output Sample.int_max_str_digits
           Sample.getcolor Sample.transpose_pixels Sample.exif_tobytes
           Sample.convert_pixels Sample.blank_pixels Sample.textbbox
           Sample.draw_text_pixels Sample.composite_pixels Sample.decode
           Sample.encoder_check Sample.truetype Sample.walk
           (Build_Namespace "/data/photos/a.jpg" 36 "#FFFFFF" "bottom-right"
              None)
           Sample.batch_world (Encoded Sample.photo "JPEG" Sample.no_kwargs)
           _
           [MsgDone Sample.photo_file
              (Path "/" ["data"; "photos"; "photos_watermark"; "a.jpg"])]
           (Path "/" ["data"; "photos"; "photos_watermark"; "a.jpg"]) _ _)).
  - vm_compute. reflexivity.
  - vm_compute. reflexivity.
  - vm_compute. reflexivity.
Defined.



Lemma process_file_saves_in_input_format_witness :
  exists saved,
    FS.node_at
      (fs (process_file Sample.int_max_str_digits Sample.transpose_pixels
             Sample.exif_tobytes Sample.convert_pixels Sample.blank_pixels
             Sample.textbbox Sample.draw_text_pixels Sample.composite_pixels
             Sample.decode Sample.encoder_check Sample.photo_file
             Sample.out_dir Sample.photos_dir DefaultFont
             (255, 255, 255, 255) "bottom-right" Sample.batch_world).2)
      (Path "/" ["data"; "photos"; "photos_watermark"; "a.jpg"])
    = Some (File saved)
    /\ enc_format saved = "JPEG"
    /\ kw_quality (enc_kwargs saved) = Some 95
    /\ kw_subsampling (enc_kwargs saved) = Some 2.
Proof.
  destruct (process_file_saves_in_input_format Sample.int_max_str_digits
              Sample.transpose_pixels Sample.exif_tobytes
              Sample.convert_pixels Sample.blank_pixels Sample.textbbox
              Sample.draw_text_pixels Sample.composite_pixels Sample.decode
              Sample.encoder_check Sample.photo_file Sample.out_dir
              Sample.photos_dir DefaultFont (255, 255, 255, 255)
              "bottom-right" Sample.batch_world
              (Path "/" ["data"; "photos"; "photos_watermark"; "a.jpg"]))
    as (d & i & saved & Hfile & Hdec & Hnode & Hfmt & _ & Hq & Hs & _).
  { vm_compute. reflexivity. }
  vm_compute in Hfile. injection Hfile as <-.
  vm_compute in Hdec. injection Hdec as <-.
  exists saved. split; [exact Hnode|]. split; [exact Hfmt|].
  split; [exact Hq|exact Hs].
Defined.
